(** * Verification of the mail-service test harness scripts

    A shallow embedding of the Python scripts of the repository
    (send_test_mail.py, test_external_email.py, scripts/send_test_email.py
    and the scripts under scripts/ws/) together with the properties their
    specification states about them.

    The scripts talk to an HTTP API (through [requests]), to an SMTP
    listener (through [smtplib]) and to the machine they run on (clock,
    terminal, one file).  The outside world is a record of oracles;
    every script is a function of that record which yields its result,
    the number of outside calls it made and the list of the effects it
    performed, in order.

    What the embedding takes for granted: standard output accepts every
    text; building a MIME object ([MIMEText], [MIMEMultipart], setting a
    header) does not raise, serialising it ([as_string]) belongs to the
    SMTP session; formatting an object into an f-string does not raise;
    the interpreter is not interrupted from outside; and [main] starts
    from a command line that [argparse] has accepted. *)

From Stdlib Require Import ZArith List String Ascii Bool Lia Arith.
From Stdlib Require Import DecimalString Decimal DecimalPos.
Import ListNotations.
Open Scope string_scope.
Open Scope Z_scope.

(** ** Python values and exceptions *)

(** A [float]: not a number, an infinity, or [(-1)^neg * m * 2^e].  The
    scripts only test numbers for truth and print them. *)
Inductive pyfloat : Type :=
| FNan
| FInf (neg : bool)
| FFinite (neg : bool) (m : N) (e : Z).

(** The values the scripts handle are the ones [json.loads] produces,
    plus what the scripts build from them.  A [VStr] holds the UTF-8
    bytes of a Python [str]; a [VDict] holds the items of a dict in
    insertion order, the first binding of a key being the one in
    force. *)
#[local] Set Warnings "-register-all".
Inductive value : Type :=
| VNone
| VBool (b : bool)
| VInt (z : Z)
| VFloat (f : pyfloat)
| VStr (s : string)
| VList (l : list value)
| VDict (items : list (string * value)).

(** The exceptions the scripts can meet, all of them subclasses of
    [Exception]: the classes the scripts or the built-in operations name,
    and any other class, with whether it derives from [OSError]. *)
Inductive exn : Type :=
| AttributeError
| KeyError
| TypeError
| ValueError
| ConnectionError
| SMTPException
| OSError
| EOFError
| OtherException (name : string) (os_error : bool).

Inductive result (A : Type) : Type :=
| Ok (a : A)
| Raise (e : exn).
Arguments Ok {A} a.
Arguments Raise {A} e.

(** [except socket.error] is [except OSError]; [ConnectionError] and
    [smtplib.SMTPException] are subclasses of [OSError]. *)
Definition isinstance_OSError (e : exn) : bool :=
  match e with
  | OSError | ConnectionError | SMTPException => true
  | OtherException _ os_error => os_error
  | _ => false
  end.

Definition isinstance_SMTPException (e : exn) : bool :=
  match e with SMTPException => true | _ => false end.

Definition is_ok {A} (r : result A) : bool :=
  match r with Ok _ => true | Raise _ => false end.

(** *** Strings *)

(** A byte [10xxxxxx] continues a UTF-8 sequence; every other byte
    starts a character. *)
Definition is_cont (c : ascii) : bool :=
  let n := N_of_ascii c in ((128 <=? n) && (n <? 192))%N.

(** [len(s)] of a [str]: the number of characters. *)
Fixpoint str_len (s : string) : nat :=
  match s with
  | EmptyString => 0%nat
  | String c r => if is_cont c then str_len r else S (str_len r)
  end.

(** [s[:n]] of a [str]: its first [n] characters. *)
Fixpoint str_take (n : nat) (s : string) : string :=
  match s with
  | EmptyString => EmptyString
  | String c r =>
      if is_cont c then String c (str_take n r)
      else match n with
           | O => EmptyString
           | S n' => String c (str_take n' r)
           end
  end.

(** The characters of a [str], each as a one-character [str]
    (iteration over a string). *)
Fixpoint str_chars_aux (cur : option string) (s : string) : list string :=
  match s with
  | EmptyString => match cur with Some c => [c] | None => [] end
  | String c r =>
      if is_cont c then
        str_chars_aux
          (Some (match cur with Some p => p ++ String c "" | None => String c "" end)) r
      else
        match cur with
        | Some p => p :: str_chars_aux (Some (String c "")) r
        | None => str_chars_aux (Some (String c "")) r
        end
  end.

Definition str_chars (s : string) : list string := str_chars_aux None s.

(** [str(n)] of an [int]. *)
Definition str_of_Z (z : Z) : string :=
  match z with
  | Z0 => "0"
  | Zpos p => NilEmpty.string_of_uint (Pos.to_uint p)
  | Zneg p => "-" ++ NilEmpty.string_of_uint (Pos.to_uint p)
  end.

(** *** Dictionaries *)

Fixpoint lookup (k : string) (items : list (string * value)) : option value :=
  match items with
  | [] => None
  | (k', v) :: rest => if String.eqb k k' then Some v else lookup k rest
  end.

Definition has_key (k : string) (items : list (string * value)) : bool :=
  match lookup k items with Some _ => true | None => false end.

(** The keys of a dict, each once, in insertion order. *)
Fixpoint first_occurrences (l : list string) : list string :=
  match l with
  | [] => []
  | k :: rest =>
      k :: filter (fun k' => negb (String.eqb k k')) (first_occurrences rest)
  end.

Definition keys (items : list (string * value)) : list string :=
  first_occurrences (map fst items).

(** *** Built-in operations *)

(** Truth value of an object ([if x], [not x], [x and y]). *)
Definition truthy (v : value) : bool :=
  match v with
  | VNone => false
  | VBool b => b
  | VInt z => negb (z =? 0)
  | VFloat (FFinite _ m _) => negb (m =? 0)%N
  | VFloat _ => true
  | VStr s => negb (String.eqb s "")
  | VList l => match l with [] => false | _ => true end
  | VDict items => match items with [] => false | _ => true end
  end.

(** [v.get(k, default)]: only a dict has the method. *)
Definition py_get (v : value) (k : string) (default : value) : result value :=
  match v with
  | VDict items =>
      Ok (match lookup k items with Some x => x | None => default end)
  | _ => Raise AttributeError
  end.

(** [v[k]] with a string key. *)
Definition py_item (v : value) (k : string) : result value :=
  match v with
  | VDict items =>
      match lookup k items with Some x => Ok x | None => Raise KeyError end
  | _ => Raise TypeError
  end.

(** [k in v] with a string [k]. *)
Definition py_in (k : string) (v : value) : result bool :=
  match v with
  | VDict items => Ok (has_key k items)
  | VList l =>
      Ok (existsb (fun x => match x with VStr s => String.eqb s k | _ => false end) l)
  | VStr s => Ok (match index 0 k s with Some _ => true | None => false end)
  | _ => Raise TypeError
  end.

(** [len(v)]. *)
Definition py_len (v : value) : result Z :=
  match v with
  | VStr s => Ok (Z.of_nat (str_len s))
  | VList l => Ok (Z.of_nat (List.length l))
  | VDict items => Ok (Z.of_nat (List.length (keys items)))
  | _ => Raise TypeError
  end.

(** [v[:n]]: strings and lists can be sliced.  A dict raises as the
    other values do ([TypeError] before Python 3.12, [KeyError] from
    3.12 on; the scripts catch both alike). *)
Definition py_slice_to (v : value) (n : nat) : result value :=
  match v with
  | VStr s => Ok (VStr (str_take n s))
  | VList l => Ok (VList (firstn n l))
  | _ => Raise TypeError
  end.

(** The elements [for x in v] runs over. *)
Definition py_iter (v : value) : result (list value) :=
  match v with
  | VStr s => Ok (map VStr (str_chars s))
  | VList l => Ok l
  | VDict items => Ok (map VStr (keys items))
  | _ => Raise TypeError
  end.

Definition isinstance_list (v : value) : bool :=
  match v with VList _ => true | _ => false end.

Definition isinstance_dict (v : value) : bool :=
  match v with VDict _ => true | _ => false end.


(** ** Effects *)

(** An f-string is kept as its pieces: literal text and the objects
    substituted into it ([str] of a value, of its type, of an
    exception). *)
Inductive piece : Type :=
| Lit (s : string)
| Val (v : value)
| Typ (v : value)
| Err (e : exn).

Definition fstr : Type := list piece.

(** [s * n] of a string. *)
Fixpoint str_repeat (s : string) (n : nat) : string :=
  match n with O => "" | S n' => s ++ str_repeat s n' end.

Definition nl : string := String (ascii_of_nat 10) "".

(** MIME objects as [email.mime] builds them. *)
Record part : Type := MkPart {
  payload : fstr;
  subtype : string;
  charset : option string
}.

Inductive mime : Type :=
| Text (p : part)
| Multipart (kind : string) (parts : list part).

Record message : Type := MkMessage {
  msg_from : string;
  msg_to : value;
  msg_subject : string;
  msg_body : mime
}.

(** What is handed to an SMTP server: [smtplib.SMTP(host, port)], then
    [sendmail(from, to, msg.as_string())]. *)
Record delivery : Type := MkDelivery {
  host : string;
  port : Z;
  mail_from : string;
  rcpt_to : value;
  data : message
}.

Inductive method : Type := GET | POST.

Record request : Type := MkRequest {
  meth : method;
  url : fstr;
  headers : list (string * fstr);
  timeout : option Z
}.

(** What the scripts read of a [requests.Response]; [json] is the
    outcome of [response.json()]. *)
Record response : Type := MkResponse {
  status_code : Z;
  text : string;
  json : result value
}.

(** The outside world.  Every oracle is indexed by the number of outside
    calls made so far in the run, so that two calls with the same
    arguments may be answered differently.  [smtp] answers a whole
    session (connect, [sendmail], [quit]) run without anything in
    between; [smtp_connect], [smtp_sendmail] and [smtp_quit] answer its
    steps where a script does something between them. *)
Record world : Type := MkWorld {
  http : nat -> request -> result response;
  smtp : nat -> delivery -> result unit;
  smtp_connect : nat -> string -> Z -> result unit;
  smtp_sendmail : nat -> delivery -> result unit;
  smtp_quit : nat -> result unit;
  strftime : nat -> string;
  unix_time : nat -> Z;
  input : nat -> string -> result string;
  write_file : nat -> string -> fstr -> result unit
}.

Inductive event : Type :=
| EOut (line : fstr)            (* print(...) *)
| ETraceback (e : exn)          (* traceback.print_exc(), on stderr *)
| ESleep (secs : Z)             (* time.sleep(secs) *)
| EHttp (r : request)
| ESmtp (d : delivery)
| EConnect (host : string) (port : Z)
| ESendmail (d : delivery)
| EQuit
| EInput (prompt : string)
| EFile (path : string) (text : fstr).

Record run (A : Type) : Type := Run {
  res : result A;
  tick : nat;
  trace : list event
}.
Arguments Run {A} res tick trace.
Arguments res {A} r.
Arguments tick {A} r.
Arguments trace {A} r.

(** A computation starts at a call count and yields a [run]. *)
Definition M (A : Type) : Type := nat -> run A.

Definition ret {A} (a : A) : M A := fun n => Run (Ok a) n [].

Definition lift {A} (r : result A) : M A := fun n => Run r n [].

Definition bind {A B} (m : M A) (f : A -> M B) : M B :=
  fun n =>
    match m n with
    | Run (Ok a) n1 t1 =>
        match f a n1 with
        | Run r n2 t2 => Run r n2 (t1 ++ t2)%list
        end
    | Run (Raise e) n1 t1 => Run (Raise e) n1 t1
    end.

(** [try: m  except Exception as e: h e]. *)
Definition try {A} (m : M A) (h : exn -> M A) : M A :=
  fun n =>
    match m n with
    | Run (Ok a) n1 t1 => Run (Ok a) n1 t1
    | Run (Raise e) n1 t1 =>
        match h e n1 with
        | Run r n2 t2 => Run r n2 (t1 ++ t2)%list
        end
    end.

(** [try: m  finally: c], which is also how a [with] block runs the
    [__exit__] of its context manager [c]: after [m], whether it returned
    or raised; an exception of [c] replaces the outcome of [m]. *)
Definition finally {A} (m : M A) (c : M unit) : M A :=
  fun n =>
    match m n with
    | Run r n1 t1 =>
        match c n1 with
        | Run (Ok _) n2 t2 => Run r n2 (t1 ++ t2)%list
        | Run (Raise e) n2 t2 => Run (Raise e) n2 (t1 ++ t2)%list
        end
    end.

Declare Scope py_scope.
Delimit Scope py_scope with py.
Notation "x <- m ;; k" := (bind m (fun x => k))
  (at level 61, m at next level, right associativity) : py_scope.
Notation "m ;; k" := (bind m (fun _ => k))
  (at level 61, right associativity) : py_scope.
Open Scope py_scope.

Definition emit (e : event) : M unit := fun n => Run (Ok tt) n [e].

Definition print (line : fstr) : M unit := emit (EOut line).

Definition sleep (secs : Z) : M unit := emit (ESleep secs).

Fixpoint for_fold {A S} (l : list A) (s : S) (body : S -> A -> M S) : M S :=
  match l with
  | [] => ret s
  | x :: rest => s' <- body s x ;; for_fold rest s' body
  end.

Definition for_each {A} (l : list A) (body : A -> M unit) : M unit :=
  for_fold l tt (fun _ x => body x).

(** [range(n)], as indices. *)
Definition range (n : Z) : list nat := seq 0 (Z.to_nat n).

Section Outside.
Variable w : world.

Definition http_call (r : request) : M response :=
  fun n => Run (http w n r) (S n) [EHttp r].

Definition smtp_session (d : delivery) : M unit :=
  fun n => Run (smtp w n d) (S n) [ESmtp d].

Definition connect (host : string) (port : Z) : M unit :=
  fun n => Run (smtp_connect w n host port) (S n) [EConnect host port].

Definition sendmail (d : delivery) : M unit :=
  fun n => Run (smtp_sendmail w n d) (S n) [ESendmail d].

Definition quit : M unit :=
  fun n => Run (smtp_quit w n) (S n) [EQuit].

(** [time.strftime('%Y-%m-%d %H:%M:%S')] and [int(time.time())]. *)
Definition now : M string := fun n => Run (Ok (strftime w n)) n [].

Definition timestamp : M Z := fun n => Run (Ok (unix_time w n)) n [].

Definition py_input (prompt : string) : M string :=
  fun n => Run (input w n prompt) (S n) [EInput prompt].

Definition py_write (path : string) (text : fstr) : M unit :=
  fun n => Run (write_file w n path text) (S n) [EFile path text].
End Outside.

(** The process exit status of a script whose [main] ran as [r]: an
    exception that leaves [main] ends the interpreter with status 1. *)
Definition exit_code {A} (r : run A) : Z :=
  match res r with Ok _ => 0 | Raise _ => 1 end.

(** *** Reading a trace *)

Definition sessions (t : list event) : list delivery :=
  flat_map (fun e => match e with ESmtp d => [d] | _ => [] end) t.

Definition requests (t : list event) : list request :=
  flat_map (fun e => match e with EHttp r => [r] | _ => [] end) t.

Definition sleeps (t : list event) : list Z :=
  flat_map (fun e => match e with ESleep s => [s] | _ => [] end) t.

Definition stdout (t : list event) : list fstr :=
  flat_map (fun e => match e with EOut l => [l] | _ => [] end) t.

(** ** scripts/send_test_email.py *)

Module SendTestEmail.

(** The namespace [argparse] returns. *)
Record args : Type := MkArgs {
  email : string;
  subject : string;
  content : string;
  html : bool;
  multiple : Z
}.

Definition html_content : string :=
  nl ++ "    <html>" ++ nl ++
  "      <body>" ++ nl ++
  "        <h2>🎉 HTML 测试邮件</h2>" ++ nl ++
  "        <p>这是一封包含 <strong>HTML 格式</strong> 的测试邮件。</p>" ++ nl ++
  "        <ul>" ++ nl ++
  "          <li>支持 HTML 格式</li>" ++ nl ++
  "          <li>支持中文内容</li>" ++ nl ++
  "          <li>支持表情符号 😊</li>" ++ nl ++
  "        </ul>" ++ nl ++
  "        <p><a href=" ++ String (ascii_of_nat 34) "https://mail.nnu.edu.kg" ++
  String (ascii_of_nat 34) ">访问临时邮箱服务</a></p>" ++ nl ++
  "      </body>" ++ nl ++
  "    </html>" ++ nl ++ "    ".

(** The message [send_test_email] builds. *)
Definition plain_message (to_address subject content : string) : message :=
  {| msg_from := "test@example.com";
     msg_to := VStr to_address;
     msg_subject := subject;
     msg_body :=
       Multipart "mixed"
         [ {| payload := [Lit content]; subtype := "plain";
              charset := Some "utf-8" |} ] |}.

(** The message [send_html_email] builds. *)
Definition html_message (to_address : string) : message :=
  {| msg_from := "html-test@example.com";
     msg_to := VStr to_address;
     msg_subject := "HTML 格式测试邮件";
     msg_body :=
       Multipart "alternative"
         [ {| payload := [Lit "这是纯文本版本的测试邮件"]; subtype := "plain";
              charset := Some "utf-8" |};
           {| payload := [Lit html_content]; subtype := "html";
              charset := Some "utf-8" |} ] |}.

Section Script.
Variable w : world.

Definition send_test_email (to_address subject content : string) : M bool :=
  let smtp_server := "localhost" in
  let smtp_port := 1025 in
  let msg := plain_message to_address subject content in
  try
    (smtp_session w
       {| host := smtp_server; port := smtp_port;
          mail_from := "test@example.com"; rcpt_to := VStr to_address;
          data := msg |} ;;
     print [Lit "✅ 测试邮件已发送到: "; Val (VStr to_address)] ;;
     print [Lit "📧 主题: "; Val (VStr subject)] ;;
     print [Lit "🌐 可以在 http://localhost:8025 查看邮件"] ;;
     ret true)
    (fun e =>
       print [Lit "❌ 发送邮件失败: "; Err e] ;;
       ret false).

Definition send_html_email (to_address : string) : M bool :=
  let smtp_server := "localhost" in
  let smtp_port := 1025 in
  let msg := html_message to_address in
  try
    (smtp_session w
       {| host := smtp_server; port := smtp_port;
          mail_from := "html-test@example.com"; rcpt_to := VStr to_address;
          data := msg |} ;;
     print [Lit "✅ HTML 测试邮件已发送到: "; Val (VStr to_address)] ;;
     ret true)
    (fun e =>
       print [Lit "❌ 发送 HTML 邮件失败: "; Err e] ;;
       ret false).

(** The subject and the content [main] passes on in plain mode. *)
Definition nth_subject (a : args) (i : nat) : string :=
  if 1 <? multiple a
  then subject a ++ " #" ++ str_of_Z (Z.of_nat i + 1)
  else subject a.

Definition nth_content (a : args) (i : nat) : string :=
  if 1 <? multiple a
  then content a ++ nl ++ nl ++ "邮件编号: " ++ str_of_Z (Z.of_nat i + 1)
         ++ "/" ++ str_of_Z (multiple a)
  else content a.

(** One turn of the loop of [main]: [success_count] before and
    after. *)
Definition iteration (a : args) (success_count : Z) (i : nat) : M Z :=
  success <-
    (if html a
     then send_html_email (email a)
     else send_test_email (email a) (nth_subject a i) (nth_content a i)) ;;
  ret (if success then success_count + 1 else success_count).

Definition report (success_count n : Z) : fstr :=
  [Lit "📈 发送完成: "; Val (VInt success_count); Lit "/"; Val (VInt n);
   Lit " 封邮件发送成功"].

Definition main (a : args) : M unit :=
  print [Lit "🚀 开始发送测试邮件..."] ;;
  print [Lit "📧 目标地址: "; Val (VStr (email a))] ;;
  print [Lit "📊 发送数量: "; Val (VInt (multiple a))] ;;
  print [Lit (str_repeat "-" 50)] ;;
  success_count <- for_fold (range (multiple a)) 0 (iteration a) ;;
  print [Lit (str_repeat "-" 50)] ;;
  print (report success_count (multiple a)) ;;
  if 0 <? success_count then
    print [Lit "🌐 请访问以下地址查看邮件:"] ;;
    print [Lit "   - MailHog: http://localhost:8025"] ;;
    print [Lit "   - 临时邮箱: http://localhost:3000"]
  else ret tt.
End Script.

(** The session iteration [i] of [main] opens. *)
Definition nth_delivery (a : args) (i : nat) : delivery :=
  if html a
  then {| host := "localhost"; port := 1025;
          mail_from := "html-test@example.com"; rcpt_to := VStr (email a);
          data := html_message (email a) |}
  else {| host := "localhost"; port := 1025;
          mail_from := "test@example.com"; rcpt_to := VStr (email a);
          data := plain_message (email a) (nth_subject a i) (nth_content a i) |}.

End SendTestEmail.

(** ** scripts/ws/simple_debug.py *)

Module SimpleDebug.

(** The dict [create_mailbox] returns: keys [address], [mailboxId] and
    [token].  It has three items, so it is true as a condition; [None]
    is the other return value. *)
Record mailbox : Type := MkMailbox {
  address : value;
  mailboxId : value;
  token : value
}.

Definition api_base : string := "http://localhost:3001/api".

Definition services : list (string * string) :=
  [ ("后端服务", api_base ++ "/../health");
    ("邮件服务", api_base ++ "/../health/mail");
    ("WebSocket服务", api_base ++ "/../health/websocket");
    ("集成服务", api_base ++ "/../health/integration") ].

Definition generate_request : request :=
  {| meth := POST; url := [Lit "http://localhost:3001/api/mailbox/generate"];
     headers := []; timeout := None |}.

Definition mail_request (mailbox_id token : value) : request :=
  {| meth := GET;
     url := [Lit "http://localhost:3001/api/mail/"; Val mailbox_id];
     headers := [("Authorization", [Lit "Bearer "; Val token])];
     timeout := None |}.

Definition debug_message (to_address : value) (time : string) : message :=
  {| msg_from := "debug-test@example.com";
     msg_to := to_address;
     msg_subject := "调试测试邮件";
     msg_body :=
       Multipart "mixed"
         [ {| payload :=
                [Lit ("这是一封调试测试邮件。" ++ nl ++ nl ++ "发送时间: ");
                 Val (VStr time);
                 Lit (nl ++ "收件地址: "); Val to_address;
                 Lit (nl ++ nl ++ "此邮件用于测试邮件接收和WebSocket推送功能。")];
              subtype := "plain"; charset := Some "utf-8" |} ] |}.

Section Script.
Variable w : world.

(** The lines printed for one service whose endpoint answered 200
    with the JSON body [data]. *)
Definition show_service (service_name : string) (data : value) : M unit :=
  print [Lit "✅ "; Val (VStr service_name); Lit ": 正常"] ;;
  if String.eqb service_name "邮件服务" then
    mail_info <- lift (py_get data "mailService" (VDict [])) ;;
    v <- lift (py_get mail_info "isRunning" (VBool false)) ;;
    print [Lit "   - 运行状态: "; Val v] ;;
    v <- lift (py_get mail_info "port" (VStr "unknown")) ;;
    print [Lit "   - 监听端口: "; Val v]
  else if String.eqb service_name "WebSocket服务" then
    ws_info <- lift (py_get data "websocket" (VDict [])) ;;
    v <- lift (py_get ws_info "connectedClients" (VInt 0)) ;;
    print [Lit "   - 连接数: "; Val v] ;;
    v <- lift (py_get ws_info "totalSubscriptions" (VInt 0)) ;;
    print [Lit "   - 订阅数: "; Val v]
  else if String.eqb service_name "集成服务" then
    integration_info <- lift (py_get data "integration" (VDict [])) ;;
    v <- lift (py_get integration_info "isHealthy" (VBool false)) ;;
    print [Lit "   - 健康状态: "; Val v] ;;
    v <- lift (py_get integration_info "totalMails" (VInt 0)) ;;
    print [Lit "   - 处理邮件数: "; Val v] ;;
    v <- lift (py_get integration_info "successfulBroadcasts" (VInt 0)) ;;
    print [Lit "   - 成功推送数: "; Val v] ;;
    v <- lift (py_get integration_info "failedBroadcasts" (VInt 0)) ;;
    print [Lit "   - 失败推送数: "; Val v]
  else ret tt.

(** The body of the loop of [check_services]. *)
Definition check_service (service : string * string) : M unit :=
  let (service_name, url) := service in
  try
    (response <-
       http_call w {| meth := GET; url := [Lit url]; headers := [];
                      timeout := Some 5 |} ;;
     if status_code response =? 200 then
       data <- lift (json response) ;;
       show_service service_name data
     else
       print [Lit "❌ "; Val (VStr service_name); Lit ": HTTP ";
              Val (VInt (status_code response))])
    (fun e =>
       print [Lit "❌ "; Val (VStr service_name); Lit ": 连接失败 - "; Err e]).

Definition check_services : M unit :=
  print [Lit "🔍 检查服务状态..."] ;;
  for_each services check_service ;;
  print [Lit (str_repeat "-" 50)].

Definition create_mailbox : M (option mailbox) :=
  try
    (response <- http_call w generate_request ;;
     if (status_code response =? 200) || (status_code response =? 201) then
       result <- lift (json response) ;;
       success <- lift (py_get result "success" VNone) ;;
       has_data <- (if truthy success then lift (py_in "data" result)
                    else ret false) ;;
       if has_data then
         data <- lift (py_item result "data") ;;
         a <- lift (py_item data "address") ;;
         print [Lit "✅ 邮箱创建成功: "; Val a] ;;
         a <- lift (py_item data "address") ;;
         i <- lift (py_item data "id") ;;
         t <- lift (py_item data "token") ;;
         ret (Some {| address := a; mailboxId := i; token := t |})
       else
         print [Lit "❌ 邮箱创建失败: API返回错误"] ;;
         print [Lit "   响应内容: "; Val (VStr (text response))] ;;
         ret None
     else
       print [Lit "❌ 邮箱创建失败: "; Val (VInt (status_code response))] ;;
       print [Lit "   响应内容: "; Val (VStr (text response))] ;;
       ret None)
    (fun e =>
       print [Lit "❌ 邮箱创建异常: "; Err e] ;;
       ret None).

Definition send_test_email (to_address : value) : M bool :=
  time <- now w ;;
  let msg := debug_message to_address time in
  try
    (smtp_session w
       {| host := "localhost"; port := 2525;
          mail_from := "debug-test@example.com"; rcpt_to := to_address;
          data := msg |} ;;
     print [Lit "✅ 邮件已发送到后端服务 (端口2525)"] ;;
     ret true)
    (fun e =>
       print [Lit "❌ 发送到后端服务失败: "; Err e] ;;
       ret false).

(** The line printed for the [i]-th element of [emails]. *)
Definition show_email (i : nat) (email : value) : M unit :=
  if isinstance_dict email then
    s <- lift (py_get email "subject" (VStr "无主题")) ;;
    f <- lift (py_get email "from" (VStr "未知")) ;;
    print [Lit "   邮件 "; Val (VInt (Z.of_nat i)); Lit ": "; Val s;
           Lit " (来自: "; Val f; Lit ")"]
  else
    print [Lit "   邮件 "; Val (VInt (Z.of_nat i));
           Lit ": 数据格式异常 - "; Typ email].

(** [for i, email in enumerate(emails, start)]. *)
Fixpoint show_emails (start : nat) (emails : list value) : M unit :=
  match emails with
  | [] => ret tt
  | email :: rest => show_email start email ;; show_emails (S start) rest
  end.

Definition check_mailbox_emails (mailbox_id token : value) : M value :=
  try
    (response <- http_call w (mail_request mailbox_id token) ;;
     if status_code response =? 200 then
       result <- lift (json response) ;;
       success <- lift (py_get result "success" VNone) ;;
       has_data <- (if truthy success then lift (py_in "data" result)
                    else ret false) ;;
       emails <- (if has_data then lift (py_item result "data")
                  else ret (if isinstance_list result then result
                            else VList [])) ;;
       n <- lift (py_len emails) ;;
       print [Lit "✅ 邮箱中有 "; Val (VInt n); Lit " 封邮件"] ;;
       elements <- lift (py_iter emails) ;;
       show_emails 1 elements ;;
       ret emails
     else
       print [Lit "❌ 获取邮件失败: "; Val (VInt (status_code response))] ;;
       print [Lit "   响应内容: "; Val (VStr (text response))] ;;
       ret (VList []))
    (fun e =>
       print [Lit "❌ 检查邮件异常: "; Err e] ;;
       emit (ETraceback e) ;;
       ret (VList [])).

(** Step 4 of [main]: ten one-second sleeps. *)
Definition wait_for_processing : M unit :=
  print [Lit "⏳ 等待邮件处理..."] ;;
  for_each (range 10)
    (fun i =>
       sleep 1 ;;
       print [Lit "   等待中... "; Val (VInt (Z.of_nat i + 1)); Lit "/10"]) ;;
  print [Lit (str_repeat "-" 50)].

(** Step 6 of [main]. *)
Definition summary (mailbox_id : value) (n : Z) : M unit :=
  print [Lit "📊 测试结果:"] ;;
  print [Lit "   邮箱创建: ✅"] ;;
  print [Lit "   邮件发送: ✅"] ;;
  print [Lit "   邮件接收: "; Lit (if 0 <? n then "✅" else "❌")] ;;
  if 0 <? n then
    print [Lit (nl ++ "🎉 基础功能正常！邮件已正确接收")] ;;
    print [Lit "📝 下一步：在浏览器中打开 http://localhost:3000/mailbox/";
           Val mailbox_id] ;;
    print [Lit "    然后发送另一封邮件，观察是否有实时推送"]
  else
    print [Lit (nl ++ "❌ 基础功能异常！邮件未能接收")] ;;
    print [Lit (nl ++ "🔧 故障排除建议:")] ;;
    print [Lit "   1. 确认后端服务正在运行"] ;;
    print [Lit "   2. 确认邮件服务监听在端口 2525"] ;;
    print [Lit "   3. 检查邮件域名验证逻辑"] ;;
    print [Lit "   4. 查看后端控制台日志"].

Definition terminated : fstr := [Lit "❌ 测试终止"].

Definition main : M unit :=
  print [Lit "🚀 开始简化调试测试..."] ;;
  print [Lit (str_repeat "=" 60)] ;;
  check_services ;;
  print [Lit "📧 创建测试邮箱..."] ;;
  mailbox <- create_mailbox ;;
  match mailbox with
  | None => print terminated
  | Some mailbox =>
      let mailbox_address := address mailbox in
      let mailbox_id := mailboxId mailbox in
      let token := token mailbox in
      print [Lit "🌐 前端访问地址: http://localhost:3000/mailbox/";
             Val mailbox_id] ;;
      print [Lit (str_repeat "-" 50)] ;;
      print [Lit "📤 发送测试邮件..."] ;;
      sent <- send_test_email mailbox_address ;;
      if negb sent then print terminated
      else
        print [Lit (str_repeat "-" 50)] ;;
        wait_for_processing ;;
        print [Lit "📬 检查邮箱中的邮件..."] ;;
        emails <- check_mailbox_emails mailbox_id token ;;
        print [Lit (str_repeat "-" 50)] ;;
        n <- lift (py_len emails) ;;
        summary mailbox_id n
  end.
End Script.

End SimpleDebug.

(** ** scripts/ws/test_websocket_validation.py *)

Module WsValidation.

(** The dict [test_mailbox_id_format] returns. *)
Record mailbox_info : Type := MkInfo {
  mailbox_id : value;
  token : value;
  address : value
}.

Definition is_hex (c : ascii) : bool :=
  let n := N_of_ascii c in
  (((48 <=? n) && (n <=? 57)) || ((97 <=? n) && (n <=? 102))
   || ((65 <=? n) && (n <=? 70)))%N.

(** [n] characters of the class [[0-9a-fA-F]], and what follows
    them. *)
Fixpoint hex_run (n : nat) (s : string) : option string :=
  match n with
  | O => Some s
  | S n' =>
      match s with
      | String c r => if is_hex c then hex_run n' r else None
      | EmptyString => None
      end
  end.

(** [re.match(r"^[0-9a-fA-F]{24}$", s)] for a [str]: without the
    MULTILINE flag [$] matches at the end of the string and also just
    before a newline that ends the string. *)
Definition mongo_id_pattern (s : string) : bool :=
  match hex_run 24 s with
  | Some EmptyString => true
  | Some (String c EmptyString) => Ascii.eqb c (ascii_of_nat 10)
  | _ => false
  end.

(** [re.match] wants a string. *)
Definition re_match_mongo_id (v : value) : result bool :=
  match v with
  | VStr s => Ok (mongo_id_pattern s)
  | _ => Raise TypeError
  end.

Definition generate_request : request :=
  {| meth := POST; url := [Lit "http://localhost:3001/api/mailbox/generate"];
     headers := []; timeout := None |}.

Definition format_ok : fstr := [Lit "✅ 邮箱ID格式正确 (MongoDB ObjectId)"].
Definition format_bad : fstr := [Lit "❌ 邮箱ID格式不正确"].

Definition html_path : string := "scripts/ws/test_websocket_validation.html".

(** The page [create_websocket_test_html] writes.  The static HTML,
    CSS and JavaScript between the substituted objects is
    abbreviated. *)
Definition html_page (mailbox_id token30 token : value) : fstr :=
  [Lit "<!DOCTYPE html> ... <p><strong>邮箱ID:</strong> "; Val mailbox_id;
   Lit "</p> <p><strong>访问令牌:</strong> "; Val token30;
   Lit "...</p> ... const MAILBOX_ID = '"; Val mailbox_id;
   Lit "'; const TOKEN = '"; Val token;
   Lit "'; ... </html>"].

Section Script.
Variable w : world.

Definition test_mailbox_id_format : M (option mailbox_info) :=
  print [Lit "🧪 测试邮箱ID格式..."] ;;
  try
    (response <- http_call w generate_request ;;
     if (status_code response =? 200) || (status_code response =? 201) then
       data <- lift (json response) ;;
       success <- lift (py_get data "success" VNone) ;;
       if truthy success then
         d <- lift (py_item data "data") ;;
         mailbox_id <- lift (py_item d "id") ;;
         d <- lift (py_item data "data") ;;
         token <- lift (py_item d "token") ;;
         d <- lift (py_item data "data") ;;
         address <- lift (py_item d "address") ;;
         print [Lit "✅ 邮箱创建成功:"] ;;
         print [Lit "   地址: "; Val address] ;;
         print [Lit "   ID: "; Val mailbox_id] ;;
         n <- lift (py_len mailbox_id) ;;
         print [Lit "   ID长度: "; Val (VInt n)] ;;
         t20 <- lift (py_slice_to token 20) ;;
         print [Lit "   Token: "; Val t20; Lit "..."] ;;
         matched <- lift (re_match_mongo_id mailbox_id) ;;
         (if matched then print format_ok else print format_bad) ;;
         ret (Some {| mailbox_id := mailbox_id; token := token;
                      address := address |})
       else
         print [Lit "❌ 邮箱创建失败: API返回错误"] ;;
         print [Lit "   错误: "; Val data] ;;
         ret None
     else
       print [Lit "❌ 邮箱创建失败: HTTP "; Val (VInt (status_code response))] ;;
       print [Lit "   响应: "; Val (VStr (text response))] ;;
       ret None)
    (fun e =>
       print [Lit "❌ 邮箱创建异常: "; Err e] ;;
       ret None).

Definition create_websocket_test_html (mailbox_id token : value) : M unit :=
  t30 <- lift (py_slice_to token 30) ;;
  py_write w html_path (html_page mailbox_id t30 token) ;;
  print [Lit "✅ 创建了WebSocket测试页面: scripts/websocket_validation_test.html"].

Definition page_step : fstr := [Lit "📄 创建WebSocket测试页面..."].

Definition main : M unit :=
  print [Lit "🚀 WebSocket验证修复测试"] ;;
  print [Lit (str_repeat "=" 60)] ;;
  info <- test_mailbox_id_format ;;
  match info with
  | None => print [Lit "❌ 无法创建邮箱，测试终止"]
  | Some info =>
      print [Lit (str_repeat "-" 60)] ;;
      print page_step ;;
      create_websocket_test_html (mailbox_id info) (token info) ;;
      print [Lit (str_repeat "-" 60)] ;;
      print [Lit "📋 下一步测试:"] ;;
      print [Lit "1. 确保后端服务已重启以加载新的验证规则"] ;;
      print [Lit "2. 在浏览器中打开: scripts/websocket_validation_test.html"] ;;
      print [Lit "3. 按照页面提示进行WebSocket连接和订阅测试"] ;;
      print [Lit "4. 如果订阅成功，说明验证问题已修复"] ;;
      print [] ;;
      print [Lit "🔧 如果仍然出现验证错误:"] ;;
      print [Lit "1. 检查shared包是否已重新构建"] ;;
      print [Lit "2. 确认后端服务使用了最新的验证schema"] ;;
      print [Lit "3. 查看后端控制台的详细错误信息"]
  end.
End Script.

End WsValidation.

(** ** scripts/ws/test_current_setup.py *)

Module CurrentSetup.

Section Script.
Variable w : world.

(** [test_with_127_domain] and [test_with_nnu_domain] differ in the
    domain only. *)
Definition test_with_domain (domain : string) : M bool :=
  print [Lit "🧪 测试使用 "; Lit domain; Lit " 域名..."] ;;
  t <- timestamp w ;;
  let test_address := "test" ++ str_of_Z t ++ "@" ++ domain in
  print [Lit "📧 测试地址: "; Val (VStr test_address)] ;;
  try
    (let msg :=
       {| msg_from := "test@example.com";
          msg_to := VStr test_address;
          msg_subject := "域名测试邮件";
          msg_body :=
            Text {| payload := [Lit "这是一封测试邮件"]; subtype := "plain";
                    charset := Some "utf-8" |} |} in
     smtp_session w
       {| host := "localhost"; port := 2525;
          mail_from := "test@example.com"; rcpt_to := VStr test_address;
          data := msg |} ;;
     print [Lit "✅ 邮件发送成功"] ;;
     ret true)
    (fun e =>
       print [Lit "❌ 邮件发送失败: "; Err e] ;;
       ret false).

Definition test_with_127_domain : M bool := test_with_domain "127.0.0.1".
Definition test_with_nnu_domain : M bool := test_with_domain "nnu.edu.kg".

Definition check_backend_status : M unit :=
  print [Lit "🔍 检查后端状态..."] ;;
  try
    (response <-
       http_call w {| meth := GET; url := [Lit "http://localhost:3001/health"];
                      headers := []; timeout := None |} ;;
     (if status_code response =? 200
      then print [Lit "✅ 后端服务正常"]
      else print [Lit "❌ 后端服务异常: "; Val (VInt (status_code response))]) ;;
     response <-
       http_call w {| meth := GET;
                      url := [Lit "http://localhost:3001/health/mail"];
                      headers := []; timeout := None |} ;;
     if status_code response =? 200 then
       data <- lift (json response) ;;
       mail_service <- lift (py_get data "mailService" (VDict [])) ;;
       p <- lift (py_get mail_service "port" VNone) ;;
       r <- lift (py_get mail_service "isRunning" VNone) ;;
       print [Lit "✅ 邮件服务: 端口 "; Val p; Lit ", 运行状态 "; Val r]
     else
       print [Lit "❌ 邮件服务检查失败: "; Val (VInt (status_code response))])
    (fun e => print [Lit "❌ 后端状态检查失败: "; Err e]).

Definition main : M unit :=
  print [Lit "🚀 测试当前设置"] ;;
  print [Lit (str_repeat "=" 50)] ;;
  check_backend_status ;;
  print [Lit (str_repeat "-" 50)] ;;
  success_127 <- test_with_127_domain ;;
  print [Lit (str_repeat "-" 50)] ;;
  success_nnu <- test_with_nnu_domain ;;
  print [Lit (str_repeat "-" 50)] ;;
  print [Lit "📊 测试结果:"] ;;
  print [Lit "   127.0.0.1 域名: "; Lit (if success_127 then "✅" else "❌")] ;;
  print [Lit "   nnu.edu.kg 域名: "; Lit (if success_nnu then "✅" else "❌")] ;;
  if success_127 then
    print [Lit (nl ++ "💡 建议: 使用 127.0.0.1 域名进行测试")] ;;
    print [Lit "   可以手动创建邮箱地址进行测试，例如: test123@127.0.0.1"]
  else if success_nnu then
    print [Lit (nl ++ "💡 建议: 使用 nnu.edu.kg 域名进行测试")] ;;
    print [Lit "   需要修改环境变量 MAIL_DOMAIN=nnu.edu.kg"]
  else
    print [Lit (nl ++ "❌ 两种域名都无法工作，请检查:")] ;;
    print [Lit "   1. 后端服务是否正常运行"] ;;
    print [Lit "   2. 邮件接收服务是否正常监听端口 2525"] ;;
    print [Lit "   3. 域名验证逻辑是否正确"].
End Script.

End CurrentSetup.

(** ** send_test_mail.py and test_external_email.py *)

(** Both scripts open the session in a [with] statement and print
    between its steps; leaving the block, normally or by an exception,
    sends QUIT ([smtplib.SMTP.__exit__]). *)
Section WithSession.
Variable w : world.

Definition with_session (d : delivery) (connected sent : list fstr)
    : M unit :=
  connect w (host d) (port d) ;;
  finally
    (for_each connected print ;;
     sendmail w d ;;
     for_each sent print)
    (quit w).
End WithSession.

Module SendTestMail.

Definition recipient_email : string := "6d40f1571izg@nnu.edu.kg".

Definition the_message : message :=
  {| msg_from := "test@example.com";
     msg_to := VStr recipient_email;
     msg_subject := "MailHog Test Email";
     msg_body :=
       Multipart "mixed"
         [ {| payload :=
                [Lit "This is a test email to verify MailHog integration is working! 📧✨"];
              subtype := "plain"; charset := None |} ] |}.

Section Script.
Variable w : world.

Definition send_test_email : M unit :=
  try
    (print [Lit "Connecting to SMTP server "; Val (VStr "127.0.0.1");
            Lit ":"; Val (VInt 2525)] ;;
     with_session w
       {| host := "127.0.0.1"; port := 2525;
          mail_from := "test@example.com"; rcpt_to := VStr recipient_email;
          data := the_message |}
       [[Lit "Connected successfully!"]]
       [[Lit "Email sent successfully to "; Val (VStr recipient_email)]])
    (fun e =>
       if isinstance_OSError e then print [Lit "Connection error: "; Err e]
       else if isinstance_SMTPException e then print [Lit "SMTP error: "; Err e]
       else print [Lit "Error: "; Err e]).

Definition main : M unit := send_test_email.
End Script.

End SendTestMail.

Module ExternalEmail.

Definition recipient_email : string := "6d40f1571izg@nnu.edu.kg".

Definition body : string :=
  nl ++ "    Hello from the outside world! 🌍" ++ nl ++
  "    " ++ nl ++
  "    This email simulates what would happen if someone sent an email " ++ nl ++
  "    from Gmail, Yahoo, or another external provider to your temporary mailbox." ++ nl ++
  "    " ++ nl ++
  "    In a real-world scenario with proper DNS configuration, this is how " ++ nl ++
  "    external emails would be delivered to your mail service." ++ nl ++
  "    " ++ nl ++
  "    Best regards," ++ nl ++
  "    External Email System" ++ nl ++ "    ".

Definition the_message : message :=
  {| msg_from := "external.user@gmail.com";
     msg_to := VStr recipient_email;
     msg_subject := "🌐 External Email Test - Simulating Gmail";
     msg_body :=
       Multipart "mixed"
         [ {| payload := [Lit body]; subtype := "plain"; charset := None |} ] |}.

Section Script.
Variable w : world.

Definition send_external_email : M unit :=
  try
    (print [Lit "🌐 Simulating external email via MailHog ";
            Val (VStr "127.0.0.1"); Lit ":"; Val (VInt 1025)] ;;
     with_session w
       {| host := "127.0.0.1"; port := 1025;
          mail_from := "external.user@gmail.com";
          rcpt_to := VStr recipient_email; data := the_message |}
       [[Lit "✅ Connected to MailHog successfully!"]]
       [[Lit "📧 External email simulation sent to "; Val (VStr recipient_email)];
        [Lit "🔍 Check MailHog UI at http://localhost:8025 to see the captured email!"]])
    (fun e =>
       if isinstance_OSError e then print [Lit "❌ Connection error: "; Err e]
       else if isinstance_SMTPException e then print [Lit "❌ SMTP error: "; Err e]
       else print [Lit "❌ Error: "; Err e]).

Definition main : M unit := send_external_email.
End Script.

End ExternalEmail.

(** ** scripts/ws/manual_websocket_test.py *)

Module ManualWebsocket.

Definition test_address : string := "websockettest@127.0.0.1".

Definition nth_sender (i : nat) : string :=
  "manual-test-" ++ str_of_Z (Z.of_nat i + 1) ++ "@example.com".

Definition nth_subject (i : nat) : string :=
  "手动WebSocket测试邮件 #" ++ str_of_Z (Z.of_nat i + 1).

Definition nth_message (i : nat) (time : string) : message :=
  {| msg_from := nth_sender i;
     msg_to := VStr test_address;
     msg_subject := nth_subject i;
     msg_body :=
       Text {| payload :=
                 [Lit "这是第 "; Val (VInt (Z.of_nat i + 1));
                  Lit (" 封手动WebSocket测试邮件。" ++ nl ++ nl ++ "发送时间: ");
                  Val (VStr time);
                  Lit (nl ++ "收件地址: "); Val (VStr test_address);
                  Lit (nl ++ "邮件编号: "); Val (VInt (Z.of_nat i + 1));
                  Lit ("/3" ++ nl ++ nl ++
                       "这个测试用于验证邮件接收服务是否能正确处理邮件。")];
               subtype := "plain"; charset := Some "utf-8" |} |}.

Section Script.
Variable w : world.

Definition send_nth (i : nat) : M unit :=
  time <- now w ;;
  let msg := nth_message i time in
  try
    (smtp_session w
       {| host := "localhost"; port := 2525; mail_from := nth_sender i;
          rcpt_to := VStr test_address; data := msg |} ;;
     print [Lit "✅ 邮件 "; Val (VInt (Z.of_nat i + 1)); Lit " 已发送: ";
            Val (VStr (nth_subject i))] ;;
     if Z.of_nat i <? 2 then
       print [Lit "   等待 2 秒..."] ;;
       sleep 2
     else ret tt)
    (fun e =>
       print [Lit "❌ 邮件 "; Val (VInt (Z.of_nat i + 1)); Lit " 发送失败: ";
              Err e]).

Definition main : M unit :=
  print [Lit "🚀 手动WebSocket推送测试"] ;;
  print [Lit (str_repeat "=" 60)] ;;
  print [Lit "📋 测试说明:"] ;;
  print [Lit "1. 这个测试使用手动创建的邮箱地址"] ;;
  print [Lit "2. 测试邮箱地址: "; Val (VStr test_address)] ;;
  print [Lit "3. 你需要在前端手动输入这个邮箱信息来测试WebSocket"] ;;
  print [] ;;
  print [Lit "🔧 前端测试步骤:"] ;;
  print [Lit "1. 打开 scripts/test_frontend_websocket.html"] ;;
  print [Lit "2. 连接到 WebSocket 服务器"] ;;
  print [Lit "3. 输入以下信息进行订阅:"] ;;
  print [Lit "   - 邮箱ID: websockettest"] ;;
  print [Lit "   - 访问令牌: 需要一个有效的JWT令牌"] ;;
  print [] ;;
  print [Lit "⚠️  注意: 由于没有真实的邮箱记录，WebSocket订阅可能会失败"] ;;
  print [Lit "   但我们可以测试邮件发送到后端服务是否触发WebSocket事件"] ;;
  print [] ;;
  py_input w "准备好后按回车键开始发送测试邮件..." ;;
  print [Lit (str_repeat "-" 60)] ;;
  print [Lit "📤 发送测试邮件..."] ;;
  for_each (range 3) send_nth ;;
  print [Lit (str_repeat "-" 60)] ;;
  print [Lit "📊 测试完成!"] ;;
  print [] ;;
  print [Lit "🔍 如何验证:"] ;;
  print [Lit "1. 查看后端控制台日志，应该能看到邮件处理信息"] ;;
  print [Lit "2. 如果有WebSocket连接，应该能看到推送尝试"] ;;
  print [Lit "3. 检查集成服务状态:"] ;;
  print [Lit "   curl http://localhost:3001/health/integration"] ;;
  print [] ;;
  print [Lit "💡 下一步:"] ;;
  print [Lit "1. 重启后端服务以加载新的邮箱生成代码"] ;;
  print [Lit "2. 使用正确的域名重新测试完整流程"].
End Script.

End ManualWebsocket.

(** ** scripts/ws/test_frontend_websocket.py *)

Module FrontendWebsocket.

Definition generate_request : request :=
  {| meth := POST; url := [Lit "http://localhost:3001/api/mailbox/generate"];
     headers := []; timeout := None |}.

Definition nth_sender (i : nat) : string :=
  "test-" ++ str_of_Z (Z.of_nat i + 1) ++ "@example.com".

Definition nth_subject (i : nat) : string :=
  "实时推送测试邮件 #" ++ str_of_Z (Z.of_nat i + 1).

Definition nth_message (mailbox_address : value) (i : nat) (time : string)
    : message :=
  {| msg_from := nth_sender i;
     msg_to := mailbox_address;
     msg_subject := nth_subject i;
     msg_body :=
       Multipart "mixed"
         [ {| payload :=
                [Lit "这是第 "; Val (VInt (Z.of_nat i + 1));
                 Lit (" 封实时推送测试邮件。" ++ nl ++ nl ++ "发送时间: ");
                 Val (VStr time);
                 Lit (nl ++ "收件地址: "); Val mailbox_address;
                 Lit (nl ++ "邮件编号: "); Val (VInt (Z.of_nat i + 1));
                 Lit ("/3" ++ nl ++ nl ++
                      "如果WebSocket连接正常，您应该能在前端界面实时看到这封邮件。")];
              subtype := "plain"; charset := Some "utf-8" |} ] |}.

Section Script.
Variable w : world.

(** Step 1 of [main]: the triple (address, id, token), or [None]
    where [main] returns. *)
Definition provision : M (option (value * value * value)) :=
  print [Lit "📧 创建测试邮箱..."] ;;
  try
    (response <- http_call w generate_request ;;
     if (status_code response =? 200) || (status_code response =? 201) then
       result <- lift (json response) ;;
       success <- lift (py_get result "success" VNone) ;;
       has_data <- (if truthy success then lift (py_in "data" result)
                    else ret false) ;;
       if has_data then
         data <- lift (py_item result "data") ;;
         mailbox_address <- lift (py_item data "address") ;;
         mailbox_id <- lift (py_item data "id") ;;
         token <- lift (py_item data "token") ;;
         print [Lit "✅ 邮箱创建成功:"] ;;
         print [Lit "   地址: "; Val mailbox_address] ;;
         print [Lit "   ID: "; Val mailbox_id] ;;
         t20 <- lift (py_slice_to token 20) ;;
         print [Lit "   Token: "; Val t20; Lit "..."] ;;
         ret (Some (mailbox_address, mailbox_id, token))
       else
         print [Lit "❌ 邮箱创建失败"] ;;
         ret None
     else
       print [Lit "❌ 邮箱创建失败: "; Val (VInt (status_code response))] ;;
       ret None)
    (fun e =>
       print [Lit "❌ 邮箱创建异常: "; Err e] ;;
       ret None).

Definition send_nth (mailbox_address : value) (i : nat) : M unit :=
  time <- now w ;;
  let msg := nth_message mailbox_address i time in
  try
    (smtp_session w
       {| host := "localhost"; port := 2525; mail_from := nth_sender i;
          rcpt_to := mailbox_address; data := msg |} ;;
     print [Lit "✅ 邮件 "; Val (VInt (Z.of_nat i + 1)); Lit " 已发送: ";
            Val (VStr (nth_subject i))] ;;
     if Z.of_nat i <? 2 then
       print [Lit "   等待 3 秒..."] ;;
       sleep 3
     else ret tt)
    (fun e =>
       print [Lit "❌ 邮件 "; Val (VInt (Z.of_nat i + 1)); Lit " 发送失败: ";
              Err e]).

(** Step 4 of [main]. *)
Definition check_integration : M unit :=
  print [Lit "🔍 检查后端集成服务状态..."] ;;
  try
    (response <-
       http_call w {| meth := GET;
                      url := [Lit "http://localhost:3001/health/integration"];
                      headers := []; timeout := None |} ;;
     if status_code response =? 200 then
       integration_status <- lift (json response) ;;
       integration_info <-
         lift (py_get integration_status "integration" (VDict [])) ;;
       print [Lit "✅ 集成服务状态:"] ;;
       h <- lift (py_get integration_info "isHealthy" VNone) ;;
       print [Lit "   健康状态: ";
              Lit (if truthy h then "✅ 健康" else "❌ 异常")] ;;
       v <- lift (py_get integration_info "totalMails" (VInt 0)) ;;
       print [Lit "   处理邮件数: "; Val v] ;;
       v <- lift (py_get integration_info "successfulBroadcasts" (VInt 0)) ;;
       print [Lit "   成功推送数: "; Val v] ;;
       v <- lift (py_get integration_info "failedBroadcasts" (VInt 0)) ;;
       print [Lit "   失败推送数: "; Val v] ;;
       v <- lift (py_get integration_info "successRate" (VStr "0%")) ;;
       print [Lit "   成功率: "; Val v]
     else
       print [Lit "❌ 集成服务检查失败: "; Val (VInt (status_code response))])
    (fun e => print [Lit "❌ 集成服务检查异常: "; Err e]).

Definition main : M unit :=
  print [Lit "🚀 完整的WebSocket推送测试"] ;;
  print [Lit (str_repeat "=" 60)] ;;
  mailbox <- provision ;;
  match mailbox with
  | None => ret tt
  | Some (mailbox_address, mailbox_id, token) =>
      print [Lit (str_repeat "-" 60)] ;;
      print [Lit "📋 测试步骤:"] ;;
      print [Lit "1. 在浏览器中打开以下地址:"] ;;
      print [Lit "   http://localhost:3000/mailbox/"; Val mailbox_id] ;;
      print [] ;;
      print [Lit "2. 或者使用WebSocket测试页面:"] ;;
      print [Lit "   打开 scripts/test_frontend_websocket.html"] ;;
      print [Lit "   输入邮箱ID: "; Val mailbox_id] ;;
      print [Lit "   输入令牌: "; Val token] ;;
      print [] ;;
      print [Lit "3. 然后按回车键，脚本将发送测试邮件..."] ;;
      py_input w "按回车键继续..." ;;
      print [Lit (str_repeat "-" 60)] ;;
      print [Lit "📤 发送测试邮件..."] ;;
      for_each (range 3) (send_nth mailbox_address) ;;
      print [Lit (str_repeat "-" 60)] ;;
      check_integration ;;
      print [Lit (str_repeat "-" 60)] ;;
      print [Lit "📊 测试完成!"] ;;
      print [] ;;
      print [Lit "🔍 如何验证WebSocket推送是否正常:"] ;;
      print [Lit "1. 在前端页面中，您应该能看到3封新邮件"] ;;
      print [Lit "2. 邮件应该实时出现，无需手动刷新"] ;;
      print [Lit "3. 如果需要手动刷新才能看到邮件，说明WebSocket推送有问题"] ;;
      print [] ;;
      print [Lit "🔧 如果WebSocket推送不工作，请检查:"] ;;
      print [Lit "1. 浏览器开发者工具的Console和Network标签"] ;;
      print [Lit "2. 确认WebSocket连接状态"] ;;
      print [Lit "3. 检查前端是否正确订阅了邮箱"] ;;
      print [Lit "4. 查看后端日志中的WebSocket相关信息"] ;;
      print [] ;;
      print [Lit "🌐 前端地址: http://localhost:3000/mailbox/"; Val mailbox_id] ;;
      print [Lit "🔧 WebSocket测试页面: scripts/test_frontend_websocket.html"]
  end.
End Script.

End FrontendWebsocket.

(** ** Notions the properties are stated with *)

(** *** Reading a run *)

(** The messages handed to SMTP sessions in a trace, in order. *)
Definition sent (t : list event) : list message := map data (sessions t).

(** An effect that stays inside the process: output on the terminal. *)
Definition is_local (e : event) : bool :=
  match e with
  | EOut _ | ETraceback _ => true
  | _ => false
  end.

(** The outside calls and sleeps of a trace: everything but terminal
    output. *)
Definition outside (t : list event) : list event :=
  filter (fun e => negb (is_local e)) t.

(** Outside calls: the events that are answered by the world and advance
    the call count. *)
Definition is_call (e : event) : bool :=
  match e with
  | EHttp _ | ESmtp _ | EConnect _ _ | ESendmail _ | EQuit | EInput _
  | EFile _ _ => true
  | _ => false
  end.

Definition calls (t : list event) : nat := List.length (filter is_call t).

(** The exception with which the world answers the call [e] made at call
    count [n], if it answers with one. *)
Definition failure (w : world) (n : nat) (e : event) : option exn :=
  match e with
  | EHttp r => match http w n r with Raise x => Some x | Ok _ => None end
  | ESmtp d => match smtp w n d with Raise x => Some x | Ok _ => None end
  | EConnect h p =>
      match smtp_connect w n h p with Raise x => Some x | Ok _ => None end
  | ESendmail d =>
      match smtp_sendmail w n d with Raise x => Some x | Ok _ => None end
  | EQuit => match smtp_quit w n with Raise x => Some x | Ok _ => None end
  | EInput p => match input w n p with Raise x => Some x | Ok _ => None end
  | EFile path text =>
      match write_file w n path text with Raise x => Some x | Ok _ => None end
  | _ => None
  end.

(** The exception [x] is shown in a line printed in [t]. *)
Definition shown (t : list event) (x : exn) : Prop :=
  exists line, In (EOut line) t /\ In (Err x) line.

(** *** Computations *)

(** A computation that makes no outside call and only writes to the
    terminal, whether it returns or raises. *)
Definition quiet {A} (m : M A) : Prop :=
  forall n, tick (m n) = n /\ forallb is_local (trace (m n)) = true.

(** A computation that returns, whatever the world does. *)
Definition returns {A} (m : M A) : Prop :=
  forall n, exists a, res (m n) = Ok a.

(** Every call of the run [r], started at call count [n], that was
    answered with an exception is accounted for: the exception is shown
    in a line printed later, or the call is the last thing the run did
    and its exception is the one the run ends with. *)
Definition accounted {A} (w : world) (n : nat) (r : run A) : Prop :=
  tick r = (n + calls (trace r))%nat
  /\ forall pre e post x,
       trace r = (pre ++ e :: post)%list ->
       failure w (n + calls pre) e = Some x ->
       shown post x \/ (post = [] /\ res r = Raise x).

Definition tidy {A} (w : world) (m : M A) : Prop :=
  forall n, accounted w n (m n).

(** The same with less said about which exception is shown: after every
    call that was answered with an exception some exception is shown, or
    the run ends with an exception.  (Leaving a [with] block can replace
    the exception of its body by the one of QUIT.) *)
Definition noticed {A} (w : world) (n : nat) (r : run A) : Prop :=
  tick r = (n + calls (trace r))%nat
  /\ forall pre e post x,
       trace r = (pre ++ e :: post)%list ->
       failure w (n + calls pre) e = Some x ->
       (exists x', shown post x') \/ (exists x', res r = Raise x').

Definition heedful {A} (w : world) (m : M A) : Prop :=
  forall n, noticed w n (m n).

(** A handler that shows the exception it is given. *)
Definition announces {A} (h : exn -> M A) : Prop :=
  forall x n, shown (trace (h x n)) x.

(** *** The machine the scripts run on *)

(** The terminal answers every prompt. *)
Definition prompt_answered (w : world) : Prop :=
  forall n prompt, exists line, input w n prompt = Ok line.

(** Every file can be written. *)
Definition page_writable (w : world) : Prop :=
  forall n path text, write_file w n path text = Ok tt.

(** *** The injector *)

(** Whether the SMTP session of iteration [i] of the injector's [main]
    completes without raising: iteration [i] makes outside call number
    [i] of the run. *)
Definition completed (w : world) (a : SendTestEmail.args) (i : nat) : bool :=
  is_ok (smtp w i (SendTestEmail.nth_delivery a i)).

(** The line of the injector that reports the count. *)
Definition is_report (line : fstr) : bool :=
  match line with
  | Lit s :: _ => String.eqb s "📈 发送完成: "
  | _ => false
  end.

(** *** The debug run *)

(** The request [check_services] makes for a service. *)
Definition health_request (service : string * string) : request :=
  {| meth := GET; url := [Lit (snd service)]; headers := [];
     timeout := Some 5 |}.

Definition mail_health_request : request :=
  {| meth := GET; url := [Lit "http://localhost:3001/health/mail"];
     headers := []; timeout := None |}.

(** The provisioning call succeeded as far as [create_mailbox] is
    concerned: the status is 200 or 201 and the body is a JSON object
    with a true [success] and a [data] object that has [address], [id]
    and [token]. *)
Definition status_accepted (s : Z) : bool := (s =? 200) || (s =? 201).

Definition envelope_ok (body : result value) : bool :=
  match body with
  | Ok (VDict items) =>
      match lookup "success" items, lookup "data" items with
      | Some s, Some (VDict d) =>
          truthy s && has_key "address" d && has_key "id" d && has_key "token" d
      | _, _ => false
      end
  | _ => false
  end.

Definition provisioned (o : result response) : bool :=
  match o with
  | Ok r => status_accepted (status_code r) && envelope_ok (json r)
  | Raise _ => false
  end.

(** The field [k] of a JSON object ([None] where there is none). *)
Definition field (k : string) (v : value) : value :=
  match v with
  | VDict d => match lookup k d with Some x => x | None => VNone end
  | _ => VNone
  end.

(** The mailbox a provisioning body carries. *)
Definition issued (body : result value) : SimpleDebug.mailbox :=
  match body with
  | Ok v =>
      {| SimpleDebug.address := field "address" (field "data" v);
         SimpleDebug.mailboxId := field "id" (field "data" v);
         SimpleDebug.token := field "token" (field "data" v) |}
  | Raise _ =>
      {| SimpleDebug.address := VNone; SimpleDebug.mailboxId := VNone;
         SimpleDebug.token := VNone |}
  end.

(** The session [SimpleDebug.send_test_email] opens at call count [n]. *)
Definition debug_delivery (w : world) (to_address : value) (n : nat) : delivery :=
  {| host := "localhost"; port := 2525;
     mail_from := "debug-test@example.com"; rcpt_to := to_address;
     data := SimpleDebug.debug_message to_address (strftime w n) |}.

(** Retrieval requests: the ones that carry the bearer token. *)
Definition is_retrieval (r : request) : bool :=
  match meth r, headers r with
  | GET, ("Authorization", [Lit "Bearer "; Val _]) :: _ => true
  | _, _ => false
  end.

(** [o] where there is a value, [default] otherwise. *)
Definition or_default (default : value) (o : option value) : value :=
  match o with Some x => x | None => default end.

(** The section [k] of a health snapshot: absent, it is the empty
    object; present, it has to be an object. *)
Definition section_of (k : string) (data : list (string * value))
    : option (list (string * value)) :=
  match lookup k data with
  | None => Some []
  | Some (VDict info) => Some info
  | Some _ => None
  end.

(** *** The identifier format *)


(** *** Sample worlds and command lines *)

(** A world in which every outside call succeeds: HTTP answers 200 with
    an empty JSON object, SMTP accepts, the terminal answers. *)
Definition calm : world :=
  {| http := fun _ _ => Ok {| status_code := 200; text := "{}"; json := Ok (VDict []) |};
     smtp := fun _ _ => Ok tt;
     smtp_connect := fun _ _ _ => Ok tt;
     smtp_sendmail := fun _ _ => Ok tt;
     smtp_quit := fun _ => Ok tt;
     strftime := fun _ => "2024-01-01 00:00:00";
     unix_time := fun _ => 1704067200;
     input := fun _ _ => Ok "";
     write_file := fun _ _ _ => Ok tt |}.

(** The same world with another HTTP server. *)
Definition with_http (h : nat -> request -> result response) : world :=
  {| http := h;
     smtp := smtp calm;
     smtp_connect := smtp_connect calm;
     smtp_sendmail := smtp_sendmail calm;
     smtp_quit := smtp_quit calm;
     strftime := strftime calm;
     unix_time := unix_time calm;
     input := input calm;
     write_file := write_file calm |}.

(** A provisioning server that answers [status] with the JSON [body];
    every other endpoint answers as in [calm]. *)
Definition answering (status : Z) (body : result value) : world :=
  with_http (fun n r =>
    match meth r with
    | POST => Ok {| status_code := status; text := "..."; json := body |}
    | GET => http calm n r
    end).

(** A provisioning answer and a stored message, as the service gives
    them. *)
Definition good_envelope : value :=
  VDict [("success", VBool true);
         ("data", VDict [("id", VStr "65f0c0ffee0123456789abcd");
                         ("address", VStr "box@nnu.edu.kg");
                         ("token", VStr "secret")])].

Definition one_mail : value :=
  VDict [("subject", VStr "调试测试邮件");
         ("from", VStr "debug-test@example.com")].

(** A service that provisions [good_envelope] and whose retrieval
    endpoint (the request that carries a header) answers [status] with
    [body] at every call; the health endpoints answer as in [calm]. *)
Definition serving (status : Z) (body : result value) : world :=
  with_http (fun n r =>
    match meth r, headers r with
    | POST, _ => Ok {| status_code := 201; text := "..."; json := Ok good_envelope |}
    | GET, [] => http calm n r
    | GET, _ => Ok {| status_code := status; text := "..."; json := body |}
    end).

(** The wrapped envelope of the retrieval endpoint. *)
Definition wrapped (messages : list value) : value :=
  VDict [("success", VBool true); ("data", VList messages)].

(** A run in which the test mail is retrievable from the start: every
    retrieval call, whenever it is made, is answered with the one
    message. *)
Definition ready : world := serving 200 (Ok (wrapped [one_mail])).

(** The answer of [ready] to the provisioning call. *)
Definition ready_response : response :=
  {| status_code := 201; text := "..."; json := Ok good_envelope |}.

(** A service whose health endpoints report the mail port and nothing
    else. *)
Definition mail_on_2525 : world :=
  with_http (fun _ _ =>
    Ok {| status_code := 200; text := "...";
          json := Ok (VDict [("mailService", VDict [("port", VInt 2525)])]) |}).

(** A provisioning service that issues the identifier [id]. *)
Definition issuing (id : string) : world :=
  answering 201
    (Ok (VDict [("success", VBool true);
                ("data", VDict [("id", VStr id);
                                ("address", VStr "box@nnu.edu.kg");
                                ("token", VStr "secret")])])).

(** A machine on which no file can be written, in front of the HTTP
    server [h]. *)
Definition read_only (h : nat -> request -> result response) : world :=
  {| http := h;
     smtp := smtp calm;
     smtp_connect := smtp_connect calm;
     smtp_sendmail := smtp_sendmail calm;
     smtp_quit := smtp_quit calm;
     strftime := strftime calm;
     unix_time := unix_time calm;
     input := input calm;
     write_file := fun _ _ _ => Raise OSError |}.

(** Two runs on that machine that differ in the answer to the
    provisioning call only: a mailbox is issued, or the call is answered
    with status 500. *)
Definition unwritable : world :=
  read_only (http (issuing "65f0c0ffee0123456789abcd")).

Definition unwritable_refused : world :=
  read_only (http (answering 500 (Ok (VDict [])))).

(** An SMTP listener that refuses the second session of a run. *)
Definition flaky : world :=
  {| http := http calm;
     smtp := fun n _ => if (n =? 1)%nat then Raise ConnectionError else Ok tt;
     smtp_connect := smtp_connect calm;
     smtp_sendmail := smtp_sendmail calm;
     smtp_quit := smtp_quit calm;
     strftime := strftime calm;
     unix_time := unix_time calm;
     input := input calm;
     write_file := write_file calm |}.

(** Two command lines of the injector in HTML mode. *)
Definition html_twice : SendTestEmail.args :=
  {| SendTestEmail.email := "box@nnu.edu.kg";
     SendTestEmail.subject := "Test";
     SendTestEmail.content := "hello";
     SendTestEmail.html := true;
     SendTestEmail.multiple := 2 |}.

Definition html_twice' : SendTestEmail.args :=
  {| SendTestEmail.email := "box@nnu.edu.kg";
     SendTestEmail.subject := "Another subject";
     SendTestEmail.content := "another content";
     SendTestEmail.html := true;
     SendTestEmail.multiple := 2 |}.

(** A command line in plain mode with three messages. *)
Definition plain_thrice : SendTestEmail.args :=
  {| SendTestEmail.email := "box@nnu.edu.kg";
     SendTestEmail.subject := "Test";
     SendTestEmail.content := "hello";
     SendTestEmail.html := false;
     SendTestEmail.multiple := 3 |}.

(** *** Further notions *)

(** Every character of [s] is a hexadecimal digit. *)
Fixpoint all_hex (s : string) : bool :=
  match s with
  | EmptyString => true
  | String c r => WsValidation.is_hex c && all_hex r
  end.

(** What a provisioning call was answered with, read as
    [response.json()]. *)
Definition body_of (o : result response) : result value :=
  match o with
  | Ok r => json r
  | Raise e => Raise e
  end.

(** The three fields of a provisioning body. *)
Definition id_of (body : result value) : value :=
  match body with Ok v => field "id" (field "data" v) | Raise _ => VNone end.

Definition token_of (body : result value) : value :=
  match body with Ok v => field "token" (field "data" v) | Raise _ => VNone end.

Definition address_of (body : result value) : value :=
  match body with Ok v => field "address" (field "data" v) | Raise _ => VNone end.

(** Values [v[:n]] accepts, and strings. *)
Definition sliceable (v : value) : bool :=
  match v with VStr _ | VList _ => true | _ => false end.

Definition is_str (v : value) : bool :=
  match v with VStr _ => true | _ => false end.

(** The mailbox each provisioning function returns for the answer [o] to
    its call, each with the demands its code makes on the body. *)
Definition debug_mailbox (o : result response) : option SimpleDebug.mailbox :=
  if provisioned o then Some (issued (body_of o)) else None.

Definition frontend_mailbox (o : result response)
    : option (value * value * value) :=
  if provisioned o && sliceable (token_of (body_of o))
  then Some (address_of (body_of o), id_of (body_of o), token_of (body_of o))
  else None.

Definition format_mailbox (o : result response)
    : option WsValidation.mailbox_info :=
  if provisioned o && is_str (id_of (body_of o))
     && sliceable (token_of (body_of o))
  then Some {| WsValidation.mailbox_id := id_of (body_of o);
               WsValidation.token := token_of (body_of o);
               WsValidation.address := address_of (body_of o) |}
  else None.

(** The first request of [CurrentSetup.check_backend_status]. *)
Definition backend_health_request : request :=
  {| meth := GET; url := [Lit "http://localhost:3001/health"];
     headers := []; timeout := None |}.

(** The session [CurrentSetup.test_with_domain] opens at call count
    [n]. *)
Definition domain_delivery (w : world) (domain : string) (n : nat) : delivery :=
  let test_address := "test" ++ str_of_Z (unix_time w n) ++ "@" ++ domain in
  {| host := "localhost"; port := 2525;
     mail_from := "test@example.com"; rcpt_to := VStr test_address;
     data :=
       {| msg_from := "test@example.com";
          msg_to := VStr test_address;
          msg_subject := "域名测试邮件";
          msg_body :=
            Text {| payload := [Lit "这是一封测试邮件"]; subtype := "plain";
                    charset := Some "utf-8" |} |} |}.

(** The advice [CurrentSetup.main] ends with. *)
Definition setup_advice (success_127 success_nnu : bool) : list fstr :=
  if success_127 then
    [ [Lit (nl ++ "💡 建议: 使用 127.0.0.1 域名进行测试")];
      [Lit "   可以手动创建邮箱地址进行测试，例如: test123@127.0.0.1"] ]
  else if success_nnu then
    [ [Lit (nl ++ "💡 建议: 使用 nnu.edu.kg 域名进行测试")];
      [Lit "   需要修改环境变量 MAIL_DOMAIN=nnu.edu.kg"] ]
  else
    [ [Lit (nl ++ "❌ 两种域名都无法工作，请检查:")];
      [Lit "   1. 后端服务是否正常运行"];
      [Lit "   2. 邮件接收服务是否正常监听端口 2525"];
      [Lit "   3. 域名验证逻辑是否正确"] ].

(** The sessions of send_test_mail.py and test_external_email.py. *)
Definition mailhog_delivery : delivery :=
  {| host := "127.0.0.1"; port := 2525;
     mail_from := "test@example.com";
     rcpt_to := VStr SendTestMail.recipient_email;
     data := SendTestMail.the_message |}.

Definition external_delivery : delivery :=
  {| host := "127.0.0.1"; port := 1025;
     mail_from := "external.user@gmail.com";
     rcpt_to := VStr ExternalEmail.recipient_email;
     data := ExternalEmail.the_message |}.

(** The outside calls of a [with smtplib.SMTP(...)] block that sends
    [d], started at call count [n]. *)
Definition session_steps (w : world) (d : delivery) (n : nat) : list event :=
  if is_ok (smtp_connect w n (host d) (port d))
  then [EConnect (host d) (port d); ESendmail d; EQuit]
  else [EConnect (host d) (port d)].

(** The message was handed over: the connection was made and [sendmail]
    returned. *)
Definition handed_over (w : world) (d : delivery) (n : nat) : bool :=
  is_ok (smtp_connect w n (host d) (port d))
  && is_ok (smtp_sendmail w (S n) d).

(** A printed line that starts with the text [s]. *)
Definition headed (s : string) (line : fstr) : bool :=
  match line with
  | Lit s' :: _ => String.eqb s' s
  | _ => false
  end.

(** The session iteration [i] of [ManualWebsocket.main] opens at call
    count [n], followed by the pause the iteration makes. *)
Definition manual_delivery (w : world) (i n : nat) : delivery :=
  {| host := "localhost"; port := 2525;
     mail_from := ManualWebsocket.nth_sender i;
     rcpt_to := VStr ManualWebsocket.test_address;
     data := ManualWebsocket.nth_message i (strftime w n) |}.

(** A pause of [secs] seconds follows the session [d] of iteration [i]
    of three when the session completed and another one follows. *)
Definition paced (w : world) (secs : Z) (i n : nat) (d : delivery)
    : list event :=
  ESmtp d ::
  (if is_ok (smtp w n d) && (Z.of_nat i <? 2) then [ESleep secs] else []).

Definition manual_prompt : string := "准备好后按回车键开始发送测试邮件...".

(** The session iteration [i] of [FrontendWebsocket.main] opens at call
    count [n] for the mailbox address [to]. *)
Definition frontend_delivery (w : world) (to : value) (i n : nat) : delivery :=
  {| host := "localhost"; port := 2525;
     mail_from := FrontendWebsocket.nth_sender i;
     rcpt_to := to;
     data := FrontendWebsocket.nth_message to i (strftime w n) |}.

Definition integration_request : request :=
  {| meth := GET; url := [Lit "http://localhost:3001/health/integration"];
     headers := []; timeout := None |}.

Definition frontend_prompt : string := "按回车键继续...".

(** The first of the lines that point to the mail viewers, printed at
    the end of the injector's [main]. *)
Definition viewer_hint : fstr := [Lit "🌐 请访问以下地址查看邮件:"].

(** What the injector prints before and after its loop. *)
Definition injector_banner (a : SendTestEmail.args) : list fstr :=
  [ [Lit "🚀 开始发送测试邮件..."];
    [Lit "📧 目标地址: "; Val (VStr (SendTestEmail.email a))];
    [Lit "📊 发送数量: "; Val (VInt (SendTestEmail.multiple a))];
    [Lit (str_repeat "-" 50)] ].

(** [token[:30]] where the token can be cut. *)
Definition cut30 (token : value) : value :=
  match py_slice_to token 30 with Ok v => v | Raise _ => VNone end.

(** The page [WsValidation.main] writes for a mailbox. *)
Definition page_of (m : WsValidation.mailbox_info) : fstr :=
  WsValidation.html_page (WsValidation.mailbox_id m)
    (cut30 (WsValidation.token m)) (WsValidation.token m).

(** The service of [ready] behind an SMTP listener that refuses every
    session. *)
Definition refusing : world :=
  {| http := http ready;
     smtp := fun _ _ => Raise ConnectionError;
     smtp_connect := smtp_connect calm;
     smtp_sendmail := smtp_sendmail calm;
     smtp_quit := smtp_quit calm;
     strftime := strftime calm;
     unix_time := unix_time calm;
     input := input calm;
     write_file := write_file calm |}.

(** A command line that asks for no message. *)
Definition plain_none : SendTestEmail.args :=
  {| SendTestEmail.email := "box@nnu.edu.kg";
     SendTestEmail.subject := "Test";
     SendTestEmail.content := "hello";
     SendTestEmail.html := false;
     SendTestEmail.multiple := 0 |}.

(** *** The identifier pattern, sessions and reports *)




(** How a [with smtplib.SMTP(...)] block that sends [d], entered at call
    count [n], ends: with the exception of the connection; after a
    connection, with the exception of QUIT where QUIT raises, and else
    with the outcome of [sendmail]. *)
Definition block_outcome (w : world) (d : delivery) (n : nat) : result unit :=
  match smtp_connect w n (host d) (port d) with
  | Raise x => Raise x
  | Ok _ =>
      match smtp_quit w (S (S n)) with
      | Raise x => Raise x
      | Ok _ => smtp_sendmail w (S n) d
      end
  end.

(** A machine on which nothing listens for SMTP connections. *)
Definition no_listener : world :=
  {| http := http calm;
     smtp := smtp calm;
     smtp_connect := fun _ _ _ => Raise ConnectionError;
     smtp_sendmail := smtp_sendmail calm;
     smtp_quit := smtp_quit calm;
     strftime := strftime calm;
     unix_time := unix_time calm;
     input := input calm;
     write_file := write_file calm |}.

(** The issuing service, seen from a terminal whose input is at its
    end. *)
Definition closed_terminal : world :=
  {| http := http (issuing "65f0c0ffee0123456789abcd");
     smtp := smtp calm;
     smtp_connect := smtp_connect calm;
     smtp_sendmail := smtp_sendmail calm;
     smtp_quit := smtp_quit calm;
     strftime := strftime calm;
     unix_time := unix_time calm;
     input := fun _ _ => Raise EOFError;
     write_file := write_file calm |}.

(** The lines the debug run ends with, by whether a message was
    received. *)
Definition debug_summary (mailbox_id : value) (received : bool) : list fstr :=
  List.app
    [ [Lit "📊 测试结果:"];
      [Lit "   邮箱创建: ✅"];
      [Lit "   邮件发送: ✅"];
      [Lit "   邮件接收: "; Lit (if received then "✅" else "❌")] ]
     (if received then
        [ [Lit (nl ++ "🎉 基础功能正常！邮件已正确接收")];
          [Lit "📝 下一步：在浏览器中打开 http://localhost:3000/mailbox/";
           Val mailbox_id];
          [Lit "    然后发送另一封邮件，观察是否有实时推送"] ]
      else
        [ [Lit (nl ++ "❌ 基础功能异常！邮件未能接收")];
          [Lit (nl ++ "🔧 故障排除建议:")];
          [Lit "   1. 确认后端服务正在运行"];
          [Lit "   2. 确认邮件服务监听在端口 2525"];
          [Lit "   3. 检查邮件域名验证逻辑"];
          [Lit "   4. 查看后端控制台日志"] ]).

(** An integration health endpoint that reports some of its fields. *)
Definition integration_reporting : world :=
  with_http (fun _ _ =>
    Ok {| status_code := 200; text := "...";
          json := Ok (VDict [("integration",
                              VDict [("isHealthy", VBool true);
                                     ("totalMails", VInt 3)])]) |}).

(** A health endpoint whose sections are all [null]. *)
Definition null_sections : world :=
  with_http (fun _ _ =>
    Ok {| status_code := 200; text := "...";
          json := Ok (VDict [("mailService", VNone); ("websocket", VNone);
                             ("integration", VNone)]) |}).

(** * Properties *)

(** ** Strings *)

Example str_len_counts_characters : str_len "邮件 #1" = 5%nat.
Proof. reflexivity. Qed.

Example str_take_cuts_characters : str_take 2 "邮件 #1" = "邮件".
Proof. reflexivity. Qed.

Example str_chars_splits_characters : str_chars "a邮b" = ["a"; "邮"; "b"].
Proof. reflexivity. Qed.

Example keys_keep_first_occurrences :
  keys [("a", VInt 1); ("b", VInt 2); ("a", VInt 3)] = ["a"; "b"].
Proof. reflexivity. Qed.

Example str_of_Z_is_decimal : str_of_Z 120 = "120" /\ str_of_Z (-7) = "-7".
Proof. split; reflexivity. Qed.

Lemma append_cancel_l (p s1 s2 : string) : p ++ s1 = p ++ s2 -> s1 = s2.
Proof.
  induction p as [|c p IH]; simpl; intros H; [exact H|].
  inversion H. auto.
Qed.

(** Two positive numbers with the same decimal writing are equal. *)
Lemma str_of_Z_pos_inj (p q : positive) :
  str_of_Z (Zpos p) = str_of_Z (Zpos q) -> p = q.
Proof.
  simpl. intros H. apply DecimalPos.Unsigned.to_uint_inj.
  pose proof (NilEmpty.usu (Pos.to_uint p)) as Hp.
  pose proof (NilEmpty.usu (Pos.to_uint q)) as Hq.
  rewrite H in Hp. congruence.
Qed.

(** ** Traces and the monad *)

Lemma sessions_app (t1 t2 : list event) :
  sessions (t1 ++ t2) = (sessions t1 ++ sessions t2)%list.
Proof. apply flat_map_app. Qed.

Lemma requests_app (t1 t2 : list event) :
  requests (t1 ++ t2) = (requests t1 ++ requests t2)%list.
Proof. apply flat_map_app. Qed.

Lemma sleeps_app (t1 t2 : list event) :
  sleeps (t1 ++ t2) = (sleeps t1 ++ sleeps t2)%list.
Proof. apply flat_map_app. Qed.

Lemma stdout_app (t1 t2 : list event) :
  stdout (t1 ++ t2) = (stdout t1 ++ stdout t2)%list.
Proof. apply flat_map_app. Qed.

(** A computation that returns: how [bind] continues after it. *)
Lemma bind_ok {A B} (m : M A) (f : A -> M B) (n : nat) (a : A) :
  res (m n) = Ok a ->
  bind m f n =
  Run (res (f a (tick (m n)))) (tick (f a (tick (m n))))
      (trace (m n) ++ trace (f a (tick (m n)))).
Proof.
  unfold bind. destruct (m n) as [r n1 t1]; simpl. intros ->.
  destruct (f a n1); reflexivity.
Qed.

Lemma for_fold_cons {A S} (x : A) (l : list A) (s : S) (body : S -> A -> M S) :
  for_fold (x :: l) s body = bind (body s x) (fun s' => for_fold l s' body).
Proof. reflexivity. Qed.

(** ** The injector: scripts/send_test_email.py *)

Section Injector.
Import SendTestEmail.
Variable w : world.

Lemma iteration_run (a : args) (c : Z) (i n : nat) :
  let r := iteration w a c i n in
  res r = Ok (if is_ok (smtp w n (nth_delivery a i)) then c + 1 else c)
  /\ tick r = S n
  /\ sessions (trace r) = [nth_delivery a i]
  /\ filter is_report (stdout (trace r)) = [].
Proof.
  unfold iteration, nth_delivery, send_html_email, send_test_email,
    smtp_session, try, bind, print, emit, ret.
  destruct (html a); simpl;
    match goal with |- context [smtp w n ?d] => destruct (smtp w n d) end;
    simpl; repeat split; reflexivity.
Qed.

Lemma loop_run (a : args) (m : nat) : forall (k : nat) (c : Z),
  let r := for_fold (seq k m) c (iteration w a) k in
  res r = Ok (c + Z.of_nat (List.length (filter (completed w a) (seq k m))))
  /\ tick r = (k + m)%nat
  /\ sessions (trace r) = map (nth_delivery a) (seq k m)
  /\ filter is_report (stdout (trace r)) = [].
Proof.
  induction m as [|m IH]; intros k c.
  - simpl. repeat split; try reflexivity. f_equal; lia. lia.
  - cbn zeta. rewrite <- cons_seq, for_fold_cons.
    destruct (iteration_run a c k k) as (Hres & Htick & Hses & Hrep).
    rewrite (bind_ok _ _ _ _ Hres), Htick. cbn [res tick trace].
    destruct (IH (S k)
                (if is_ok (smtp w k (nth_delivery a k)) then c + 1 else c))
      as (Hres' & Htick' & Hses' & Hrep').
    rewrite Hres', Htick', sessions_app, stdout_app, filter_app, Hses, Hses',
      Hrep, Hrep'.
    repeat split; try reflexivity; try lia.
    f_equal. simpl filter. unfold completed at 2.
    destruct (is_ok (smtp w k (nth_delivery a k))); simpl List.length; lia.
Qed.

Lemma filter_length_le {A} (f : A -> bool) (l : list A) :
  (List.length (filter f l) <= List.length l)%nat.
Proof.
  induction l as [|x l IH]; simpl; [lia|]. destruct (f x); simpl; lia.
Qed.

(** What a run of [main] amounts to. *)
Lemma main_run (a : args) :
  let n := Z.to_nat (multiple a) in
  let r := main w a 0%nat in
  let success_count :=
    Z.of_nat (List.length (filter (completed w a) (seq 0 n))) in
  res r = Ok tt
  /\ sessions (trace r) = map (nth_delivery a) (seq 0 n)
  /\ filter is_report (stdout (trace r)) = [report success_count (multiple a)].
Proof.
  intros n r success_count.
  destruct (loop_run a n 0%nat 0) as (Hres & Htick & Hses & Hrep).
  simpl Z.add in Hres. fold success_count in Hres.
  subst r. unfold main, range, bind, print, emit, ret. fold n.
  destruct (for_fold (seq 0 n) 0 (iteration w a) 0%nat) as [r1 k1 t1].
  cbn [res tick trace] in *. subst r1.
  destruct (0 <? success_count); cbn [res tick trace]; simpl;
    rewrite ?sessions_app, ?stdout_app, ?filter_app, Hses, Hrep;
    simpl; rewrite ?app_nil_r; repeat split; auto.
Qed.

(** C3. Every one of the [multiple] iterations of the injector opens
    its SMTP session, whatever happened to the sessions before it: an
    exception raised by a session is caught inside its iteration.  The
    run prints one report line, which reads "📈 发送完成: c/m 封邮件发送成功"
    with [m] the count asked for and [c] the number of iterations whose
    session completed without raising; [c] lies between 0 and the number
    of iterations, and [main] itself returns normally. *)
Theorem injector_iterations_independent (a : args) :
  let n := Z.to_nat (multiple a) in
  let r := main w a 0%nat in
  let success_count :=
    Z.of_nat (List.length (filter (completed w a) (seq 0 n))) in
  res r = Ok tt
  /\ sessions (trace r) = map (nth_delivery a) (seq 0 n)
  /\ filter is_report (stdout (trace r)) =
     [[Lit "📈 发送完成: "; Val (VInt success_count); Lit "/";
       Val (VInt (multiple a)); Lit " 封邮件发送成功"]]
  /\ 0 <= success_count <= Z.of_nat n.
Proof.
  intros n r success_count.
  destruct (main_run a) as (Hres & Hses & Hrep).
  split; [exact Hres|]. split; [exact Hses|]. split; [exact Hrep|].
  split; unfold success_count; [lia|].
  pose proof (filter_length_le (completed w a) (seq 0 n)) as H.
  rewrite length_seq in H. lia.
Qed.

End Injector.

(** Three messages to a listener that refuses the second session: all
    three sessions are opened, the refusal is printed, and the report
    says 2/3. *)
Example second_session_refused :
  List.length (sessions (trace (SendTestEmail.main flaky plain_thrice 0%nat))) = 3%nat
  /\ In [Lit "❌ 发送邮件失败: "; Err ConnectionError]
       (stdout (trace (SendTestEmail.main flaky plain_thrice 0%nat)))
  /\ In (SendTestEmail.report 2 3)
       (stdout (trace (SendTestEmail.main flaky plain_thrice 0%nat))).
Proof.
  split; [reflexivity|].
  split; vm_compute; repeat (try (left; reflexivity); right).
Qed.

Section InjectorMessages.
Import SendTestEmail.
Variable w : world.

Lemma for_fold_ext {A S} (f g : S -> A -> M S) (l : list A) :
  (forall s x n, f s x n = g s x n) ->
  forall s n, for_fold l s f n = for_fold l s g n.
Proof.
  intros H. induction l as [|x l IH]; intros s n; simpl; [reflexivity|].
  unfold bind. rewrite H. destruct (g s x n) as [[s'|e] n1 t1]; [|reflexivity].
  rewrite IH. reflexivity.
Qed.

Lemma map_const_seq {A} (x : A) (m : nat) : forall k,
  map (fun _ => x) (seq k m) = repeat x m.
Proof. induction m as [|m IH]; intros k; simpl; [|rewrite IH]; reflexivity. Qed.

Lemma nth_error_map_seq {A} (f : nat -> A) (n i : nat) :
  (i < n)%nat -> nth_error (map f (seq 0 n)) i = Some (f i).
Proof.
  intros H. rewrite nth_error_map, nth_error_seq.
  destruct (Nat.ltb_spec i n); [reflexivity | lia].
Qed.

(** The messages of a run, one per iteration. *)
Lemma main_sent (a : args) :
  sent (trace (main w a 0%nat)) =
  map (fun i => data (nth_delivery a i)) (seq 0 (Z.to_nat (multiple a))).
Proof.
  unfold sent. destruct (main_run w a) as (_ & Hses & _).
  rewrite Hses, map_map. reflexivity.
Qed.

(** C9. With the HTML flag set, the run of the injector does not
    depend on [--subject] and [--content]: two command lines that agree
    on the address and on the count yield the same run (result, effects
    and output), and every message handed to SMTP is the fixed HTML
    message for the address. *)
Theorem html_mode_ignores_subject_and_content (a1 a2 : args) :
  html a1 = true -> html a2 = true ->
  email a1 = email a2 -> multiple a1 = multiple a2 ->
  main w a1 0%nat = main w a2 0%nat
  /\ sent (trace (main w a1 0%nat)) =
     repeat (html_message (email a1)) (Z.to_nat (multiple a1))
  /\ sent (trace (main w a2 0%nat)) = sent (trace (main w a1 0%nat)).
Proof.
  intros H1 H2 He Hm.
  assert (Hrun : main w a1 0%nat = main w a2 0%nat).
  { unfold main, bind, print, emit. rewrite He, Hm.
    rewrite (for_fold_ext (iteration w a1) (iteration w a2)); [reflexivity|].
    intros s x n. unfold iteration. rewrite H1, H2, He. reflexivity. }
  split; [exact Hrun|]. split; [|rewrite Hrun; reflexivity].
  rewrite main_sent. unfold nth_delivery. rewrite H1. simpl data.
  apply map_const_seq.
Qed.

(** In plain mode with more than one message, the subjects of two
    iterations are equal only if the iterations are the same. *)
Lemma plain_subjects_distinct (a : args) (i j : nat) :
  1 < multiple a -> nth_subject a i = nth_subject a j -> i = j.
Proof.
  unfold nth_subject. intros H. apply Z.ltb_lt in H. rewrite H.
  intros Heq. apply append_cancel_l in Heq. apply (append_cancel_l " #") in Heq.
  replace (Z.of_nat i + 1) with (Zpos (Pos.of_succ_nat i)) in Heq by lia.
  replace (Z.of_nat j + 1) with (Zpos (Pos.of_succ_nat j)) in Heq by lia.
  apply str_of_Z_pos_inj in Heq. lia.
Qed.

(** C6, as the code has it.  The injector hands one message per
    iteration to SMTP, each addressed to the address of the command
    line.  In plain mode the sender is test@example.com and the subject
    of message [i] (counted from 0) is the base subject followed by
    [" #"] and [i+1] when more than one message is asked for, and the
    base subject itself otherwise.  In HTML mode the sender is
    html-test@example.com and the subject is the fixed HTML subject,
    whatever the index. *)
Theorem subject_by_mode (a : args) (i : nat) :
  (i < Z.to_nat (multiple a))%nat ->
  exists m,
    nth_error (sent (trace (main w a 0%nat))) i = Some m
    /\ List.length (sent (trace (main w a 0%nat))) = Z.to_nat (multiple a)
    /\ msg_to m = VStr (email a)
    /\ (html a = false ->
        msg_from m = "test@example.com"
        /\ msg_subject m =
           if 1 <? multiple a
           then subject a ++ " #" ++ str_of_Z (Z.of_nat i + 1)
           else subject a)
    /\ (html a = true ->
        msg_from m = "html-test@example.com"
        /\ msg_subject m = "HTML 格式测试邮件").
Proof.
  intros Hi. exists (data (nth_delivery a i)).
  rewrite main_sent, length_map, length_seq.
  split; [apply (nth_error_map_seq (fun i => data (nth_delivery a i))); exact Hi|].
  split; [reflexivity|].
  unfold nth_delivery. destruct (html a); simpl.
  - split; [reflexivity|]. split; [discriminate | intros _; split; reflexivity].
  - split; [reflexivity|]. split; [|discriminate].
    intros _. split; reflexivity.
Qed.

End InjectorMessages.

Lemma html_mode_ignores_subject_and_content_witness :
  SendTestEmail.main calm html_twice 0%nat = SendTestEmail.main calm html_twice' 0%nat
  /\ sent (trace (SendTestEmail.main calm html_twice 0%nat)) =
     repeat (SendTestEmail.html_message "box@nnu.edu.kg") 2
  /\ sent (trace (SendTestEmail.main calm html_twice' 0%nat)) =
     sent (trace (SendTestEmail.main calm html_twice 0%nat)).
Proof.
  apply (html_mode_ignores_subject_and_content calm html_twice html_twice');
    reflexivity.
Defined.

Lemma subject_by_mode_witness :
  exists m,
    nth_error (sent (trace (SendTestEmail.main calm plain_thrice 0%nat))) 1 = Some m
    /\ List.length (sent (trace (SendTestEmail.main calm plain_thrice 0%nat))) = 3%nat
    /\ msg_to m = VStr "box@nnu.edu.kg"
    /\ (false = false ->
        msg_from m = "test@example.com" /\ msg_subject m = "Test #2")
    /\ (false = true ->
        msg_from m = "html-test@example.com"
        /\ msg_subject m = "HTML 格式测试邮件").
Proof.
  apply (subject_by_mode calm plain_thrice 1%nat). simpl. lia.
Defined.

(** C6, as stated, fails in HTML mode.  With the HTML flag and two
    messages asked for under the base subject "Test", both messages carry
    the fixed HTML subject: the subject is not the base subject, carries
    no index, and the two subjects are equal. *)
Lemma html_subjects_not_disambiguated :
  map msg_subject (sent (trace (SendTestEmail.main calm html_twice 0%nat))) =
    ["HTML 格式测试邮件"; "HTML 格式测试邮件"]
  /\ map msg_subject (sent (trace (SendTestEmail.main calm html_twice 0%nat))) <>
     ["Test #1"; "Test #2"]
  /\ map msg_from (sent (trace (SendTestEmail.main calm html_twice 0%nat))) =
     ["html-test@example.com"; "html-test@example.com"].
Proof.
  repeat split; try reflexivity. intros H. vm_compute in H. discriminate H.
Qed.

(** ** Quiet computations *)

Lemma local_app (t1 t2 : list event) :
  forallb is_local t1 = true -> forallb is_local t2 = true ->
  forallb is_local (t1 ++ t2) = true.
Proof. intros H1 H2. rewrite forallb_app, H1, H2. reflexivity. Qed.

Lemma local_sessions (t : list event) :
  forallb is_local t = true -> sessions t = [].
Proof.
  induction t as [|e t IH]; simpl; [reflexivity|].
  intros H. apply andb_prop in H as [He Ht]. destruct e; try discriminate He; auto.
Qed.

Lemma local_requests (t : list event) :
  forallb is_local t = true -> requests t = [].
Proof.
  induction t as [|e t IH]; simpl; [reflexivity|].
  intros H. apply andb_prop in H as [He Ht]. destruct e; try discriminate He; auto.
Qed.

Lemma local_sleeps (t : list event) :
  forallb is_local t = true -> sleeps t = [].
Proof.
  induction t as [|e t IH]; simpl; [reflexivity|].
  intros H. apply andb_prop in H as [He Ht]. destruct e; try discriminate He; auto.
Qed.

Lemma outside_app (t1 t2 : list event) :
  outside (t1 ++ t2) = (outside t1 ++ outside t2)%list.
Proof. apply filter_app. Qed.

Lemma local_outside (t : list event) :
  forallb is_local t = true -> outside t = [].
Proof.
  induction t as [|e t IH]; simpl; [reflexivity|].
  intros H. apply andb_prop in H as [He Ht]. rewrite He. simpl. auto.
Qed.

Lemma quiet_ret {A} (a : A) : quiet (ret a).
Proof. intros n. split; reflexivity. Qed.

Lemma quiet_lift {A} (r : result A) : quiet (lift r).
Proof. intros n. split; reflexivity. Qed.

Lemma quiet_print (line : fstr) : quiet (print line).
Proof. intros n. split; reflexivity. Qed.

Lemma quiet_traceback (e : exn) : quiet (emit (ETraceback e)).
Proof. intros n. split; reflexivity. Qed.

Lemma quiet_bind {A B} (m : M A) (f : A -> M B) :
  quiet m -> (forall a, quiet (f a)) -> quiet (bind m f).
Proof.
  intros Hm Hf n. unfold bind. destruct (Hm n) as [Ht Hl].
  destruct (m n) as [[a|e] n1 t1]; simpl in *; subst n1; [|auto].
  destruct (Hf a n) as [Ht' Hl']. destruct (f a n) as [r n2 t2]; simpl in *.
  split; [assumption | apply local_app; assumption].
Qed.

Lemma quiet_try {A} (m : M A) (h : exn -> M A) :
  quiet m -> (forall e, quiet (h e)) -> quiet (try m h).
Proof.
  intros Hm Hh n. unfold try. destruct (Hm n) as [Ht Hl].
  destruct (m n) as [[a|e] n1 t1]; simpl in *; subst n1; [auto|].
  destruct (Hh e n) as [Ht' Hl']. destruct (h e n) as [r n2 t2]; simpl in *.
  split; [assumption | apply local_app; assumption].
Qed.

Lemma quiet_if {A} (b : bool) (m1 m2 : M A) :
  quiet m1 -> quiet m2 -> quiet (if b then m1 else m2).
Proof. destruct b; auto. Qed.

Create HintDb quiet.
#[local] Hint Resolve quiet_ret quiet_lift quiet_print quiet_traceback
  quiet_if : quiet.
#[local] Hint Extern 2 (quiet (bind _ _)) =>
  apply quiet_bind; [|intro] : quiet.
#[local] Hint Extern 2 (quiet (try _ _)) =>
  apply quiet_try; [|intro] : quiet.

Lemma returns_ret {A} (a : A) : returns (ret a).
Proof. intros n. exists a. reflexivity. Qed.

Lemma returns_print (line : fstr) : returns (print line).
Proof. intros n. exists tt. reflexivity. Qed.

Lemma returns_bind {A B} (m : M A) (f : A -> M B) :
  returns m -> (forall a, returns (f a)) -> returns (bind m f).
Proof.
  intros Hm Hf n. unfold bind. destruct (Hm n) as [a Ha].
  destruct (m n) as [r n1 t1]; simpl in Ha; subst r.
  destruct (Hf a n1) as [b Hb]. destruct (f a n1) as [r n2 t2]; simpl in *.
  exists b. assumption.
Qed.

(** A handler that returns makes the whole [try] return. *)
Lemma returns_try {A} (m : M A) (h : exn -> M A) :
  (forall e, returns (h e)) -> returns (try m h).
Proof.
  intros Hh n. unfold try. destruct (m n) as [[a|e] n1 t1].
  - exists a. reflexivity.
  - destruct (Hh e n1) as [b Hb]. destruct (h e n1) as [r n2 t2]; simpl in *.
    exists b. assumption.
Qed.

Lemma returns_if {A} (b : bool) (m1 m2 : M A) :
  returns m1 -> returns m2 -> returns (if b then m1 else m2).
Proof. destruct b; auto. Qed.

Create HintDb returns.
#[local] Hint Resolve returns_ret returns_print returns_if : returns.
#[local] Hint Extern 2 (returns (bind _ _)) =>
  apply returns_bind; [|intro] : returns.
#[local] Hint Extern 2 (returns (try _ _)) =>
  apply returns_try; intro : returns.

(** Case analysis on the innermost scrutinee, again and again. *)
Ltac break_match :=
  repeat (simpl in *; try discriminate;
          match goal with
          | |- context [match ?x with _ => _ end] =>
              lazymatch x with
              | context [match _ with _ => _ end] => fail
              | _ => destruct x eqn:?
              end
          end).

(** ** The debug run: scripts/ws/simple_debug.py *)

Section Debug.
Import SimpleDebug.
Variable w : world.

Lemma quiet_show_service (name : string) (data : value) :
  quiet (show_service name data).
Proof.
  unfold show_service.
  repeat match goal with
         | |- quiet (if ?b then _ else _) => destruct b
         end; auto 20 with quiet.
Qed.

(** A guarded HTTP call: the one outside call is the request, all
    the rest is output. *)
Lemma try_http {A} (req : request) (k : response -> M A) (h : exn -> M A)
    (n : nat) :
  (forall x, quiet (k x)) -> (forall e, quiet (h e)) ->
  exists r t,
    try (bind (http_call w req) k) h n = Run r (S n) (EHttp req :: t)
    /\ forallb is_local t = true.
Proof.
  intros Hk Hh. unfold try, bind, http_call.
  destruct (http w n req) as [x|e].
  - destruct (Hk x (S n)) as [Ht Hl].
    destruct (k x (S n)) as [[a|e] n1 t1]; simpl in *; subst n1.
    + eauto.
    + destruct (Hh e (S n)) as [Ht' Hl'].
      destruct (h e (S n)) as [r n2 t2]; simpl in *; subst n2.
      exists r, (t1 ++ t2)%list. split; [reflexivity | apply local_app; auto].
  - destruct (Hh e (S n)) as [Ht' Hl'].
    destruct (h e (S n)) as [r n2 t2]; simpl in *; subst n2. eauto.
Qed.

Lemma bind_run {A B} (m : M A) (f : A -> M B) n a k t r k' t' :
  m n = Run (Ok a) k t -> f a k = Run r k' t' ->
  bind m f n = Run r k' (t ++ t').
Proof. intros Hm Hf. unfold bind. rewrite Hm, Hf. reflexivity. Qed.

Lemma check_service_run (service : string * string) (n : nat) :
  exists t,
    check_service w service n =
      Run (Ok tt) (S n) (EHttp (health_request service) :: t)
    /\ forallb is_local t = true.
Proof.
  destruct service as [name url]. unfold check_service, health_request.
  simpl snd.
  match goal with |- context [try (bind _ ?k) ?h] =>
    destruct (try_http {| meth := GET; url := [Lit url]; headers := [];
                          timeout := Some 5 |} k h n) as (r & t & Heq & Hl);
      [ intro; apply quiet_if; [|auto with quiet];
        apply quiet_bind; [auto with quiet | intro; apply quiet_show_service]
      | auto with quiet
      | match type of Heq with ?lhs = _ =>
          assert (Hr : exists a, res lhs = Ok a)
            by (apply returns_try; intro; apply returns_print)
        end ]
  end.
  destruct Hr as [[] Hr]. rewrite Heq in Hr. simpl in Hr. subst r. eauto.
Qed.

Lemma check_each_run (l : list (string * string)) : forall n,
  exists t,
    for_each l (check_service w) n = Run (Ok tt) (n + List.length l)%nat t
    /\ requests t = map health_request l
    /\ sessions t = [] /\ sleeps t = []
    /\ outside t = map EHttp (map health_request l).
Proof.
  unfold for_each. induction l as [|x l IH]; intros n.
  - exists []. simpl. unfold ret. rewrite Nat.add_0_r. auto 10.
  - destruct (check_service_run x n) as (t1 & H1 & Hl).
    destruct (IH (S n)) as (t2 & H2 & Hreq & Hses & Hsl & Hout).
    exists ((EHttp (health_request x) :: t1) ++ t2)%list.
    rewrite for_fold_cons, (bind_run _ _ _ _ _ _ _ _ _ H1 H2).
    simpl List.length. rewrite Nat.add_succ_r.
    split; [reflexivity|].
    rewrite requests_app, sessions_app, sleeps_app, outside_app,
      Hreq, Hses, Hsl, Hout.
    simpl. rewrite (local_requests _ Hl), (local_sessions _ Hl),
      (local_sleeps _ Hl), (local_outside _ Hl). auto 10.
Qed.

Lemma check_services_run (n : nat) :
  exists t,
    check_services w n = Run (Ok tt) (n + 4)%nat t
    /\ requests t = map health_request services
    /\ sessions t = [] /\ sleeps t = []
    /\ outside t = map EHttp (map health_request services).
Proof.
  destruct (check_each_run services n) as (t & H & Hreq & Hses & Hsl & Hout).
  unfold check_services, bind, print, emit. rewrite H. simpl List.length.
  eexists. split; [reflexivity|].
  simpl. rewrite requests_app, sessions_app, sleeps_app, outside_app,
    Hreq, Hses, Hsl, Hout.
  simpl. rewrite ?app_nil_r. auto 10.
Qed.

(** Without a good answer to the provisioning call [create_mailbox]
    returns [None]; it has made that one call and printed. *)
Lemma create_mailbox_failed (n : nat) :
  provisioned (http w n generate_request) = false ->
  exists t,
    create_mailbox w n = Run (Ok None) (S n) (EHttp generate_request :: t)
    /\ forallb is_local t = true.
Proof.
  unfold provisioned, status_accepted, envelope_ok, has_key.
  unfold create_mailbox, try, bind, http_call, lift, print, emit, ret,
    py_get, py_in, py_item, has_key.
  intros H. break_match;
    repeat match goal with
           | E : Run _ _ _ = Run _ _ _ |- _ => inversion E; subst; clear E
           end;
    try discriminate; simpl in *; try discriminate;
    eexists; split; reflexivity.
Qed.

Lemma create_mailbox_provisioned (n : nat) (response : response) :
  http w n generate_request = Ok response ->
  provisioned (Ok response) = true ->
  exists t,
    create_mailbox w n =
      Run (Ok (Some (issued (json response)))) (S n)
          (EHttp generate_request :: t)
    /\ forallb is_local t = true.
Proof.
  unfold provisioned, status_accepted, envelope_ok, has_key, issued, field.
  unfold create_mailbox, try, bind, http_call, lift, print, emit, ret,
    py_get, py_in, py_item, has_key.
  intros -> H. break_match;
    repeat match goal with
           | E : Run _ _ _ = Run _ _ _ |- _ => inversion E; subst; clear E
           | E : Some _ = Some _ |- _ => inversion E; subst; clear E
           end;
    try discriminate; simpl in *; try discriminate;
    eexists; split; reflexivity.
Qed.

(** C1. When the provisioning call is not answered with status 200 or
    201 and a well-formed success envelope (the call raises, the status
    is another one, or the body is not a JSON object with a true
    [success] and a [data] object holding [address], [id] and [token]),
    [create_mailbox] returns [None], and [main] stops there: the only
    outside calls of the run are the four health requests and the
    provisioning request, no SMTP session is opened, nothing is slept,
    no retrieval request is made, and the last line printed is the
    termination line. *)
Theorem provision_failure_is_fatal :
  provisioned (http w 4%nat generate_request) = false ->
  res (create_mailbox w 4%nat) = Ok None
  /\ res (main w 0%nat) = Ok tt
  /\ requests (trace (main w 0%nat)) =
     (map health_request services ++ [generate_request])%list
  /\ sessions (trace (main w 0%nat)) = []
  /\ sleeps (trace (main w 0%nat)) = []
  /\ exists lines,
       stdout (trace (main w 0%nat)) = (lines ++ [terminated])%list.
Proof.
  intros H.
  destruct (create_mailbox_failed 4%nat H) as (t2 & H2 & Hl2).
  destruct (check_services_run 0%nat) as (t1 & H1 & Hreq & Hses & Hsl & _).
  simpl in H1. split; [rewrite H2; reflexivity|].
  unfold main, bind, print, emit. rewrite H1, H2. cbn [res tick trace].
  split; [reflexivity|].
  simpl. rewrite !requests_app, !sessions_app, !sleeps_app, Hreq, Hses, Hsl.
  simpl. rewrite !requests_app, !sessions_app, !sleeps_app,
    (local_requests _ Hl2), (local_sessions _ Hl2), (local_sleeps _ Hl2).
  repeat split; try reflexivity.
  rewrite !stdout_app. simpl. rewrite !stdout_app. simpl.
  exists ([Lit "🚀 开始简化调试测试..."] :: [Lit (str_repeat "=" 60)]
            :: stdout t1 ++ [Lit "📧 创建测试邮箱..."] :: stdout t2)%list.
  simpl. rewrite <- app_assoc. reflexivity.
Qed.

Lemma quiet_show_email (i : nat) (email : value) : quiet (show_email i email).
Proof. unfold show_email. auto 10 with quiet. Qed.

Lemma quiet_show_emails (emails : list value) : forall start,
  quiet (show_emails start emails).
Proof.
  induction emails as [|x l IH]; intros start; simpl.
  - apply quiet_ret.
  - apply quiet_bind; [apply quiet_show_email | intro; apply IH].
Qed.

(** [check_mailbox_emails] makes its one request; all the rest is
    output. *)
Lemma check_mailbox_emails_shape (mailbox_id token : value) (n : nat) :
  exists r t,
    check_mailbox_emails w mailbox_id token n =
      Run r (S n) (EHttp (mail_request mailbox_id token) :: t)
    /\ forallb is_local t = true.
Proof.
  unfold check_mailbox_emails. apply try_http; intro;
    repeat first
      [ apply quiet_show_emails
      | apply quiet_bind; [|intro]
      | apply quiet_if
      | solve [auto with quiet] ].
Qed.

(** What [check_mailbox_emails] returns: the empty list, or the [data]
    field of a JSON object answered with status 200; in both cases
    something [len] applies to. *)
Lemma check_mailbox_emails_result (mailbox_id token : value) (n : nat) :
  exists v len,
    res (check_mailbox_emails w mailbox_id token n) = Ok v
    /\ py_len v = Ok len
    /\ (v = VList []
        \/ exists response items,
             http w n (mail_request mailbox_id token) = Ok response
             /\ status_code response = 200
             /\ json response = Ok (VDict items)
             /\ truthy (field "success" (VDict items)) = true
             /\ lookup "data" items = Some v).
Proof.
  unfold check_mailbox_emails, try, bind, http_call, lift, print, emit, ret,
    py_get, py_in, py_item, has_key, field.
  break_match;
    repeat match goal with
           | E : Run _ _ _ = Run _ _ _ |- _ => inversion E; subst; clear E
           | E : Ok _ = Ok _ |- _ => inversion E; subst; clear E
           end;
    try discriminate;
    try (exists (VList []), 0; split; [reflexivity|];
         split; [reflexivity | left; reflexivity]).
  all: eexists; eexists; split; [reflexivity|]; split; [eassumption|].
  all: try (left; reflexivity).
  all: right; eexists; eexists; split; [reflexivity|];
    rewrite Z.eqb_eq in *; repeat split; eauto.
  all: simpl; match goal with E : lookup "success" _ = _ |- _ => rewrite E end;
    assumption.
Qed.

Lemma check_mailbox_emails_run (mailbox_id token : value) (n : nat) :
  exists v len t,
    check_mailbox_emails w mailbox_id token n =
      Run (Ok v) (S n) (EHttp (mail_request mailbox_id token) :: t)
    /\ forallb is_local t = true
    /\ py_len v = Ok len
    /\ (v = VList []
        \/ exists response items,
             http w n (mail_request mailbox_id token) = Ok response
             /\ status_code response = 200
             /\ json response = Ok (VDict items)
             /\ truthy (field "success" (VDict items)) = true
             /\ lookup "data" items = Some v).
Proof.
  destruct (check_mailbox_emails_shape mailbox_id token n) as (r & t & Heq & Hl).
  destruct (check_mailbox_emails_result mailbox_id token n)
    as (v & len & Hres & Hlen & Hv).
  rewrite Heq in Hres. simpl in Hres. subst r.
  exists v, len, t. auto.
Qed.

Lemma show_emails_returns (emails : list value) : forall start n,
  exists t, show_emails start emails n = Run (Ok tt) n t.
Proof.
  induction emails as [|email rest IH]; intros start n; simpl.
  - eexists. reflexivity.
  - destruct (IH (S start) n) as [t Ht].
    unfold bind, show_email, lift, print, emit.
    destruct email; simpl; rewrite Ht; eexists; reflexivity.
Qed.

(** A [data] field that has a length is returned as it is. *)
Lemma sized_data_is_returned (mailbox_id token : value) (n : nat)
    (response : response) (items : list (string * value)) (s v : value)
    (len : Z) :
  http w n (mail_request mailbox_id token) = Ok response ->
  status_code response = 200 ->
  json response = Ok (VDict items) ->
  lookup "success" items = Some s -> truthy s = true ->
  lookup "data" items = Some v ->
  py_len v = Ok len ->
  res (check_mailbox_emails w mailbox_id token n) = Ok v.
Proof.
  intros Hh Hs Hj Hsucc Ht Hd Hlen.
  unfold check_mailbox_emails, try, bind, http_call, lift, print, emit, ret.
  rewrite Hh, Hs, Hj. simpl. rewrite Hsucc, Ht. unfold has_key. rewrite Hd.
  simpl. rewrite Hlen.
  destruct v; try discriminate Hlen; simpl;
    match goal with
    | |- context [show_emails 1 ?l (S n)] =>
        destruct (show_emails_returns l 1 (S n)) as [t ->]
    end; reflexivity.
Qed.

(** What is not an answer with status 200 and a JSON body yields the
    empty list. *)
Lemma failed_retrieval_is_empty (mailbox_id token : value) (n : nat) :
  (forall x, http w n (mail_request mailbox_id token) = Raise x ->
             res (check_mailbox_emails w mailbox_id token n) = Ok (VList []))
  /\ (forall response,
        http w n (mail_request mailbox_id token) = Ok response ->
        status_code response <> 200 ->
        res (check_mailbox_emails w mailbox_id token n) = Ok (VList []))
  /\ (forall response x,
        http w n (mail_request mailbox_id token) = Ok response ->
        json response = Raise x ->
        res (check_mailbox_emails w mailbox_id token n) = Ok (VList [])).
Proof.
  unfold check_mailbox_emails, try, bind, http_call, lift, print, emit, ret.
  split; [|split].
  - intros x ->. reflexivity.
  - intros response -> Hs. apply Z.eqb_neq in Hs. rewrite Hs. reflexivity.
  - intros response x -> Hj. rewrite Hj.
    destruct (status_code response =? 200); reflexivity.
Qed.

(** C10, as the code has it.  [check_mailbox_emails] returns for every
    answer of the service, and never raises: its result is the empty
    list, or else the [data] field of a JSON object that was answered
    with status 200 and has a true [success].  The result is never
    [None]: it is a list, a string or an object, and [len] applies to
    it.  On success the retrieved messages are what is returned: a [data]
    field that has a length (a list of messages in particular) is
    returned as it is.  On failure the result is the empty list: when the
    call raises, when the status is not 200, when the body is not
    JSON. *)
Theorem check_mailbox_emails_total (mailbox_id token : value) (n : nat) :
  (exists v len t,
    check_mailbox_emails w mailbox_id token n =
      Run (Ok v) (S n) (EHttp (mail_request mailbox_id token) :: t)
    /\ py_len v = Ok len
    /\ v <> VNone
    /\ ((exists l, v = VList l) \/ (exists s, v = VStr s)
        \/ (exists d, v = VDict d))
    /\ (v = VList []
        \/ exists response items,
             http w n (mail_request mailbox_id token) = Ok response
             /\ status_code response = 200
             /\ json response = Ok (VDict items)
             /\ truthy (field "success" (VDict items)) = true
             /\ lookup "data" items = Some v))
  /\ (forall response items s v len,
        http w n (mail_request mailbox_id token) = Ok response ->
        status_code response = 200 ->
        json response = Ok (VDict items) ->
        lookup "success" items = Some s -> truthy s = true ->
        lookup "data" items = Some v ->
        py_len v = Ok len ->
        res (check_mailbox_emails w mailbox_id token n) = Ok v)
  /\ (forall x, http w n (mail_request mailbox_id token) = Raise x ->
                res (check_mailbox_emails w mailbox_id token n) = Ok (VList []))
  /\ (forall response,
        http w n (mail_request mailbox_id token) = Ok response ->
        status_code response <> 200 ->
        res (check_mailbox_emails w mailbox_id token n) = Ok (VList []))
  /\ (forall response x,
        http w n (mail_request mailbox_id token) = Ok response ->
        json response = Raise x ->
        res (check_mailbox_emails w mailbox_id token n) = Ok (VList [])).
Proof.
  split.
  - destruct (check_mailbox_emails_run mailbox_id token n)
      as (v & len & t & Heq & _ & Hlen & Hv).
    exists v, len, t. repeat split; auto.
    + intros ->. discriminate Hlen.
    + destruct v; try discriminate Hlen; eauto.
  - split; [apply sized_data_is_returned|].
    apply failed_retrieval_is_empty.
Qed.

(** The wrapped envelope: with a true [success], a list in [data] is the
    list returned. *)
Lemma wrapped_list_is_returned (mailbox_id token : value) (n : nat)
    (response : response) (items : list (string * value)) (s : value)
    (l : list value) :
  http w n (mail_request mailbox_id token) = Ok response ->
  status_code response = 200 ->
  json response = Ok (VDict items) ->
  lookup "success" items = Some s -> truthy s = true ->
  lookup "data" items = Some (VList l) ->
  res (check_mailbox_emails w mailbox_id token n) = Ok (VList l).
Proof.
  intros Hh Hs Hj Hsucc Ht Hd.
  unfold check_mailbox_emails, try, bind, http_call, lift, print, emit, ret.
  rewrite Hh, Hs, Hj. simpl. rewrite Hsucc, Ht. unfold has_key. rewrite Hd.
  simpl. destruct (show_emails_returns l 1 (S n)) as [t ->]. reflexivity.
Qed.

(** A JSON array as the whole body never reaches the branch written
    for it: [result.get] raises first, and the empty list is
    returned. *)
Lemma bare_list_raises (mailbox_id token : value) (n : nat)
    (response : response) (l : list value) :
  http w n (mail_request mailbox_id token) = Ok response ->
  status_code response = 200 ->
  json response = Ok (VList l) ->
  check_mailbox_emails w mailbox_id token n =
    Run (Ok (VList [])) (S n)
        [EHttp (mail_request mailbox_id token);
         EOut [Lit "❌ 检查邮件异常: "; Err AttributeError];
         ETraceback AttributeError].
Proof.
  intros Hh Hs Hj.
  unfold check_mailbox_emails, try, bind, http_call, lift.
  rewrite Hh, Hs, Hj. reflexivity.
Qed.

Lemma send_test_email_run (to_address : value) (n : nat) :
  exists t,
    send_test_email w to_address n =
      Run (Ok (is_ok (smtp w n (debug_delivery w to_address n)))) (S n)
          (ESmtp (debug_delivery w to_address n) :: t)
    /\ forallb is_local t = true.
Proof.
  unfold send_test_email, debug_delivery, try, bind, now, smtp_session,
    print, emit, ret.
  destruct (smtp w n _); simpl; eexists; split; reflexivity.
Qed.

Lemma wait_for_processing_run (n : nat) :
  exists t,
    wait_for_processing n = Run (Ok tt) n t
    /\ outside t = repeat (ESleep 1) 10.
Proof. eexists. split; reflexivity. Qed.

Lemma summary_run (mailbox_id : value) (len : Z) (n : nat) :
  exists t,
    summary mailbox_id len n = Run (Ok tt) n t /\ forallb is_local t = true.
Proof.
  unfold summary, bind, print, emit.
  destruct (0 <? len); simpl; eexists; split; reflexivity.
Qed.

(** C2, as the code has it.  When the mailbox is provisioned and the
    test mail is accepted, [main] waits a fixed ten sleeps of one second
    and then asks the retrieval endpoint exactly once, with the
    identifier in the URL and the token as bearer credential, and
    returns.  Apart from terminal output the run is: the four health requests, the provisioning request, the
    SMTP session, the ten sleeps, the retrieval request. *)
Theorem verifier_waits_then_retrieves_once (response : response) :
  http w 4%nat generate_request = Ok response ->
  provisioned (Ok response) = true ->
  smtp w 5%nat (debug_delivery w (address (issued (json response))) 5) = Ok tt ->
  res (main w 0%nat) = Ok tt
  /\ outside (trace (main w 0%nat)) =
     (map EHttp (map health_request services)
      ++ [EHttp generate_request;
          ESmtp (debug_delivery w (address (issued (json response))) 5)]
      ++ repeat (ESleep 1) 10
      ++ [EHttp (mail_request (mailboxId (issued (json response)))
                   (token (issued (json response))))])%list.
Proof.
  intros Hh Hp Hs.
  destruct (check_services_run 0%nat) as (t1 & H1 & _ & _ & _ & Ho1).
  destruct (create_mailbox_provisioned 4 response Hh Hp) as (t2 & H2 & Hl2).
  destruct (send_test_email_run (address (issued (json response))) 5)
    as (t3 & H3 & Hl3).
  rewrite Hs in H3. simpl is_ok in H3.
  destruct (wait_for_processing_run 6) as (t4 & H4 & Ho4).
  destruct (check_mailbox_emails_run (mailboxId (issued (json response)))
              (token (issued (json response))) 6)
    as (v & len & t5 & H5 & Hl5 & Hlen & _).
  destruct (summary_run (mailboxId (issued (json response))) len 7)
    as (t6 & H6 & Hl6).
  simpl in H1.
  unfold main, bind, print, emit, lift.
  rewrite H1, H2. cbn [res tick trace address mailboxId token].
  rewrite H3. cbn [negb]. rewrite H4, H5, Hlen, H6.
  cbn [res tick trace]. split; [reflexivity|].
  simpl. rewrite !outside_app. simpl. rewrite !outside_app. simpl.
  rewrite !outside_app. simpl. rewrite !outside_app. simpl.
  rewrite ?outside_app. simpl.
  rewrite Ho1, Ho4, (local_outside _ Hl2), (local_outside _ Hl3),
    (local_outside _ Hl5), (local_outside _ Hl6).
  reflexivity.
Qed.

(** C7, as the code has it.  For a health endpoint that answers 200
    with a JSON object, every field that is present is printed with its
    value.  A field that is absent is printed with the default the code
    gives it: "unknown" for the listening port only; [False] for the
    running flag and the health flag; 0 for the connected-client count,
    the subscription count, the mail count and the two broadcast counts.
    [check_backend_status] of test_current_setup.py prints [None] for an
    absent port or running flag.  All this where the section of the
    service is absent from the body (it then counts as empty) or is an
    object.  A section that is present and is not an object ([null], a
    string, a number) yields no field and no default: [check_services]
    prints the service as normal and then the [AttributeError] as a
    connection failure, and [check_backend_status] prints its failure
    line and no line for the mail service. *)
Theorem health_fields_and_defaults (data : list (string * value)) (n : nat) :
  (forall url response info,
     http w n (health_request ("邮件服务", url)) = Ok response ->
     status_code response = 200 ->
     json response = Ok (VDict data) ->
     section_of "mailService" data = Some info ->
     stdout (trace (check_service w ("邮件服务", url) n)) =
     [ [Lit "✅ "; Val (VStr "邮件服务"); Lit ": 正常"];
       [Lit "   - 运行状态: ";
        Val (or_default (VBool false) (lookup "isRunning" info))];
       [Lit "   - 监听端口: ";
        Val (or_default (VStr "unknown") (lookup "port" info))] ])
  /\ (forall url response info,
     http w n (health_request ("WebSocket服务", url)) = Ok response ->
     status_code response = 200 ->
     json response = Ok (VDict data) ->
     section_of "websocket" data = Some info ->
     stdout (trace (check_service w ("WebSocket服务", url) n)) =
     [ [Lit "✅ "; Val (VStr "WebSocket服务"); Lit ": 正常"];
       [Lit "   - 连接数: ";
        Val (or_default (VInt 0) (lookup "connectedClients" info))];
       [Lit "   - 订阅数: ";
        Val (or_default (VInt 0) (lookup "totalSubscriptions" info))] ])
  /\ (forall url response info,
     http w n (health_request ("集成服务", url)) = Ok response ->
     status_code response = 200 ->
     json response = Ok (VDict data) ->
     section_of "integration" data = Some info ->
     stdout (trace (check_service w ("集成服务", url) n)) =
     [ [Lit "✅ "; Val (VStr "集成服务"); Lit ": 正常"];
       [Lit "   - 健康状态: ";
        Val (or_default (VBool false) (lookup "isHealthy" info))];
       [Lit "   - 处理邮件数: ";
        Val (or_default (VInt 0) (lookup "totalMails" info))];
       [Lit "   - 成功推送数: ";
        Val (or_default (VInt 0) (lookup "successfulBroadcasts" info))];
       [Lit "   - 失败推送数: ";
        Val (or_default (VInt 0) (lookup "failedBroadcasts" info))] ])
  /\ (forall first response info,
     http w n {| meth := GET; url := [Lit "http://localhost:3001/health"];
                 headers := []; timeout := None |} = Ok first ->
     http w (S n) mail_health_request = Ok response ->
     status_code response = 200 ->
     json response = Ok (VDict data) ->
     section_of "mailService" data = Some info ->
     In [Lit "✅ 邮件服务: 端口 "; Val (or_default VNone (lookup "port" info));
         Lit ", 运行状态 ";
         Val (or_default VNone (lookup "isRunning" info))]
        (stdout (trace (CurrentSetup.check_backend_status w n))))
  /\ (forall name key url response,
     In (name, key) [("邮件服务", "mailService"); ("WebSocket服务", "websocket");
                     ("集成服务", "integration")] ->
     http w n (health_request (name, url)) = Ok response ->
     status_code response = 200 ->
     json response = Ok (VDict data) ->
     section_of key data = None ->
     stdout (trace (check_service w (name, url) n)) =
     [ [Lit "✅ "; Val (VStr name); Lit ": 正常"];
       [Lit "❌ "; Val (VStr name); Lit ": 连接失败 - "; Err AttributeError] ])
  /\ (forall first response,
     http w n {| meth := GET; url := [Lit "http://localhost:3001/health"];
                 headers := []; timeout := None |} = Ok first ->
     http w (S n) mail_health_request = Ok response ->
     status_code response = 200 ->
     json response = Ok (VDict data) ->
     section_of "mailService" data = None ->
     In [Lit "❌ 后端状态检查失败: "; Err AttributeError]
        (stdout (trace (CurrentSetup.check_backend_status w n)))
     /\ forallb (fun line => negb (headed "✅ 邮件服务: 端口 " line))
          (stdout (trace (CurrentSetup.check_backend_status w n))) = true).
Proof.
  unfold section_of, check_service, health_request, show_service,
    CurrentSetup.check_backend_status, mail_health_request, try, bind,
    http_call, lift, print, emit, py_get, or_default.
  repeat match goal with |- _ /\ _ => split end; intros.
  - simpl snd in *. rewrite H, H0, H1. simpl.
    destruct (lookup "mailService" data) as [[]|];
      inversion H2; subst; reflexivity.
  - simpl snd in *. rewrite H, H0, H1. simpl.
    destruct (lookup "websocket" data) as [[]|];
      inversion H2; subst; reflexivity.
  - simpl snd in *. rewrite H, H0, H1. simpl.
    destruct (lookup "integration" data) as [[]|];
      inversion H2; subst; reflexivity.
  - rewrite H. destruct (status_code first =? 200); cbn iota beta;
      rewrite H0, H1; simpl; rewrite H2;
      destruct (lookup "mailService" data) as [[]|];
      inversion H3; subst; simpl; auto.
  - simpl snd in *. rewrite H0, H1, H2.
    destruct H as [H|[H|[H|[]]]]; inversion H; subst; simpl;
      match goal with
      | |- context [lookup ?k data] => destruct (lookup k data) as [[]|]
      end; try discriminate H3; reflexivity.
  - rewrite H. destruct (status_code first =? 200); cbn iota beta;
      rewrite H0, H1; simpl; rewrite H2;
      destruct (lookup "mailService" data) as [[]|];
      try discriminate H3; simpl; auto 10.
Qed.

End Debug.

(** C4 at a legacy body.  The service answers the retrieval request with
    status 200 and the bare array [[one_mail]].  The list is not used as
    the message list: taking [.get] of a list raises [AttributeError], the
    handler of [check_mailbox_emails] prints it and the function returns
    the empty list. *)
Theorem legacy_list_body_is_dropped :
  SimpleDebug.check_mailbox_emails (serving 200 (Ok (VList [one_mail])))
    (VStr "65f0c0ffee0123456789abcd") (VStr "secret") 0%nat =
  Run (Ok (VList [])) 1%nat
      [EHttp (SimpleDebug.mail_request (VStr "65f0c0ffee0123456789abcd")
                (VStr "secret"));
       EOut [Lit "❌ 检查邮件异常: "; Err AttributeError];
       ETraceback AttributeError].
Proof. reflexivity. Qed.

(** C10, as stated, fails where [data] is not a list.  The service
    answers with status 200 and a wrapped envelope whose [data] is the
    string "ab": [check_mailbox_emails] returns that string, which is not
    a list. *)
Lemma retrieval_returns_non_list :
  res (SimpleDebug.check_mailbox_emails
         (serving 200 (Ok (VDict [("success", VBool true); ("data", VStr "ab")])))
         (VStr "65f0c0ffee0123456789abcd") (VStr "secret") 0%nat) =
    Ok (VStr "ab")
  /\ isinstance_list (VStr "ab") = false
  /\ ~ exists l,
        res (SimpleDebug.check_mailbox_emails
               (serving 200
                  (Ok (VDict [("success", VBool true); ("data", VStr "ab")])))
               (VStr "65f0c0ffee0123456789abcd") (VStr "secret") 0%nat) =
        Ok (VList l).
Proof.
  repeat split. intros [l H]. vm_compute in H. discriminate H.
Qed.

(** The one message of [ready] is what the check returns. *)
Lemma check_mailbox_emails_total_witness :
  res (SimpleDebug.check_mailbox_emails ready (VStr "65f0c0ffee0123456789abcd")
         (VStr "secret") 0%nat) = Ok (VList [one_mail]).
Proof.
  apply (proj1 (proj2 (check_mailbox_emails_total ready
                         (VStr "65f0c0ffee0123456789abcd") (VStr "secret")
                         0%nat))
           {| status_code := 200; text := "...";
              json := Ok (wrapped [one_mail]) |}
           [("success", VBool true); ("data", VList [one_mail])]
           (VBool true) (VList [one_mail]) 1);
    reflexivity.
Defined.

Lemma provision_failure_is_fatal_witness :
  res (SimpleDebug.create_mailbox (answering 500 (Ok (VDict []))) 4%nat) = Ok None
  /\ res (SimpleDebug.main (answering 500 (Ok (VDict []))) 0%nat) = Ok tt
  /\ requests (trace (SimpleDebug.main (answering 500 (Ok (VDict []))) 0%nat)) =
     (map health_request SimpleDebug.services ++ [SimpleDebug.generate_request])%list
  /\ sessions (trace (SimpleDebug.main (answering 500 (Ok (VDict []))) 0%nat)) = []
  /\ sleeps (trace (SimpleDebug.main (answering 500 (Ok (VDict []))) 0%nat)) = []
  /\ exists lines,
       stdout (trace (SimpleDebug.main (answering 500 (Ok (VDict []))) 0%nat)) =
       (lines ++ [SimpleDebug.terminated])%list.
Proof.
  apply (provision_failure_is_fatal (answering 500 (Ok (VDict [])))).
  reflexivity.
Defined.

Lemma verifier_waits_then_retrieves_once_witness :
  res (SimpleDebug.main ready 0%nat) = Ok tt
  /\ outside (trace (SimpleDebug.main ready 0%nat)) =
     (map EHttp (map health_request SimpleDebug.services)
      ++ [EHttp SimpleDebug.generate_request;
          ESmtp (debug_delivery ready (VStr "box@nnu.edu.kg") 5)]
      ++ repeat (ESleep 1) 10
      ++ [EHttp (SimpleDebug.mail_request (VStr "65f0c0ffee0123456789abcd")
                   (VStr "secret"))])%list.
Proof.
  apply (verifier_waits_then_retrieves_once ready ready_response); reflexivity.
Defined.

(** C2, as stated, fails: the verifier does not poll.  In the run
    [ready] the message can be retrieved from the start (every retrieval
    call, at any call count, is answered with it), yet [main] sleeps the
    full ten seconds before it asks, and it asks once. *)
Lemma verifier_sleeps_full_budget :
  (forall n,
     http ready n (SimpleDebug.mail_request (VStr "65f0c0ffee0123456789abcd")
                     (VStr "secret")) =
     Ok {| status_code := 200; text := "..."; json := Ok (wrapped [one_mail]) |})
  /\ sleeps (trace (SimpleDebug.main ready 0%nat)) = repeat 1 10
  /\ filter is_retrieval (requests (trace (SimpleDebug.main ready 0%nat))) =
     [SimpleDebug.mail_request (VStr "65f0c0ffee0123456789abcd") (VStr "secret")]
  /\ ~ (List.length (sleeps (trace (SimpleDebug.main ready 0%nat))) < 10)%nat.
Proof.
  split; [intro n; reflexivity|].
  split; [vm_compute; reflexivity|].
  split; [vm_compute; reflexivity|].
  vm_compute. intros H. repeat apply le_S_n in H. inversion H.
Qed.

Lemma health_fields_and_defaults_witness :
  stdout (trace (SimpleDebug.check_service mail_on_2525
                   ("邮件服务", "http://localhost:3001/api/../health/mail")
                   1%nat)) =
  [ [Lit "✅ "; Val (VStr "邮件服务"); Lit ": 正常"];
    [Lit "   - 运行状态: "; Val (VBool false)];
    [Lit "   - 监听端口: "; Val (VInt 2525)] ]
  /\ stdout (trace (SimpleDebug.check_service null_sections
                      ("邮件服务", "http://localhost:3001/api/../health/mail")
                      1%nat)) =
     [ [Lit "✅ "; Val (VStr "邮件服务"); Lit ": 正常"];
       [Lit "❌ "; Val (VStr "邮件服务"); Lit ": 连接失败 - ";
        Err AttributeError] ].
Proof.
  split.
  - apply (proj1 (health_fields_and_defaults mail_on_2525
                    [("mailService", VDict [("port", VInt 2525)])] 1%nat)
             "http://localhost:3001/api/../health/mail"
             {| status_code := 200; text := "...";
                json := Ok (VDict [("mailService", VDict [("port", VInt 2525)])]) |}
             [("port", VInt 2525)]);
      reflexivity.
  - destruct (health_fields_and_defaults null_sections
                [("mailService", VNone); ("websocket", VNone);
                 ("integration", VNone)] 1%nat)
      as (_ & _ & _ & _ & Hnull & _).
    apply (Hnull "邮件服务" "mailService"
             "http://localhost:3001/api/../health/mail"
             {| status_code := 200; text := "...";
                json := Ok (VDict [("mailService", VNone); ("websocket", VNone);
                                   ("integration", VNone)]) |});
      [left; reflexivity | reflexivity | reflexivity | reflexivity | reflexivity].
Defined.

(** C7, as stated, fails: most absent fields are given a concrete
    default, not an "unknown" sentinel.  Every health endpoint of [calm]
    answers 200 with the empty object, and [check_services] prints a
    running flag [False], a client count 0, a subscription count 0 and
    broadcast counts 0; only the port is printed as "unknown". *)
Lemma absent_counters_print_as_zero :
  stdout (trace (SimpleDebug.check_services calm 0%nat)) =
  [ [Lit "🔍 检查服务状态..."];
    [Lit "✅ "; Val (VStr "后端服务"); Lit ": 正常"];
    [Lit "✅ "; Val (VStr "邮件服务"); Lit ": 正常"];
    [Lit "   - 运行状态: "; Val (VBool false)];
    [Lit "   - 监听端口: "; Val (VStr "unknown")];
    [Lit "✅ "; Val (VStr "WebSocket服务"); Lit ": 正常"];
    [Lit "   - 连接数: "; Val (VInt 0)];
    [Lit "   - 订阅数: "; Val (VInt 0)];
    [Lit "✅ "; Val (VStr "集成服务"); Lit ": 正常"];
    [Lit "   - 健康状态: "; Val (VBool false)];
    [Lit "   - 处理邮件数: "; Val (VInt 0)];
    [Lit "   - 成功推送数: "; Val (VInt 0)];
    [Lit "   - 失败推送数: "; Val (VInt 0)];
    [Lit (str_repeat "-" 50)] ]
  /\ VInt 0 <> VStr "unknown"
  /\ VBool false <> VStr "unknown".
Proof. repeat split; try reflexivity; discriminate. Qed.

(** ** The identifier format: scripts/ws/test_websocket_validation.py *)

Example object_id_matches :
  WsValidation.mongo_id_pattern "65f0c0ffee0123456789abcd" = true.
Proof. reflexivity. Qed.

Example short_id_does_not_match :
  WsValidation.mongo_id_pattern "6d40f1571izg" = false.
Proof. reflexivity. Qed.

Example trailing_newline_matches :
  WsValidation.mongo_id_pattern ("65F0C0FFEE0123456789ABCD" ++ nl) = true.
Proof. reflexivity. Qed.

Lemma append_empty_r (s : string) : s ++ "" = s.
Proof. induction s as [|c s IH]; simpl; [|rewrite IH]; reflexivity. Qed.

(** [hex_run n] takes exactly [n] hexadecimal digits off the front. *)
Lemma hex_run_spec (n : nat) : forall s rest,
  WsValidation.hex_run n s = Some rest <->
  exists h, s = h ++ rest /\ String.length h = n /\ all_hex h = true.
Proof.
  induction n as [|n IH]; intros s rest; simpl.
  - split.
    + intros H. inversion H. exists "". auto.
    + intros (h & -> & Hl & _). destruct h; [reflexivity | discriminate Hl].
  - destruct s as [|c s].
    + split; [discriminate|].
      intros (h & Hs & Hl & _). destruct h; discriminate.
    + destruct (WsValidation.is_hex c) eqn:Hc.
      * rewrite IH. split.
        -- intros (h & -> & Hl & Hh). exists (String c h). simpl.
           rewrite Hc, Hh, Hl. auto.
        -- intros (h & Hs & Hl & Hh). destruct h as [|c' h]; [discriminate Hl|].
           simpl in *. inversion Hs; subst. rewrite Hc in Hh. simpl in Hh.
           exists h. auto.
      * split; [discriminate|].
        intros (h & Hs & Hl & Hh). destruct h as [|c' h]; [discriminate Hl|].
        simpl in *. inversion Hs; subst. rewrite Hc in Hh. discriminate Hh.
Qed.




Section Format.
Import WsValidation.
Variable w : world.




End Format.



(** ** Exit status *)

Lemma returns_exit {A} (m : M A) (n : nat) : returns m -> exit_code (m n) = 0.
Proof. intros H. unfold exit_code. destruct (H n) as [a ->]. reflexivity. Qed.

Lemma returns_for_fold {A S} (l : list A) (body : S -> A -> M S) :
  (forall s x, returns (body s x)) -> forall s, returns (for_fold l s body).
Proof.
  intros H. induction l as [|x l IH]; intros s; simpl.
  - apply returns_ret.
  - apply returns_bind; [apply H | intro; apply IH].
Qed.

Lemma returns_for_each {A} (l : list A) (body : A -> M unit) :
  (forall x, returns (body x)) -> returns (for_each l body).
Proof. intros H. apply returns_for_fold. intros _ x. apply H. Qed.

Lemma returns_sleep (secs : Z) : returns (sleep secs).
Proof. intros n. exists tt. reflexivity. Qed.

Section ExitStatus.
Variable w : world.

Lemma returns_now : returns (now w).
Proof. intros n. eexists. reflexivity. Qed.

Lemma returns_timestamp : returns (timestamp w).
Proof. intros n. eexists. reflexivity. Qed.

Ltac returns_tac :=
  repeat first
    [ apply returns_ret | apply returns_print | apply returns_sleep
    | apply returns_now | apply returns_timestamp
    | apply returns_try; intro
    | apply returns_bind; [|intro]
    | apply returns_for_each; intro
    | apply returns_if
    | match goal with
      | |- returns (match ?x with _ => _ end) => destruct x
      | |- returns (let _ := _ in _) => cbv zeta
      end
    | assumption ].

Lemma returns_send_test_mail : returns (SendTestMail.main w).
Proof. unfold SendTestMail.main, SendTestMail.send_test_email. returns_tac. Qed.

Lemma returns_external_email : returns (ExternalEmail.main w).
Proof.
  unfold ExternalEmail.main, ExternalEmail.send_external_email. returns_tac.
Qed.

Lemma returns_current_setup : returns (CurrentSetup.main w).
Proof.
  unfold CurrentSetup.main, CurrentSetup.check_backend_status,
    CurrentSetup.test_with_127_domain, CurrentSetup.test_with_nnu_domain,
    CurrentSetup.test_with_domain.
  returns_tac.
Qed.

Lemma create_mailbox_run (n : nat) :
  exists o t,
    SimpleDebug.create_mailbox w n =
      Run (Ok o) (S n) (EHttp SimpleDebug.generate_request :: t)
    /\ forallb is_local t = true.
Proof.
  destruct (provisioned (http w n SimpleDebug.generate_request)) eqn:Hp.
  - destruct (http w n SimpleDebug.generate_request) as [response|e] eqn:Hh;
      [|discriminate Hp].
    destruct (create_mailbox_provisioned w n response Hh Hp) as (t & H & Hl).
    eauto.
  - destruct (create_mailbox_failed w n Hp) as (t & H & Hl). eauto.
Qed.

Lemma simple_debug_returns (n : nat) : res (SimpleDebug.main w n) = Ok tt.
Proof.
  destruct (check_services_run w n) as (t1 & H1 & _).
  destruct (create_mailbox_run (n + 4)) as (o & t2 & H2 & _).
  unfold SimpleDebug.main, bind, print, emit, lift. rewrite H1, H2.
  destruct o as [mb|]; [|reflexivity]. cbn iota beta.
  destruct (send_test_email_run w (SimpleDebug.address mb) (S (n + 4)))
    as (t3 & H3 & _).
  rewrite H3.
  destruct (is_ok (smtp w (S (n + 4)) _)); [|reflexivity]. cbn [negb].
  destruct (wait_for_processing_run (S (S (n + 4)))) as (t4 & H4 & _).
  destruct (check_mailbox_emails_run w (SimpleDebug.mailboxId mb)
              (SimpleDebug.token mb) (S (S (n + 4))))
    as (v & len & t5 & H5 & _ & Hlen & _).
  destruct (summary_run (SimpleDebug.mailboxId mb) len (S (S (S (n + 4)))))
    as (t6 & H6 & _).
  rewrite H4, H5, Hlen, H6. reflexivity.
Qed.

Lemma returns_input (prompt : string) :
  prompt_answered w -> returns (py_input w prompt).
Proof. intros H n. unfold py_input. simpl. apply H. Qed.

Lemma returns_manual : prompt_answered w -> returns (ManualWebsocket.main w).
Proof.
  intros H. unfold ManualWebsocket.main, ManualWebsocket.send_nth.
  repeat first [ apply returns_input; assumption | progress returns_tac ].
Qed.

Lemma returns_frontend : prompt_answered w -> returns (FrontendWebsocket.main w).
Proof.
  intros H.
  unfold FrontendWebsocket.main, FrontendWebsocket.provision,
    FrontendWebsocket.send_nth, FrontendWebsocket.check_integration.
  repeat first [ apply returns_input; assumption | progress returns_tac ].
Qed.

(** A token that could be cut to 20 characters can be cut to 30. *)
Lemma format_token_sliceable (n : nat) (m : WsValidation.mailbox_info) :
  res (WsValidation.test_mailbox_id_format w n) = Ok (Some m) ->
  exists v, py_slice_to (WsValidation.token m) 30 = Ok v.
Proof.
  unfold WsValidation.test_mailbox_id_format, try, bind, http_call, lift,
    print, emit, ret, py_get, py_item, py_len, py_slice_to,
    WsValidation.re_match_mongo_id.
  break_match; intros H; try discriminate H;
    repeat match goal with
           | E : Run _ _ _ = Run _ _ _ |- _ => inversion E; subst; clear E
           end;
    try discriminate;
    simpl in *;
    repeat match goal with
           | E : Ok _ = Ok _ |- _ => inversion E; subst; clear E
           end;
    try discriminate; simpl; eauto.
Qed.

Lemma validation_returns :
  page_writable w -> res (WsValidation.main w 0%nat) = Ok tt.
Proof.
  intros Hw.
  assert (Hr : returns (WsValidation.test_mailbox_id_format w)).
  { unfold WsValidation.test_mailbox_id_format. returns_tac. }
  unfold WsValidation.main, bind, print, emit.
  destruct (Hr 0%nat) as [o Ho].
  pose proof (format_token_sliceable 0) as Hs.
  destruct (WsValidation.test_mailbox_id_format w 0%nat) as [r k t].
  simpl in Ho. subst r. destruct o as [m|]; [|reflexivity].
  destruct (Hs m eq_refl) as [v Hv].
  unfold WsValidation.create_websocket_test_html, bind, lift, py_write,
    print, emit.
  rewrite Hv, Hw. reflexivity.
Qed.

End ExitStatus.

(** ** Failures are printed *)

Lemma calls_app (t1 t2 : list event) :
  calls (t1 ++ t2) = (calls t1 + calls t2)%nat.
Proof. unfold calls. rewrite filter_app, length_app. reflexivity. Qed.

Lemma shown_app_l (t1 t2 : list event) (x : exn) :
  shown t1 x -> shown (t1 ++ t2) x.
Proof. intros (line & H & Hx). exists line. split; [apply in_or_app; auto | auto]. Qed.

Lemma shown_app_r (t1 t2 : list event) (x : exn) :
  shown t2 x -> shown (t1 ++ t2) x.
Proof. intros (line & H & Hx). exists line. split; [apply in_or_app; auto | auto]. Qed.

(** Where an event of [t1 ++ t2] lies. *)
Lemma split_event (t1 t2 pre post : list event) (e : event) :
  (t1 ++ t2 = pre ++ e :: post)%list ->
  (exists post1, t1 = pre ++ e :: post1 /\ post = post1 ++ t2)%list
  \/ (exists pre2, pre = t1 ++ pre2 /\ t2 = pre2 ++ e :: post)%list.
Proof.
  revert pre. induction t1 as [|a t1 IH]; intros pre H; simpl in H.
  - right. exists pre. auto.
  - destruct pre as [|b pre]; simpl in H; inversion H; subst.
    + left. exists t1. auto.
    + destruct (IH pre H2) as [(post1 & -> & ->) | (pre2 & -> & ->)].
      * left. exists post1. auto.
      * right. exists pre2. auto.
Qed.

Section Reporting.
Variable w : world.

Lemma tidy_local {A} (m : M A) : quiet m -> tidy w m.
Proof.
  intros Hq n. destruct (Hq n) as [Ht Hl]. split.
  - rewrite Ht. unfold calls.
    assert (H : filter is_call (trace (m n)) = []).
    { clear Ht. induction (trace (m n)) as [|e t IH]; [reflexivity|].
      simpl in Hl. apply andb_prop in Hl as [He Hl].
      simpl. destruct e; try discriminate He; simpl; auto. }
    rewrite H. simpl. lia.
  - intros pre e post x Heq Hf. exfalso.
    rewrite Heq, forallb_app in Hl. apply andb_prop in Hl as [_ Hl].
    simpl in Hl. apply andb_prop in Hl as [He _].
    destruct e; try discriminate He; discriminate Hf.
Qed.

Lemma tidy_bind {A B} (m : M A) (f : A -> M B) :
  tidy w m -> (forall a, tidy w (f a)) -> tidy w (bind m f).
Proof.
  intros Hm Hf n. destruct (Hm n) as [Ht Ha]. unfold bind, accounted.
  destruct (m n) as [[a|x0] n1 t1]; cbn [res tick trace] in *.
  2: { split; [assumption|]. intros pre e post x Heq Hfail.
       destruct (Ha pre e post x Heq Hfail) as [Hs | [Hp Hr]];
         [left; exact Hs | right; inversion Hr; auto]. }
  destruct (Hf a n1) as [Ht' Ha']. destruct (f a n1) as [r n2 t2];
    cbn [res tick trace] in *.
  split; [rewrite calls_app; lia|].
  intros pre e post x Heq Hfail.
  destruct (split_event _ _ _ _ _ Heq) as [(post1 & -> & ->) | (pre2 & -> & ->)].
  - destruct (Ha pre e post1 x eq_refl Hfail) as [Hs | [_ Hr]];
      [left; apply shown_app_l; exact Hs | discriminate Hr].
  - apply (Ha' pre2 e post x eq_refl).
    rewrite calls_app, Nat.add_assoc, <- Ht in Hfail. exact Hfail.
Qed.

Lemma tidy_try {A} (m : M A) (h : exn -> M A) :
  tidy w m -> (forall x, tidy w (h x)) -> announces h -> tidy w (try m h).
Proof.
  intros Hm Hh Han n. destruct (Hm n) as [Ht Ha]. unfold try, accounted.
  destruct (m n) as [[a|x0] n1 t1]; cbn [res tick trace] in *;
    [split; assumption|].
  destruct (Hh x0 n1) as [Ht' Ha']. pose proof (Han x0 n1) as Hs0.
  destruct (h x0 n1) as [r n2 t2]; cbn [res tick trace] in *.
  split; [rewrite calls_app; lia|].
  intros pre e post x Heq Hfail.
  destruct (split_event _ _ _ _ _ Heq) as [(post1 & -> & ->) | (pre2 & -> & ->)].
  - destruct (Ha pre e post1 x eq_refl Hfail) as [Hs | [-> Hr]].
    + left. apply shown_app_l. exact Hs.
    + inversion Hr; subst. left. exact Hs0.
  - apply (Ha' pre2 e post x eq_refl).
    rewrite calls_app, Nat.add_assoc, <- Ht in Hfail. exact Hfail.
Qed.

Lemma tidy_if {A} (b : bool) (m1 m2 : M A) :
  tidy w m1 -> tidy w m2 -> tidy w (if b then m1 else m2).
Proof. destruct b; auto. Qed.

Lemma tidy_for_fold {A S} (l : list A) (body : S -> A -> M S) :
  (forall s x, tidy w (body s x)) -> forall s, tidy w (for_fold l s body).
Proof.
  intros H. induction l as [|x l IH]; intros s; simpl.
  - apply tidy_local, quiet_ret.
  - apply tidy_bind; [apply H | intro; apply IH].
Qed.

Lemma tidy_for_each {A} (l : list A) (body : A -> M unit) :
  (forall x, tidy w (body x)) -> tidy w (for_each l body).
Proof. intros H. apply tidy_for_fold. intros _ x. apply H. Qed.

(** One outside call. *)
Lemma tidy_call {A} (e : event) (answer : nat -> result A) :
  is_call e = true ->
  (forall n x, failure w n e = Some x -> answer n = Raise x) ->
  tidy w (fun n => Run (answer n) (S n) [e]).
Proof.
  intros Hc Hf n. split; simpl.
  - unfold calls. simpl. rewrite Hc. simpl. lia.
  - intros pre e' post x Heq Hfail.
    destruct pre as [|a pre]; simpl in Heq; inversion Heq; subst.
    + right. split; [reflexivity|]. apply Hf.
      rewrite Nat.add_0_r in Hfail. exact Hfail.
    + destruct pre; discriminate.
Qed.

Lemma tidy_http (r : request) : tidy w (http_call w r).
Proof.
  apply (tidy_call (EHttp r)); [reflexivity|]. simpl. intros n x.
  destruct (http w n r); congruence.
Qed.

Lemma tidy_smtp (d : delivery) : tidy w (smtp_session w d).
Proof.
  apply (tidy_call (ESmtp d)); [reflexivity|]. simpl. intros n x.
  destruct (smtp w n d); congruence.
Qed.

Lemma tidy_connect (h : string) (p : Z) : tidy w (connect w h p).
Proof.
  apply (tidy_call (EConnect h p)); [reflexivity|]. simpl. intros n x.
  destruct (smtp_connect w n h p); congruence.
Qed.

Lemma tidy_sendmail (d : delivery) : tidy w (sendmail w d).
Proof.
  apply (tidy_call (ESendmail d)); [reflexivity|]. simpl. intros n x.
  destruct (smtp_sendmail w n d); congruence.
Qed.

Lemma tidy_quit : tidy w (quit w).
Proof.
  apply (tidy_call EQuit); [reflexivity|]. simpl. intros n x.
  destruct (smtp_quit w n); congruence.
Qed.

Lemma tidy_input (prompt : string) : tidy w (py_input w prompt).
Proof.
  apply (tidy_call (EInput prompt)); [reflexivity|]. simpl. intros n x.
  destruct (input w n prompt); congruence.
Qed.

Lemma tidy_write (path : string) (text : fstr) : tidy w (py_write w path text).
Proof.
  apply (tidy_call (EFile path text)); [reflexivity|]. simpl. intros n x.
  destruct (write_file w n path text); congruence.
Qed.

Lemma tidy_sleep (secs : Z) : tidy w (sleep secs).
Proof.
  intros n. split; [unfold calls; simpl; lia|].
  intros pre e post x Heq Hf. simpl in Heq.
  destruct pre as [|a pre]; inversion Heq; subst; [discriminate Hf|].
  destruct pre; discriminate.
Qed.

Lemma quiet_now : quiet (now w).
Proof. intros n. split; reflexivity. Qed.

Lemma quiet_timestamp : quiet (timestamp w).
Proof. intros n. split; reflexivity. Qed.

Ltac announce_tac :=
  intros ? ?; unfold shown, bind, print, emit;
  repeat match goal with
         | |- context [if ?b then _ else _] => destruct b
         end;
  eexists; (split; [simpl; left; reflexivity | simpl; auto 10]).

Ltac tidy_tac :=
  repeat first
    [ apply tidy_http | apply tidy_smtp | apply tidy_connect
    | apply tidy_sendmail | apply tidy_quit | apply tidy_input
    | apply tidy_write | apply tidy_sleep
    | apply tidy_local;
      solve [ apply quiet_show_emails | apply quiet_show_service
            | apply quiet_now | apply quiet_timestamp | auto with quiet ]
    | apply tidy_try; [ | intro | announce_tac ]
    | apply tidy_bind; [|intro]
    | apply tidy_for_each; intro
    | apply tidy_for_fold; intros
    | apply tidy_if
    | match goal with
      | |- tidy _ (match ?x with _ => _ end) => destruct x
      | |- tidy _ (let _ := _ in _) => cbv zeta
      end ].

Lemma heedful_tidy {A} (m : M A) : tidy w m -> heedful w m.
Proof.
  intros H n. destruct (H n) as [Ht Ha]. split; [exact Ht|].
  intros pre e post x Heq Hfail.
  destruct (Ha pre e post x Heq Hfail) as [Hs | [_ Hr]]; eauto.
Qed.

Lemma heedful_bind {A B} (m : M A) (f : A -> M B) :
  heedful w m -> (forall a, heedful w (f a)) -> heedful w (bind m f).
Proof.
  intros Hm Hf n. destruct (Hm n) as [Ht Ha]. unfold bind, noticed.
  destruct (m n) as [[a|x0] n1 t1]; cbn [res tick trace] in *.
  2: { split; [assumption|]. intros pre e post x Heq Hfail. eauto. }
  destruct (Hf a n1) as [Ht' Ha']. destruct (f a n1) as [r n2 t2];
    cbn [res tick trace] in *.
  split; [rewrite calls_app; lia|].
  intros pre e post x Heq Hfail.
  destruct (split_event _ _ _ _ _ Heq) as [(post1 & -> & ->) | (pre2 & -> & ->)].
  - destruct (Ha pre e post1 x eq_refl Hfail) as [[x' Hs] | [x' Hr]];
      [left; exists x'; apply shown_app_l; exact Hs | discriminate Hr].
  - apply (Ha' pre2 e post x eq_refl).
    rewrite calls_app, Nat.add_assoc, <- Ht in Hfail. exact Hfail.
Qed.

Lemma heedful_try {A} (m : M A) (h : exn -> M A) :
  heedful w m -> (forall x, heedful w (h x)) -> announces h ->
  heedful w (try m h).
Proof.
  intros Hm Hh Han n. destruct (Hm n) as [Ht Ha]. unfold try, noticed.
  destruct (m n) as [[a|x0] n1 t1]; cbn [res tick trace] in *;
    [split; assumption|].
  destruct (Hh x0 n1) as [Ht' Ha']. pose proof (Han x0 n1) as Hs0.
  destruct (h x0 n1) as [r n2 t2]; cbn [res tick trace] in *.
  split; [rewrite calls_app; lia|].
  intros pre e post x Heq Hfail.
  destruct (split_event _ _ _ _ _ Heq) as [(post1 & -> & ->) | (pre2 & -> & ->)].
  - left. destruct (Ha pre e post1 x eq_refl Hfail) as [[x' Hs] | _].
    + exists x'. apply shown_app_l. exact Hs.
    + exists x0. apply shown_app_r. exact Hs0.
  - apply (Ha' pre2 e post x eq_refl).
    rewrite calls_app, Nat.add_assoc, <- Ht in Hfail. exact Hfail.
Qed.

Lemma heedful_finally {A} (m : M A) (c : M unit) :
  heedful w m -> heedful w c -> heedful w (finally m c).
Proof.
  intros Hm Hc n. destruct (Hm n) as [Ht Ha]. unfold finally, noticed.
  destruct (m n) as [r n1 t1]; cbn [res tick trace] in *.
  destruct (Hc n1) as [Ht' Ha'].
  destruct (c n1) as [[[]|x1] n2 t2]; cbn [res tick trace] in *;
    (split; [rewrite calls_app; lia|]);
    intros pre e post x Heq Hfail;
    destruct (split_event _ _ _ _ _ Heq)
      as [(post1 & -> & ->) | (pre2 & -> & ->)].
  - destruct (Ha pre e post1 x eq_refl Hfail) as [[x' Hs] | Hr];
      [left; exists x'; apply shown_app_l; exact Hs | right; exact Hr].
  - destruct (Ha' pre2 e post x eq_refl) as [Hs | [x' Hr]];
      [rewrite calls_app, Nat.add_assoc, <- Ht in Hfail; exact Hfail
      | left; exact Hs | discriminate Hr].
  - destruct (Ha pre e post1 x eq_refl Hfail) as [[x' Hs] | _];
      [left; exists x'; apply shown_app_l; exact Hs | right; eauto].
  - right. eauto.
Qed.

Lemma heedful_with_session (d : delivery) (connected sent : list fstr) :
  heedful w (with_session w d connected sent).
Proof.
  unfold with_session.
  apply heedful_bind; [apply heedful_tidy, tidy_connect | intros _].
  apply heedful_finally; [|apply heedful_tidy, tidy_quit].
  apply heedful_tidy. tidy_tac.
Qed.

Lemma heedful_send_test_mail : heedful w (SendTestMail.main w).
Proof.
  unfold SendTestMail.main, SendTestMail.send_test_email.
  apply heedful_try; [| intro; apply heedful_tidy; tidy_tac | announce_tac].
  apply heedful_bind; [apply heedful_tidy; tidy_tac | intros _].
  apply heedful_with_session.
Qed.

Lemma heedful_external_email : heedful w (ExternalEmail.main w).
Proof.
  unfold ExternalEmail.main, ExternalEmail.send_external_email.
  apply heedful_try; [| intro; apply heedful_tidy; tidy_tac | announce_tac].
  apply heedful_bind; [apply heedful_tidy; tidy_tac | intros _].
  apply heedful_with_session.
Qed.

Lemma tidy_send_test_email (a : SendTestEmail.args) :
  tidy w (SendTestEmail.main w a).
Proof.
  unfold SendTestEmail.main, SendTestEmail.iteration,
    SendTestEmail.send_test_email, SendTestEmail.send_html_email.
  tidy_tac.
Qed.

Lemma tidy_simple_debug : tidy w (SimpleDebug.main w).
Proof.
  unfold SimpleDebug.main, SimpleDebug.check_services, SimpleDebug.check_service,
    SimpleDebug.create_mailbox, SimpleDebug.send_test_email,
    SimpleDebug.wait_for_processing, SimpleDebug.check_mailbox_emails,
    SimpleDebug.summary.
  tidy_tac.
Qed.

Lemma tidy_current_setup : tidy w (CurrentSetup.main w).
Proof.
  unfold CurrentSetup.main, CurrentSetup.check_backend_status,
    CurrentSetup.test_with_127_domain, CurrentSetup.test_with_nnu_domain,
    CurrentSetup.test_with_domain.
  tidy_tac.
Qed.

Lemma tidy_validation : tidy w (WsValidation.main w).
Proof.
  unfold WsValidation.main, WsValidation.test_mailbox_id_format,
    WsValidation.create_websocket_test_html.
  tidy_tac.
Qed.

Lemma tidy_manual : tidy w (ManualWebsocket.main w).
Proof. unfold ManualWebsocket.main, ManualWebsocket.send_nth. tidy_tac. Qed.

Lemma tidy_frontend : tidy w (FrontendWebsocket.main w).
Proof.
  unfold FrontendWebsocket.main, FrontendWebsocket.provision,
    FrontendWebsocket.send_nth, FrontendWebsocket.check_integration.
  tidy_tac.
Qed.


End Reporting.


(** * Further properties of the scripts *)

(** ** The identifier pattern *)

(** X1. The identifier check accepts exactly the strings made of 24
    hexadecimal digits, and those strings followed by one newline: [$]
    of [re.match] also matches before a newline that ends the string. *)
Theorem mongo_id_pattern_accepts (s : string) :
  WsValidation.mongo_id_pattern s = true <->
  exists h, String.length h = 24%nat /\ all_hex h = true
            /\ (s = h \/ s = h ++ nl).
Proof.
  unfold WsValidation.mongo_id_pattern. split.
  - destruct (WsValidation.hex_run 24 s) as [rest|] eqn:E; [|discriminate].
    apply hex_run_spec in E as (h & -> & Hl & Hh).
    destruct rest as [|c [|c' rest]]; try discriminate.
    + intros _. exists h. rewrite append_empty_r. auto.
    + intros Hc. apply Ascii.eqb_eq in Hc. subst c. exists h. auto.
  - intros (h & Hl & Hh & [-> | ->]).
    + assert (E : WsValidation.hex_run 24 h = Some "").
      { apply hex_run_spec. exists h. rewrite append_empty_r. auto. }
      rewrite E. reflexivity.
    + assert (E : WsValidation.hex_run 24 (h ++ nl) = Some nl).
      { apply hex_run_spec. exists h. auto. }
      rewrite E. reflexivity.
Qed.

(** ** Provisioning *)

(** [create_mailbox] makes its one call and returns what
    [debug_mailbox] says. *)
Lemma create_mailbox_shape (w : world) (n : nat) :
  exists t,
    SimpleDebug.create_mailbox w n =
      Run (Ok (debug_mailbox (http w n SimpleDebug.generate_request))) (S n)
          (EHttp SimpleDebug.generate_request :: t)
    /\ forallb is_local t = true.
Proof.
  unfold debug_mailbox.
  destruct (provisioned (http w n SimpleDebug.generate_request)) eqn:Hp.
  - destruct (http w n SimpleDebug.generate_request) as [response|e] eqn:Hh;
      [|discriminate Hp].
    destruct (create_mailbox_provisioned w n response Hh Hp) as (t & H & Hl).
    exists t. auto.
  - destruct (create_mailbox_failed w n Hp) as (t & H & Hl). exists t. auto.
Qed.

(** X2. [create_mailbox] of simple_debug.py always returns, and makes
    exactly one outside call, the provisioning request; all the rest is
    terminal output.  It returns a mailbox exactly when the call was
    answered with status 200 or 201 and a JSON object with a true
    [success] and a [data] object that has [address], [id] and [token];
    the mailbox then holds these three fields as they were sent.  In
    every other case (an exception, another status, another body) it
    returns [None]. *)
Theorem create_mailbox_returns (w : world) (n : nat) :
  res (SimpleDebug.create_mailbox w n) =
    Ok (debug_mailbox (http w n SimpleDebug.generate_request))
  /\ outside (trace (SimpleDebug.create_mailbox w n)) =
     [EHttp SimpleDebug.generate_request].
Proof.
  destruct (create_mailbox_shape w n) as (t & H & Hl). rewrite H.
  split; [reflexivity|]. cbn [trace]. unfold outside.
  cbn [filter is_local negb]. fold (outside t).
  rewrite (local_outside _ Hl). reflexivity.
Qed.

Lemma provision_result (w : world) (n : nat) :
  res (FrontendWebsocket.provision w n) =
  Ok (frontend_mailbox (http w n FrontendWebsocket.generate_request)).
Proof.
  unfold frontend_mailbox, provisioned, status_accepted, envelope_ok, has_key,
    body_of, address_of, id_of, token_of, field, sliceable.
  unfold FrontendWebsocket.provision, try, bind, http_call, lift, print, emit,
    ret, py_get, py_in, py_item, py_slice_to, has_key.
  break_match;
    repeat match goal with
           | E : Run _ _ _ = Run _ _ _ |- _ => inversion E; subst; clear E
           | E : Ok _ = Ok _ |- _ => inversion E; subst; clear E
           | E : Some _ = Some _ |- _ => inversion E; subst; clear E
           end;
    try discriminate; simpl in *; try discriminate; try reflexivity.
Qed.

Lemma bind_print {A} (line : fstr) (m : M A) (n : nat) :
  bind (print line) (fun _ => m) n =
  Run (res (m n)) (tick (m n)) (EOut line :: trace (m n)).
Proof. unfold bind, print, emit. destruct (m n). reflexivity. Qed.

Ltac quiet_steps :=
  repeat first
    [ apply quiet_show_emails
    | apply quiet_show_service
    | apply quiet_bind; [|intro]
    | apply quiet_if
    | apply quiet_ret | apply quiet_lift | apply quiet_print
    | apply quiet_traceback
    | match goal with
      | |- quiet (match ?x with _ => _ end) => destruct x
      end ].

(** The provisioning step makes its one call and yields what
    [frontend_mailbox] says. *)
Lemma provision_shape (w : world) (n : nat) :
  exists t,
    FrontendWebsocket.provision w n =
      Run (Ok (frontend_mailbox (http w n FrontendWebsocket.generate_request)))
          (S n)
          (EOut [Lit "📧 创建测试邮箱..."]
           :: EHttp FrontendWebsocket.generate_request :: t)
    /\ forallb is_local t = true.
Proof.
  pose proof (provision_result w n) as Hres.
  unfold FrontendWebsocket.provision in *. rewrite bind_print in *.
  match type of Hres with
  | context [try (bind _ ?k) ?h n] =>
      destruct (try_http w FrontendWebsocket.generate_request k h n)
        as (r & t & Heq & Hl); [intro; quiet_steps | intro; quiet_steps|]
  end.
  rewrite Heq in *. simpl in Hres. subst r. exists t. auto.
Qed.

(** X3. Step 1 of [main] of test_frontend_websocket.py yields a
    mailbox exactly when the provisioning call is accepted as by
    [create_mailbox] and, in addition, the token can be cut by
    [token[:20]]; in every other case [main] returns there.  The step
    makes one outside call, the provisioning request, after the line that
    announces it. *)
Theorem provision_returns (w : world) (n : nat) :
  res (FrontendWebsocket.provision w n) =
    Ok (frontend_mailbox (http w n FrontendWebsocket.generate_request))
  /\ outside (trace (FrontendWebsocket.provision w n)) =
     [EHttp FrontendWebsocket.generate_request]
  /\ hd_error (trace (FrontendWebsocket.provision w n)) =
     Some (EOut [Lit "📧 创建测试邮箱..."]).
Proof.
  destruct (provision_shape w n) as (t & H & Hl). rewrite H.
  split; [reflexivity|]. split; [|reflexivity]. cbn [trace]. unfold outside.
  cbn [filter is_local negb]. fold (outside t).
  rewrite (local_outside _ Hl). reflexivity.
Qed.

Lemma format_result (w : world) (n : nat) :
  res (WsValidation.test_mailbox_id_format w n) =
  Ok (format_mailbox (http w n WsValidation.generate_request)).
Proof.
  unfold format_mailbox, provisioned, status_accepted, envelope_ok, has_key,
    body_of, address_of, id_of, token_of, field, sliceable, is_str.
  unfold WsValidation.test_mailbox_id_format, try, bind, http_call, lift,
    print, emit, ret, py_get, py_item, py_len, py_slice_to,
    WsValidation.re_match_mongo_id.
  break_match;
    repeat match goal with
           | E : Run _ _ _ = Run _ _ _ |- _ => inversion E; subst; clear E
           | E : Ok _ = Ok _ |- _ => inversion E; subst; clear E
           | E : Some _ = Some _ |- _ => inversion E; subst; clear E
           end;
    try discriminate; simpl in *; try discriminate; try reflexivity.
Qed.

(** [test_mailbox_id_format] makes its one call and returns what
    [format_mailbox] says. *)
Lemma test_mailbox_id_format_shape (w : world) (n : nat) :
  exists t,
    WsValidation.test_mailbox_id_format w n =
      Run (Ok (format_mailbox (http w n WsValidation.generate_request))) (S n)
          (EOut [Lit "🧪 测试邮箱ID格式..."]
           :: EHttp WsValidation.generate_request :: t)
    /\ forallb is_local t = true.
Proof.
  pose proof (format_result w n) as Hres.
  unfold WsValidation.test_mailbox_id_format in *. rewrite bind_print in *.
  match type of Hres with
  | context [try (bind _ ?k) ?h n] =>
      destruct (try_http w WsValidation.generate_request k h n)
        as (r & t & Heq & Hl); [intro; quiet_steps | intro; quiet_steps|]
  end.
  rewrite Heq in *. simpl in Hres. subst r. exists t. auto.
Qed.

(** X4. [test_mailbox_id_format] always returns, and makes one
    outside call, the provisioning request.  It returns a mailbox exactly
    when the provisioning call is accepted, the identifier is a string
    (as [len] and [re.match] want) and the token can be cut by
    [token[:20]]; the verdict of the format check has no part in it. *)
Theorem test_mailbox_id_format_returns (w : world) (n : nat) :
  res (WsValidation.test_mailbox_id_format w n) =
    Ok (format_mailbox (http w n WsValidation.generate_request))
  /\ outside (trace (WsValidation.test_mailbox_id_format w n)) =
     [EHttp WsValidation.generate_request].
Proof.
  destruct (test_mailbox_id_format_shape w n) as (t & H & Hl). rewrite H.
  split; [reflexivity|]. cbn [trace]. unfold outside.
  cbn [filter is_local negb]. fold (outside t).
  rewrite (local_outside _ Hl). reflexivity.
Qed.

(** X5. The three scripts that provision a mailbox agree wherever the
    identifier check yields one: when [test_mailbox_id_format] returns a
    mailbox for the answer to the provisioning call, [create_mailbox] of
    simple_debug.py and step 1 of test_frontend_websocket.py, given the
    same answer, return a mailbox with the same address, identifier and
    token. *)
Theorem provisioning_paths_agree (w : world) (n : nat)
    (m : WsValidation.mailbox_info) :
  res (WsValidation.test_mailbox_id_format w n) = Ok (Some m) ->
  res (SimpleDebug.create_mailbox w n) =
    Ok (Some {| SimpleDebug.address := WsValidation.address m;
                SimpleDebug.mailboxId := WsValidation.mailbox_id m;
                SimpleDebug.token := WsValidation.token m |})
  /\ res (FrontendWebsocket.provision w n) =
     Ok (Some (WsValidation.address m, WsValidation.mailbox_id m,
               WsValidation.token m)).
Proof.
  rewrite format_result, provision_result.
  destruct (create_mailbox_shape w n) as (t & -> & _).
  unfold format_mailbox, frontend_mailbox, debug_mailbox.
  change FrontendWebsocket.generate_request with WsValidation.generate_request.
  change SimpleDebug.generate_request with WsValidation.generate_request.
  destruct (provisioned (http w n WsValidation.generate_request)) eqn:Hp;
    [|discriminate].
  destruct (is_str _); [|discriminate].
  destruct (sliceable _); [|discriminate].
  simpl. intros H. inversion H; subst; clear H. simpl.
  unfold issued, address_of, id_of, token_of.
  destruct (body_of (http w n WsValidation.generate_request)); auto.
Qed.

(** ** The debug run *)

Lemma ends_refl {A} (suffix : list A) : exists l, suffix = (l ++ suffix)%list.
Proof. exists []. reflexivity. Qed.

Lemma ends_app {A} (l1 l2 suffix : list A) :
  (exists l, l2 = (l ++ suffix)%list) ->
  exists l, (l1 ++ l2)%list = (l ++ suffix)%list.
Proof. intros [l ->]. exists (l1 ++ l)%list. apply app_assoc. Qed.

Lemma ends_cons {A} (a : A) (l2 suffix : list A) :
  (exists l, l2 = (l ++ suffix)%list) ->
  exists l, a :: l2 = (l ++ suffix)%list.
Proof. intros [l ->]. exists (a :: l). reflexivity. Qed.

Ltac ends_with :=
  repeat first [ apply ends_refl | apply ends_app | apply ends_cons ].

(** X6. When the mailbox was provisioned and the SMTP session of the
    test mail raises, the debug run stops there: the exception is
    printed, then the termination line, and [main] returns.  Apart from
    terminal output the run made the four health requests, the
    provisioning request and the one session: it neither waits nor asks
    for the messages. *)
Theorem send_failure_stops_debug_run (w : world) (response : response)
    (x : exn) :
  http w 4%nat SimpleDebug.generate_request = Ok response ->
  provisioned (Ok response) = true ->
  smtp w 5%nat (debug_delivery w (SimpleDebug.address (issued (json response))) 5)
    = Raise x ->
  res (SimpleDebug.main w 0%nat) = Ok tt
  /\ outside (trace (SimpleDebug.main w 0%nat)) =
     (map EHttp (map health_request SimpleDebug.services)
      ++ [EHttp SimpleDebug.generate_request;
          ESmtp (debug_delivery w
                   (SimpleDebug.address (issued (json response))) 5)])%list
  /\ exists lines,
       stdout (trace (SimpleDebug.main w 0%nat)) =
       (lines ++ [[Lit "❌ 发送到后端服务失败: "; Err x];
                  SimpleDebug.terminated])%list.
Proof.
  intros Hh Hp Hs.
  destruct (check_services_run w 0%nat) as (t1 & H1 & _ & _ & _ & Ho1).
  destruct (create_mailbox_provisioned w 4 response Hh Hp) as (t2 & H2 & Hl2).
  simpl in H1.
  unfold SimpleDebug.main, bind, print, emit. rewrite H1, H2.
  cbn [res tick trace SimpleDebug.address].
  unfold SimpleDebug.send_test_email, try, bind, now, smtp_session, print,
    emit, ret.
  unfold debug_delivery in Hs. rewrite Hs. cbn [res tick trace negb].
  split; [reflexivity|]. split.
  - simpl. rewrite !outside_app. simpl. rewrite !outside_app. simpl.
    rewrite Ho1, (local_outside _ Hl2). reflexivity.
  - simpl. rewrite !stdout_app. simpl. rewrite !stdout_app. simpl.
    ends_with.
Qed.

Lemma stdout_map_out (lines : list fstr) : stdout (map EOut lines) = lines.
Proof.
  induction lines as [|l lines IH]; [reflexivity|].
  cbn [map].
  change (stdout (EOut l :: map EOut lines)) with (l :: stdout (map EOut lines)).
  rewrite IH. reflexivity.
Qed.

(** The summary is printed by whether anything was received. *)
Lemma summary_lines (mailbox_id : value) (len : Z) (n : nat) :
  SimpleDebug.summary mailbox_id len n =
  Run (Ok tt) n (map EOut (debug_summary mailbox_id (0 <? len))).
Proof.
  unfold SimpleDebug.summary, debug_summary, bind, print, emit.
  destruct (0 <? len); reflexivity.
Qed.

(** X7. When the mailbox was provisioned and the test mail was
    accepted, the debug run returns, and its output ends with the
    summary: mailbox created, mail sent, and mail received exactly when
    the length of what the single retrieval call returned is greater
    than 0, followed by the pointer to the mailbox page in that case and
    by the troubleshooting list otherwise; this whatever the retrieval
    call was answered with. *)
Theorem debug_run_ends_with_summary (w : world) (response : response) :
  http w 4%nat SimpleDebug.generate_request = Ok response ->
  provisioned (Ok response) = true ->
  smtp w 5%nat (debug_delivery w (SimpleDebug.address (issued (json response))) 5)
    = Ok tt ->
  exists v len,
    res (SimpleDebug.check_mailbox_emails w
           (SimpleDebug.mailboxId (issued (json response)))
           (SimpleDebug.token (issued (json response))) 6%nat) = Ok v
    /\ py_len v = Ok len
    /\ res (SimpleDebug.main w 0%nat) = Ok tt
    /\ exists lines,
         stdout (trace (SimpleDebug.main w 0%nat)) =
         (lines ++ debug_summary (id_of (json response)) (0 <? len))%list.
Proof.
  intros Hh Hp Hs.
  destruct (check_services_run w 0%nat) as (t1 & H1 & _).
  destruct (create_mailbox_provisioned w 4 response Hh Hp) as (t2 & H2 & _).
  destruct (send_test_email_run w (SimpleDebug.address (issued (json response))) 5)
    as (t3 & H3 & _).
  rewrite Hs in H3. simpl is_ok in H3.
  destruct (wait_for_processing_run 6) as (t4 & H4 & _).
  destruct (check_mailbox_emails_run w
              (SimpleDebug.mailboxId (issued (json response)))
              (SimpleDebug.token (issued (json response))) 6)
    as (v & len & t5 & H5 & _ & Hlen & _).
  pose proof (summary_lines (SimpleDebug.mailboxId (issued (json response)))
                len 7) as H6.
  assert (Hid : SimpleDebug.mailboxId (issued (json response)) =
                id_of (json response)).
  { unfold issued, id_of. destruct (json response); reflexivity. }
  rewrite <- Hid.
  exists v, len. rewrite H5. split; [reflexivity|]. split; [exact Hlen|].
  simpl in H1. unfold SimpleDebug.main, bind, print, emit, lift.
  rewrite H1, H2.
  cbn [res tick trace SimpleDebug.address SimpleDebug.mailboxId
         SimpleDebug.token].
  rewrite H3. cbn [negb]. rewrite H4, H5, Hlen, H6. cbn [res tick trace].
  split; [reflexivity|].
  rewrite !stdout_app, stdout_map_out. ends_with.
Qed.

(** X8. [check_services] asks all four health endpoints, in the order
    of its table, whatever any of them answers (an exception, any
    status, any body), and returns; it does nothing else outside the
    terminal. *)
Theorem health_checks_are_independent (w : world) (n : nat) :
  exists t,
    SimpleDebug.check_services w n = Run (Ok tt) (n + 4)%nat t
    /\ outside t = map EHttp (map health_request SimpleDebug.services).
Proof.
  destruct (check_services_run w n) as (t & H & _ & _ & _ & Ho). eauto.
Qed.

(** ** The two domains: scripts/ws/test_current_setup.py *)

(** The run of [check_backend_status], with the number of calls it
    made. *)
Lemma check_backend_status_run (w : world) (n : nat) :
  res (CurrentSetup.check_backend_status w n) = Ok tt
  /\ outside (trace (CurrentSetup.check_backend_status w n)) =
     (if is_ok (http w n backend_health_request)
      then [EHttp backend_health_request; EHttp mail_health_request]
      else [EHttp backend_health_request])
  /\ tick (CurrentSetup.check_backend_status w n) =
     (if is_ok (http w n backend_health_request) then S (S n) else S n).
Proof.
  unfold CurrentSetup.check_backend_status, backend_health_request,
    mail_health_request, try, bind, http_call, lift, print, emit, py_get.
  destruct (http w n _) as [first|x]; simpl; [|auto].
  destruct (status_code first =? 200); simpl;
    destruct (http w (S n) _) as [second|x]; simpl; auto;
    destruct (status_code second =? 200); simpl; auto;
    destruct (json second) as [[]|]; simpl; auto;
    repeat match goal with
           | |- context [match lookup ?k ?d with _ => _ end] =>
               destruct (lookup k d) as [[]|]; simpl; auto
           end.
Qed.

(** X9. [check_backend_status] of test_current_setup.py always
    returns.  Its two health requests share one [try]: when the first
    request raises, the mail health request is not made; when the first
    is answered, with whatever status, the second is made too. *)
Theorem backend_status_stops_at_first_exception (w : world) (n : nat) :
  res (CurrentSetup.check_backend_status w n) = Ok tt
  /\ outside (trace (CurrentSetup.check_backend_status w n)) =
     (if is_ok (http w n backend_health_request)
      then [EHttp backend_health_request; EHttp mail_health_request]
      else [EHttp backend_health_request]).
Proof.
  destruct (check_backend_status_run w n) as (Hr & Ho & _). auto.
Qed.

Lemma sessions_outside (t : list event) : sessions t = sessions (outside t).
Proof.
  induction t as [|e t IH]; [reflexivity|].
  destruct e; simpl; rewrite ?IH; reflexivity.
Qed.

Lemma test_with_domain_run (w : world) (domain : string) (n : nat) :
  exists t,
    CurrentSetup.test_with_domain w domain n =
      Run (Ok (is_ok (smtp w n (domain_delivery w domain n)))) (S n) t
    /\ outside t = [ESmtp (domain_delivery w domain n)].
Proof.
  unfold CurrentSetup.test_with_domain, domain_delivery, try, bind, timestamp,
    smtp_session, print, emit, ret.
  cbv zeta. simpl.
  destruct (smtp w n _); simpl; eexists; split; reflexivity.
Qed.

(** X10. [main] of test_current_setup.py always runs both domain
    tests, 127.0.0.1 first and nnu.edu.kg second, whatever the health
    checks and the first test did; each test opens one session to
    localhost:2525 for the address test<epoch seconds>@<domain>.  [main]
    returns, and its output ends with the advice the outcome of the two
    sessions selects: 127.0.0.1 whenever its session completed,
    nnu.edu.kg when only that session completed, the checklist when both
    failed. *)
Theorem setup_runs_both_domain_tests (w : world) :
  let k := if is_ok (http w 0%nat backend_health_request) then 2%nat else 1%nat in
  let success_127 := is_ok (smtp w k (domain_delivery w "127.0.0.1" k)) in
  let success_nnu :=
    is_ok (smtp w (S k) (domain_delivery w "nnu.edu.kg" (S k))) in
  res (CurrentSetup.main w 0%nat) = Ok tt
  /\ sessions (trace (CurrentSetup.main w 0%nat)) =
     [domain_delivery w "127.0.0.1" k; domain_delivery w "nnu.edu.kg" (S k)]
  /\ exists lines,
       stdout (trace (CurrentSetup.main w 0%nat)) =
       (lines ++ setup_advice success_127 success_nnu)%list.
Proof.
  intros k success_127 success_nnu.
  destruct (check_backend_status_run w 0%nat) as (Hr & Ho & Ht).
  fold k in Ht.
  destruct (test_with_domain_run w "127.0.0.1" k) as (t2 & H2 & Ho2).
  destruct (test_with_domain_run w "nnu.edu.kg" (S k)) as (t3 & H3 & Ho3).
  fold success_127 in H2. fold success_nnu in H3.
  assert (Hs1 : sessions (trace (CurrentSetup.check_backend_status w 0%nat)) = []).
  { rewrite sessions_outside, Ho.
    destruct (is_ok (http w 0%nat backend_health_request)); reflexivity. }
  unfold CurrentSetup.main, CurrentSetup.test_with_127_domain,
    CurrentSetup.test_with_nnu_domain, bind, print, emit.
  destruct (CurrentSetup.check_backend_status w 0%nat) as [r1 k1 t1].
  cbn [res tick trace] in *. subst r1 k1. rewrite H2, H3.
  assert (Hs2 : sessions t2 = [domain_delivery w "127.0.0.1" k])
    by (rewrite sessions_outside, Ho2; reflexivity).
  assert (Hs3 : sessions t3 = [domain_delivery w "nnu.edu.kg" (S k)])
    by (rewrite sessions_outside, Ho3; reflexivity).
  unfold setup_advice.
  destruct success_127, success_nnu; cbn [res tick trace];
    (split; [reflexivity|]);
    (split;
     [ rewrite !sessions_app, Hs1, Hs2, Hs3; reflexivity
     | rewrite !stdout_app; cbn [stdout]; ends_with ]).
Qed.

(** ** The scripts with a [with] block: send_test_mail.py and
    test_external_email.py *)

Lemma for_each_print (lines : list fstr) (n : nat) :
  for_each lines print n = Run (Ok tt) n (map EOut lines).
Proof.
  unfold for_each. induction lines as [|l lines IH]; [reflexivity|].
  simpl. unfold bind at 1. unfold print at 1, emit. rewrite IH. reflexivity.
Qed.

(** The [except smtplib.SMTPException] clause comes after
    [except socket.error] and is never entered. *)
Lemma smtp_clause_unreachable (x : exn) :
  isinstance_OSError x = false -> isinstance_SMTPException x = false.
Proof. destruct x; simpl; congruence. Qed.

Ltac handler x :=
  let E := fresh "E" in
  destruct (isinstance_OSError x) eqn:E;
  [ | rewrite (smtp_clause_unreachable x E) ].

(** X11. send_test_mail.py always returns.  When the connection cannot
    be made nothing else is attempted; once it is made, the message is
    handed to [sendmail] and QUIT is sent, also when [sendmail] raised.
    The success line is printed exactly when the connection was made and
    [sendmail] returned (also when QUIT raised after it).  No line that
    starts with "SMTP error: " is ever printed: [smtplib.SMTPException]
    is an [OSError], which the clause before it takes. *)
Theorem mailhog_session_is_always_closed (w : world) (n : nat) :
  res (SendTestMail.main w n) = Ok tt
  /\ outside (trace (SendTestMail.main w n)) = session_steps w mailhog_delivery n
  /\ (In [Lit "Email sent successfully to ";
          Val (VStr SendTestMail.recipient_email)]
         (stdout (trace (SendTestMail.main w n)))
      <-> handed_over w mailhog_delivery n = true)
  /\ forallb (fun line => negb (headed "SMTP error: " line))
       (stdout (trace (SendTestMail.main w n))) = true.
Proof.
  unfold SendTestMail.main, SendTestMail.send_test_email, with_session,
    session_steps, handed_over, mailhog_delivery, try, bind, finally,
    connect, sendmail, quit, print, emit.
  rewrite !for_each_print. cbn [host port].
  destruct (smtp_connect w n "127.0.0.1" 2525) as [[]|x1]; cbn -[String.eqb];
    [ destruct (smtp_sendmail w (S n) _) as [[]|x2]; cbn -[String.eqb];
      destruct (smtp_quit w (S (S n))) as [[]|x3]; cbn -[String.eqb] | ];
    try handler x3; try handler x2; try handler x1; cbn;
    repeat split; try discriminate; auto;
    intros H; repeat (destruct H as [H|H]; try discriminate H); auto.
Qed.

(** X12. The same for test_external_email.py, which talks to port
    1025: the script always returns; after a connection the message is
    handed over and QUIT is sent whatever [sendmail] did; the line that
    reports the simulation as sent is printed exactly when the
    connection was made and [sendmail] returned; the "SMTP error" line
    is never printed. *)
Theorem external_session_is_always_closed (w : world) (n : nat) :
  res (ExternalEmail.main w n) = Ok tt
  /\ outside (trace (ExternalEmail.main w n)) =
     session_steps w external_delivery n
  /\ (In [Lit "📧 External email simulation sent to ";
          Val (VStr ExternalEmail.recipient_email)]
         (stdout (trace (ExternalEmail.main w n)))
      <-> handed_over w external_delivery n = true)
  /\ forallb (fun line => negb (headed "❌ SMTP error: " line))
       (stdout (trace (ExternalEmail.main w n))) = true.
Proof.
  unfold ExternalEmail.main, ExternalEmail.send_external_email, with_session,
    session_steps, handed_over, external_delivery, try, bind, finally,
    connect, sendmail, quit, print, emit.
  rewrite !for_each_print. cbn [host port].
  destruct (smtp_connect w n "127.0.0.1" 1025) as [[]|x1]; cbn -[String.eqb];
    [ destruct (smtp_sendmail w (S n) _) as [[]|x2]; cbn -[String.eqb];
      destruct (smtp_quit w (S (S n))) as [[]|x3]; cbn -[String.eqb] | ];
    try handler x3; try handler x2; try handler x1; cbn;
    repeat split; try discriminate; auto;
    intros H; repeat (destruct H as [H|H]; try discriminate H); auto.
Qed.

(** ** scripts/ws/manual_websocket_test.py *)

Lemma manual_send_nth_run (w : world) (i n : nat) :
  exists t,
    ManualWebsocket.send_nth w i n = Run (Ok tt) (S n) t
    /\ outside t = paced w 2 i n (manual_delivery w i n).
Proof.
  unfold ManualWebsocket.send_nth, paced, manual_delivery, try, bind, now,
    smtp_session, print, sleep, emit, ret.
  cbv zeta.
  destruct (smtp w n _) as [[]|x]; destruct (Z.of_nat i <? 2);
    simpl; eexists; split; reflexivity.
Qed.

(** X13. manual_websocket_test.py asks for confirmation before it sends
    anything.  When the prompt raises (end of input), nothing is sent and
    the exception leaves [main].  Otherwise the three sessions are
    opened, from manual-test-1, -2 and -3, whatever the earlier ones did,
    a pause of two seconds follows a session exactly when it completed
    and is not the last, and [main] returns. *)
Theorem manual_run_is_paced (w : world) :
  res (ManualWebsocket.main w 0%nat) =
    match input w 0%nat manual_prompt with
    | Ok _ => Ok tt
    | Raise x => Raise x
    end
  /\ outside (trace (ManualWebsocket.main w 0%nat)) =
     (EInput manual_prompt ::
      match input w 0%nat manual_prompt with
      | Ok _ =>
          paced w 2 0 1 (manual_delivery w 0 1)
          ++ paced w 2 1 2 (manual_delivery w 1 2)
          ++ paced w 2 2 3 (manual_delivery w 2 3)
      | Raise _ => []
      end)%list.
Proof.
  destruct (manual_send_nth_run w 0 1) as (t0 & H0 & O0).
  destruct (manual_send_nth_run w 1 2) as (t1 & H1 & O1).
  destruct (manual_send_nth_run w 2 3) as (t2 & H2 & O2).
  unfold ManualWebsocket.main.
  change (range 3) with [0; 1; 2]%nat.
  unfold for_each, for_fold, bind, print, py_input, emit, ret.
  fold manual_prompt.
  destruct (input w 0%nat manual_prompt) as [line|x].
  - rewrite H0, H1, H2. cbn [res tick trace]. split; [reflexivity|].
    rewrite <- O0, <- O1, <- O2.
    cbn [List.app]. unfold outside. cbn [filter is_local negb].
    rewrite !filter_app. cbn [filter is_local negb].
    rewrite !app_nil_r. reflexivity.
  - split; reflexivity.
Qed.

(** ** scripts/ws/test_frontend_websocket.py *)

Ltac returns_steps :=
  repeat first
    [ apply returns_ret | apply returns_print | apply returns_sleep
    | apply returns_try; intro
    | apply returns_bind; [|intro]
    | apply returns_for_each; intro
    | apply returns_if
    | match goal with
      | |- returns (match ?x with _ => _ end) => destruct x
      | |- returns (let _ := _ in _) => cbv zeta
      end
    | assumption ].

Lemma frontend_send_nth_run (w : world) (to : value) (i n : nat) :
  exists t,
    FrontendWebsocket.send_nth w to i n = Run (Ok tt) (S n) t
    /\ outside t = paced w 3 i n (frontend_delivery w to i n).
Proof.
  unfold FrontendWebsocket.send_nth, paced, frontend_delivery, try, bind, now,
    smtp_session, print, sleep, emit, ret.
  cbv zeta.
  destruct (smtp w n _) as [[]|x]; destruct (Z.of_nat i <? 2);
    simpl; eexists; split; reflexivity.
Qed.

Lemma check_integration_run (w : world) (n : nat) :
  exists t,
    FrontendWebsocket.check_integration w n = Run (Ok tt) (S n) t
    /\ outside t = [EHttp integration_request].
Proof.
  assert (Hr : returns (FrontendWebsocket.check_integration w)).
  { unfold FrontendWebsocket.check_integration. returns_steps. }
  destruct (Hr n) as [[] Hres].
  unfold FrontendWebsocket.check_integration in *. rewrite bind_print in *.
  match type of Hres with
  | context [try (bind _ ?k) ?h n] =>
      destruct (try_http w integration_request k h n)
        as (r & t & Heq & Hl); [intro; quiet_steps | intro; quiet_steps|]
  end.
  fold integration_request in Hres |- *.
  rewrite Heq in *. simpl in Hres. subst r. eexists. split; [reflexivity|].
  simpl. rewrite (local_outside _ Hl). reflexivity.
Qed.

Lemma outside_print (line : fstr) : outside [EOut line] = [].
Proof. reflexivity. Qed.

Ltac outside_steps :=
  repeat (rewrite ?outside_app; cbn [List.app]; unfold outside at 1;
          cbn [filter is_local negb];
          match goal with
          | |- context [filter (fun e => negb (is_local e)) ?t] =>
              fold (outside t)
          | _ => idtac
          end);
  rewrite ?outside_print;
  change (outside []) with (@nil event);
  cbn [List.app]; rewrite ?app_nil_r, <- ?app_assoc.

(** X14. test_frontend_websocket.py: without a mailbox the run ends
    after the provisioning request, with no prompt and no session, and
    [main] returns.  With a mailbox the prompt comes next; when it raises
    nothing is sent and the exception leaves [main]; otherwise three
    sessions to the issued address are opened, a pause of three seconds
    follows a session exactly when it completed and is not the last, the
    integration health endpoint is asked once, and [main] returns.  The
    token is shown on the terminal only: no outside call carries it. *)
Theorem frontend_run_needs_a_mailbox (w : world) :
  let mailbox := frontend_mailbox (http w 0%nat FrontendWebsocket.generate_request) in
  res (FrontendWebsocket.main w 0%nat) =
    match mailbox, input w 1%nat frontend_prompt with
    | Some _, Raise x => Raise x
    | _, _ => Ok tt
    end
  /\ outside (trace (FrontendWebsocket.main w 0%nat)) =
     (EHttp FrontendWebsocket.generate_request ::
      match mailbox with
      | None => []
      | Some (to, _, _) =>
          EInput frontend_prompt ::
          match input w 1%nat frontend_prompt with
          | Ok _ =>
              paced w 3 0 2 (frontend_delivery w to 0 2)
              ++ paced w 3 1 3 (frontend_delivery w to 1 3)
              ++ paced w 3 2 4 (frontend_delivery w to 2 4)
              ++ [EHttp integration_request]
          | Raise _ => []
          end
      end)%list.
Proof.
  intros mailbox.
  destruct (provision_shape w 0) as (tp & Hp & Lp). fold mailbox in Hp.
  assert (Op : outside tp = []) by (apply local_outside; exact Lp).
  unfold FrontendWebsocket.main.
  change (range 3) with [0; 1; 2]%nat.
  unfold for_each, for_fold, bind, print, py_input, emit, ret.
  rewrite Hp. cbv beta iota. fold frontend_prompt.
  destruct mailbox as [[[to id] token]|].
  - destruct (frontend_send_nth_run w to 0 2) as (t0 & H0 & O0).
    destruct (frontend_send_nth_run w to 1 3) as (t1 & H1 & O1).
    destruct (frontend_send_nth_run w to 2 4) as (t2 & H2 & O2).
    destruct (check_integration_run w 5) as (t3 & H3 & O3).
    destruct (input w 1%nat frontend_prompt) as [line|x].
    + rewrite H0, H1, H2, H3. cbn [res tick trace]. split; [reflexivity|].
      rewrite <- O0, <- O1, <- O2, <- O3.
      outside_steps. rewrite Op. reflexivity.
    + cbn [res tick trace]. split; [reflexivity|].
      outside_steps. rewrite Op. reflexivity.
  - cbn [res tick trace]. split; [reflexivity|].
    outside_steps. rewrite Op. reflexivity.
Qed.

(** ** The listing of the retrieved messages *)



(** ** The effects of the injector *)

Lemma NoDup_map_injective {A B} (f : A -> B) (l : list A) :
  (forall x y, f x = f y -> x = y) -> NoDup l -> NoDup (map f l).
Proof.
  intros Hinj Hl. induction Hl as [|x l Hx Hl IH]; simpl; constructor; auto.
  intros Hin. apply in_map_iff in Hin as (y & Hy & Hin).
  apply Hinj in Hy. subst y. contradiction.
Qed.

Section InjectorEffects.
Import SendTestEmail.
Variable w : world.

Lemma iteration_effects (a : args) (c : Z) (i n : nat) :
  outside (trace (iteration w a c i n)) = [ESmtp (nth_delivery a i)]
  /\ ~ In viewer_hint (stdout (trace (iteration w a c i n))).
Proof.
  unfold iteration, nth_delivery, send_html_email, send_test_email,
    smtp_session, try, bind, print, emit, ret, viewer_hint.
  destruct (html a); simpl;
    match goal with |- context [smtp w n ?d] => destruct (smtp w n d) end;
    simpl; (split; [reflexivity|]); intros H;
    repeat (destruct H as [H|H]; try discriminate H); exact H.
Qed.

Lemma loop_effects (a : args) (m : nat) : forall (k : nat) (c : Z),
  outside (trace (for_fold (seq k m) c (iteration w a) k)) =
    map (fun i => ESmtp (nth_delivery a i)) (seq k m)
  /\ ~ In viewer_hint (stdout (trace (for_fold (seq k m) c (iteration w a) k))).
Proof.
  induction m as [|m IH]; intros k c.
  - simpl. split; [reflexivity | intros []].
  - rewrite <- cons_seq, for_fold_cons.
    destruct (iteration_run w a c k k) as (Hres & Htick & _).
    destruct (iteration_effects a c k k) as (Hout & Hhint).
    rewrite (bind_ok _ _ _ _ Hres), Htick. cbn [res tick trace].
    destruct (IH (S k)
                (if is_ok (smtp w k (nth_delivery a k)) then c + 1 else c))
      as (Hout' & Hhint').
    rewrite outside_app, stdout_app, Hout, Hout'.
    split; [reflexivity|].
    intros H. apply in_app_or in H. tauto.
Qed.

Lemma stdout_print (line : fstr) (t : list event) :
  stdout (EOut line :: t) = line :: stdout t.
Proof. reflexivity. Qed.

Lemma some_completed (a : args) (n : nat) :
(0 <? Z.of_nat (List.length (filter (completed w a) (seq 0 n)))) = true
  <-> exists i, (i < n)%nat /\ completed w a i = true.
Proof.
  rewrite Z.ltb_lt. split.
  - intros H.
    destruct (filter (completed w a) (seq 0 n)) as [|i l] eqn:E;
      [simpl in H; lia|].
    assert (Hin : In i (filter (completed w a) (seq 0 n)))
      by (rewrite E; left; reflexivity).
    apply filter_In in Hin as [Hin Hc]. apply in_seq in Hin.
    exists i. split; [lia | exact Hc].
  - intros (i & Hi & Hc).
    assert (Hin : In i (filter (completed w a) (seq 0 n))).
    { apply filter_In. split; [apply in_seq; lia | exact Hc]. }
    destruct (filter (completed w a) (seq 0 n)); [destruct Hin | simpl; lia].
Qed.

(** X16. Apart from terminal output a run of the injector only opens
    its SMTP sessions, one per iteration: no HTTP request and no pause
    between messages.  The lines that point to the mail viewers are
    printed exactly when at least one session completed. *)
Theorem injector_only_sends (a : args) :
  let n := Z.to_nat (multiple a) in
  outside (trace (main w a 0%nat)) =
    map (fun i => ESmtp (nth_delivery a i)) (seq 0 n)
  /\ (In viewer_hint (stdout (trace (main w a 0%nat)))
      <-> exists i, (i < n)%nat /\ completed w a i = true).
Proof.
  intros n.
  destruct (loop_run w a n 0%nat 0) as (Hres & _).
  destruct (loop_effects a n 0%nat 0) as (Hout & Hhint).
  simpl Z.add in Hres.
  rewrite <- (some_completed a n).
  unfold main, range, bind, print, emit, ret. fold n.
  destruct (for_fold (seq 0 n) 0 (iteration w a) 0%nat) as [r1 k1 t1].
  cbn [res tick trace] in *. subst r1.
  destruct (0 <? Z.of_nat (List.length (filter (completed w a) (seq 0 n))));
    cbn [res tick trace]; outside_steps; rewrite Hout;
    (split; [rewrite ?app_nil_r; reflexivity|]);
    rewrite !stdout_print, stdout_app, !stdout_print.
  - split; [reflexivity|]. intros _.
    do 4 right. apply in_or_app. right. do 2 right. left. reflexivity.
  - split; [|discriminate]. intros H.
    do 4 (destruct H as [H|H]; [discriminate H|]).
    apply in_app_or in H. destruct H as [H|H]; [tauto|].
    repeat (destruct H as [H|H]; try discriminate H). destruct H.
Qed.

(** X17. In plain mode with more than one message asked for, no two
    messages of a run carry the same subject. *)
Theorem plain_subjects_never_repeat (a : args) :
  html a = false -> 1 < multiple a ->
  NoDup (map msg_subject (sent (trace (main w a 0%nat)))).
Proof.
  intros Hh Hm. rewrite main_sent, map_map.
  apply NoDup_map_injective; [|apply seq_NoDup].
  intros i j. unfold nth_delivery. rewrite Hh. cbn [data msg_subject plain_message].
  apply plain_subjects_distinct. exact Hm.
Qed.

(** X18. With a count of zero or less the injector contacts nothing: it
    prints the banner, the separator and the report of 0 out of the
    count, without the viewer lines, and returns. *)
Theorem nothing_to_send (a : args) :
  multiple a <= 0 ->
  res (main w a 0%nat) = Ok tt
  /\ outside (trace (main w a 0%nat)) = []
  /\ stdout (trace (main w a 0%nat)) =
     (injector_banner a ++ [[Lit (str_repeat "-" 50)]; report 0 (multiple a)])%list.
Proof.
  intros H. unfold main, range.
  replace (Z.to_nat (multiple a)) with 0%nat by lia.
  repeat split; reflexivity.
Qed.

End InjectorEffects.

(** ** The test page of scripts/ws/test_websocket_validation.py *)

(** X19. [main] of test_websocket_validation.py writes the test page
    exactly when [test_mailbox_id_format] returned a mailbox, once, as
    its second outside call, at scripts/ws/test_websocket_validation.html;
    the page carries the identifier, the token cut to 30 characters and
    the whole token.  Without a mailbox the provisioning request is the
    only outside call.  [main] returns unless the write raises; that
    exception leaves [main]. *)
Theorem validation_run_writes_page_once (w : world) :
  let info := format_mailbox (http w 0%nat WsValidation.generate_request) in
  res (WsValidation.main w 0%nat) =
    match info with
    | None => Ok tt
    | Some m =>
        match write_file w 1%nat WsValidation.html_path (page_of m) with
        | Ok _ => Ok tt
        | Raise x => Raise x
        end
    end
  /\ outside (trace (WsValidation.main w 0%nat)) =
     EHttp WsValidation.generate_request ::
     match info with
     | None => []
     | Some m => [EFile WsValidation.html_path (page_of m)]
     end.
Proof.
  intros info.
  destruct (test_mailbox_id_format_shape w 0) as (t & Hrun & Hl).
  fold info in Hrun.
  assert (Ot : outside t = []) by (apply local_outside; exact Hl).
  pose proof (format_token_sliceable w 0) as Hcut.
  unfold WsValidation.main, bind, print, emit.
  rewrite Hrun in *. cbv beta iota. cbn [res] in Hcut.
  destruct info as [m|].
  - destruct (Hcut m eq_refl) as [v Hv].
    unfold WsValidation.create_websocket_test_html, bind, lift, py_write,
      print, emit.
    unfold page_of, cut30. rewrite Hv. cbv beta iota.
    destruct (write_file w 1%nat _ _) as [[]|x]; cbn [res tick trace];
      (split; [reflexivity|]); outside_steps; rewrite Ot; reflexivity.
  - cbn [res tick trace]. split; [reflexivity|].
    outside_steps. rewrite Ot. reflexivity.
Qed.

(** ** Sample runs *)

(** A service that issues a 24-digit identifier: the three
    provisioning functions return the same mailbox. *)
Lemma provisioning_paths_agree_witness :
  res (SimpleDebug.create_mailbox (issuing "65f0c0ffee0123456789abcd") 0%nat) =
    Ok (Some {| SimpleDebug.address := VStr "box@nnu.edu.kg";
                SimpleDebug.mailboxId := VStr "65f0c0ffee0123456789abcd";
                SimpleDebug.token := VStr "secret" |})
  /\ res (FrontendWebsocket.provision (issuing "65f0c0ffee0123456789abcd") 0%nat) =
     Ok (Some (VStr "box@nnu.edu.kg", VStr "65f0c0ffee0123456789abcd",
               VStr "secret")).
Proof.
  apply (provisioning_paths_agree (issuing "65f0c0ffee0123456789abcd") 0%nat
           {| WsValidation.mailbox_id := VStr "65f0c0ffee0123456789abcd";
              WsValidation.token := VStr "secret";
              WsValidation.address := VStr "box@nnu.edu.kg" |}).
  reflexivity.
Defined.

(** The service of [ready] behind a listener that refuses the
    session. *)
Lemma send_failure_stops_debug_run_witness :
  res (SimpleDebug.main refusing 0%nat) = Ok tt
  /\ outside (trace (SimpleDebug.main refusing 0%nat)) =
     (map EHttp (map health_request SimpleDebug.services)
      ++ [EHttp SimpleDebug.generate_request;
          ESmtp (debug_delivery refusing (VStr "box@nnu.edu.kg") 5)])%list
  /\ exists lines,
       stdout (trace (SimpleDebug.main refusing 0%nat)) =
       (lines ++ [[Lit "❌ 发送到后端服务失败: "; Err ConnectionError];
                  SimpleDebug.terminated])%list.
Proof.
  apply (send_failure_stops_debug_run refusing ready_response ConnectionError);
    reflexivity.
Defined.

(** Three plain messages. *)
Lemma plain_subjects_never_repeat_witness :
  NoDup (map msg_subject
           (sent (trace (SendTestEmail.main calm plain_thrice 0%nat)))).
Proof.
  apply (plain_subjects_never_repeat calm plain_thrice); [reflexivity|].
  simpl. lia.
Defined.

(** A count of 0. *)
Lemma nothing_to_send_witness :
  res (SendTestEmail.main calm plain_none 0%nat) = Ok tt
  /\ outside (trace (SendTestEmail.main calm plain_none 0%nat)) = []
  /\ stdout (trace (SendTestEmail.main calm plain_none 0%nat)) =
     (injector_banner plain_none
      ++ [[Lit (str_repeat "-" 50)]; SendTestEmail.report 0 0])%list.
Proof.
  apply (nothing_to_send calm plain_none). simpl. lia.
Defined.


(** The run against [ready], where one message is retrieved: the
    summary says that the mail was received. *)
Lemma debug_run_ends_with_summary_witness :
  res (SimpleDebug.main ready 0%nat) = Ok tt
  /\ exists lines,
       stdout (trace (SimpleDebug.main ready 0%nat)) =
       (lines ++ debug_summary (VStr "65f0c0ffee0123456789abcd") true)%list.
Proof.
  destruct (debug_run_ends_with_summary ready ready_response
              eq_refl eq_refl eq_refl)
    as (v & len & Hv & Hlen & Hres & lines & Hout).
  vm_compute in Hv. inversion Hv; subst v.
  vm_compute in Hlen. inversion Hlen; subst len.
  split; [exact Hres|]. exists lines. exact Hout.
Defined.

(** ** The integration report of test_frontend_websocket.py *)

(** X20. Step 4 of test_frontend_websocket.py, for an integration
    health endpoint that answers 200 with a JSON object.  Where the
    [integration] section is absent from the object (it then counts as
    empty) or is an object, every field that is present is printed with
    its value, the health flag as text according to its truth value; an
    absent health flag reads as unhealthy, an absent counter as 0 and an
    absent success rate as "0%".  Where the section is present and is
    not an object ([null], a string, a number), no field is printed: the
    status heading is followed by the line that reports the
    [AttributeError]. *)
Theorem integration_fields_and_defaults (w : world) (n : nat)
    (response : response) (data : list (string * value)) :
  http w n integration_request = Ok response ->
  status_code response = 200 ->
  json response = Ok (VDict data) ->
  (forall info,
     section_of "integration" data = Some info ->
     stdout (trace (FrontendWebsocket.check_integration w n)) =
     [ [Lit "🔍 检查后端集成服务状态..."];
       [Lit "✅ 集成服务状态:"];
       [Lit "   健康状态: ";
        Lit (if truthy (or_default VNone (lookup "isHealthy" info))
             then "✅ 健康" else "❌ 异常")];
       [Lit "   处理邮件数: ";
        Val (or_default (VInt 0) (lookup "totalMails" info))];
       [Lit "   成功推送数: ";
        Val (or_default (VInt 0) (lookup "successfulBroadcasts" info))];
       [Lit "   失败推送数: ";
        Val (or_default (VInt 0) (lookup "failedBroadcasts" info))];
       [Lit "   成功率: ";
        Val (or_default (VStr "0%") (lookup "successRate" info))] ])
  /\ (section_of "integration" data = None ->
      stdout (trace (FrontendWebsocket.check_integration w n)) =
      [ [Lit "🔍 检查后端集成服务状态..."];
        [Lit "✅ 集成服务状态:"];
        [Lit "❌ 集成服务检查异常: "; Err AttributeError] ]).
Proof.
  intros Hh Hs Hj.
  unfold section_of.
  unfold FrontendWebsocket.check_integration, try, bind, http_call, lift,
    print, emit, py_get, or_default.
  fold integration_request. rewrite Hh, Hs, Hj. simpl.
  split.
  - intros info Hi.
    destruct (lookup "integration" data) as [[]|];
      inversion Hi; subst; reflexivity.
  - intros Hi.
    destruct (lookup "integration" data) as [[]|];
      try discriminate Hi; reflexivity.
Qed.

(** An endpoint that reports a true health flag and three mails, and
    nothing else: the two fields are printed as sent, the others with
    their defaults. *)
Lemma integration_fields_and_defaults_witness :
  stdout (trace (FrontendWebsocket.check_integration integration_reporting
                   0%nat)) =
  [ [Lit "🔍 检查后端集成服务状态..."];
    [Lit "✅ 集成服务状态:"];
    [Lit "   健康状态: "; Lit "✅ 健康"];
    [Lit "   处理邮件数: "; Val (VInt 3)];
    [Lit "   成功推送数: "; Val (VInt 0)];
    [Lit "   失败推送数: "; Val (VInt 0)];
    [Lit "   成功率: "; Val (VStr "0%")] ].
Proof.
  apply (proj1 (integration_fields_and_defaults integration_reporting 0%nat
                  {| status_code := 200; text := "...";
                     json := Ok (VDict [("integration",
                                         VDict [("isHealthy", VBool true);
                                                ("totalMails", VInt 3)])]) |}
                  [("integration",
                    VDict [("isHealthy", VBool true); ("totalMails", VInt 3)])]
                  eq_refl eq_refl eq_refl)
           [("isHealthy", VBool true); ("totalMails", VInt 3)]).
  reflexivity.
Defined.

(** A [null] section: no field is printed, for the integration report
    and for the services of the debug run alike. *)
Example null_section_prints_no_field :
  stdout (trace (FrontendWebsocket.check_integration null_sections 0%nat)) =
    [ [Lit "🔍 检查后端集成服务状态..."];
      [Lit "✅ 集成服务状态:"];
      [Lit "❌ 集成服务检查异常: "; Err AttributeError] ]
  /\ stdout (trace (SimpleDebug.check_service null_sections
                      ("邮件服务", "http://localhost:3001/api/../health/mail")
                      1%nat)) =
     [ [Lit "✅ "; Val (VStr "邮件服务"); Lit ": 正常"];
       [Lit "❌ "; Val (VStr "邮件服务"); Lit ": 连接失败 - ";
        Err AttributeError] ].
Proof. split; reflexivity. Qed.

(** * The exit status of the scripts *)

(** The exception a [with] block ends with is the one the script
    prints. *)
Lemma mailhog_block_is_reported (w : world) (x : exn) :
  block_outcome w mailhog_delivery 0 = Raise x ->
  In [Lit (if isinstance_OSError x then "Connection error: " else "Error: ");
      Err x]
     (stdout (trace (SendTestMail.main w 0%nat))).
Proof.
  unfold SendTestMail.main, SendTestMail.send_test_email, with_session,
    block_outcome, mailhog_delivery, try, bind, finally,
    connect, sendmail, quit, print, emit.
  rewrite !for_each_print. cbn [host port].
  destruct (smtp_connect w 0%nat "127.0.0.1" 2525) as [[]|x1]; cbn -[String.eqb];
    [ destruct (smtp_sendmail w 1%nat _) as [[]|x2]; cbn -[String.eqb];
      destruct (smtp_quit w 2%nat) as [[]|x3]; cbn -[String.eqb] | ];
    intros H; inversion H; subst; handler x; cbn; auto 10.
Qed.

Lemma external_block_is_reported (w : world) (x : exn) :
  block_outcome w external_delivery 0 = Raise x ->
  In [Lit (if isinstance_OSError x
           then "❌ Connection error: " else "❌ Error: ");
      Err x]
     (stdout (trace (ExternalEmail.main w 0%nat))).
Proof.
  unfold ExternalEmail.main, ExternalEmail.send_external_email, with_session,
    block_outcome, external_delivery, try, bind, finally,
    connect, sendmail, quit, print, emit.
  rewrite !for_each_print. cbn [host port].
  destruct (smtp_connect w 0%nat "127.0.0.1" 1025) as [[]|x1]; cbn -[String.eqb];
    [ destruct (smtp_sendmail w 1%nat _) as [[]|x2]; cbn -[String.eqb];
      destruct (smtp_quit w 2%nat) as [[]|x3]; cbn -[String.eqb] | ];
    intros H; inversion H; subst; handler x; cbn; auto 10.
Qed.

(** The prompts and the page write are outside every [try]. *)
Lemma manual_prompt_refused (w : world) (x : exn) :
  input w 0%nat manual_prompt = Raise x ->
  res (ManualWebsocket.main w 0%nat) = Raise x.
Proof.
  intros H. unfold ManualWebsocket.main, bind, print, py_input, emit.
  fold manual_prompt. rewrite H. reflexivity.
Qed.

Lemma frontend_main_result (w : world) :
  res (FrontendWebsocket.main w 0%nat) =
  match frontend_mailbox (http w 0%nat FrontendWebsocket.generate_request),
        input w 1%nat frontend_prompt with
  | Some _, Raise x => Raise x
  | _, _ => Ok tt
  end.
Proof.
  destruct (provision_shape w 0) as (tp & Hp & _).
  unfold FrontendWebsocket.main.
  change (range 3) with [0; 1; 2]%nat.
  unfold for_each, for_fold, bind, print, py_input, emit, ret.
  rewrite Hp. cbv beta iota. fold frontend_prompt.
  destruct (frontend_mailbox (http w 0%nat FrontendWebsocket.generate_request))
    as [[[to id] token]|]; [|reflexivity].
  destruct (frontend_send_nth_run w to 0 2) as (t0 & H0 & _).
  destruct (frontend_send_nth_run w to 1 3) as (t1 & H1 & _).
  destruct (frontend_send_nth_run w to 2 4) as (t2 & H2 & _).
  destruct (check_integration_run w 5) as (t3 & H3 & _).
  destruct (input w 1%nat frontend_prompt) as [line|x]; [|reflexivity].
  rewrite H0, H1, H2, H3. reflexivity.
Qed.

Lemma validation_main_result (w : world) :
  res (WsValidation.main w 0%nat) =
  match format_mailbox (http w 0%nat WsValidation.generate_request) with
  | None => Ok tt
  | Some m =>
      match write_file w 1%nat "scripts/ws/test_websocket_validation.html"
              (page_of m) with
      | Ok _ => Ok tt
      | Raise x => Raise x
      end
  end.
Proof.
  destruct (test_mailbox_id_format_shape w 0) as (t & Hrun & _).
  pose proof (format_token_sliceable w 0) as Hcut.
  unfold WsValidation.main, bind, print, emit.
  rewrite Hrun in *. cbv beta iota. cbn [res] in Hcut.
  destruct (format_mailbox (http w 0%nat WsValidation.generate_request))
    as [m|]; [|reflexivity].
  destruct (Hcut m eq_refl) as [v Hv].
  unfold WsValidation.create_websocket_test_html, bind, lift, py_write,
    print, emit.
  unfold page_of, cut30. rewrite Hv. cbv beta iota.
  change WsValidation.html_path
    with "scripts/ws/test_websocket_validation.html".
  destruct (write_file w 1%nat _ _) as [[]|x]; reflexivity.
Qed.

(** C8, as the code has it.  Whatever the outcome of every SMTP
    session and of every HTTP call (provisioning, retrieval, health),
    the [main] of each of the eight scripts returns, so the script ends
    with status 0; for the two scripts that prompt on the terminal this
    holds when the prompt is answered, and for the script that writes the
    test page when the page can be written.  In every run of every
    script each outside call that raised is accounted for: its exception
    is caught and shown in a line printed afterwards, unless it is the
    uncaught exception the run ends with.  For the two scripts that hold
    the SMTP session in a [with] block, some exception is shown after
    every call that raised, and the exception the block ended with
    (that of the connection, else that of QUIT, else that of [sendmail])
    is shown in the "Connection error" line, or in the "Error" line when
    it is not an [OSError].  The prompt and the page write are not
    guarded: manual_websocket_test.py ends with the exception of its
    prompt, test_frontend_websocket.py with that of its prompt when a
    mailbox was provisioned, test_websocket_validation.py with that of
    the page write when a mailbox was returned, each with status 1;
    without a mailbox the last two scripts end with status 0 whatever
    the terminal and the file system do. *)
Theorem exit_status_zero (w : world) :
  (exit_code (SendTestMail.main w 0%nat) = 0
   /\ exit_code (ExternalEmail.main w 0%nat) = 0
   /\ (forall a, exit_code (SendTestEmail.main w a 0%nat) = 0)
   /\ exit_code (SimpleDebug.main w 0%nat) = 0
   /\ exit_code (CurrentSetup.main w 0%nat) = 0
   /\ (page_writable w -> exit_code (WsValidation.main w 0%nat) = 0)
   /\ (prompt_answered w ->
       exit_code (ManualWebsocket.main w 0%nat) = 0
       /\ exit_code (FrontendWebsocket.main w 0%nat) = 0))
  /\ (noticed w 0 (SendTestMail.main w 0%nat)
      /\ noticed w 0 (ExternalEmail.main w 0%nat)
      /\ (forall a, accounted w 0 (SendTestEmail.main w a 0%nat))
      /\ accounted w 0 (SimpleDebug.main w 0%nat)
      /\ accounted w 0 (CurrentSetup.main w 0%nat)
      /\ accounted w 0 (WsValidation.main w 0%nat)
      /\ accounted w 0 (ManualWebsocket.main w 0%nat)
      /\ accounted w 0 (FrontendWebsocket.main w 0%nat))
  /\ ((forall x,
         block_outcome w mailhog_delivery 0 = Raise x ->
         In [Lit (if isinstance_OSError x
                  then "Connection error: " else "Error: ");
             Err x]
            (stdout (trace (SendTestMail.main w 0%nat))))
      /\ (forall x,
            block_outcome w external_delivery 0 = Raise x ->
            In [Lit (if isinstance_OSError x
                     then "❌ Connection error: " else "❌ Error: ");
                Err x]
               (stdout (trace (ExternalEmail.main w 0%nat)))))
  /\ ((forall x,
         input w 0%nat manual_prompt = Raise x ->
         res (ManualWebsocket.main w 0%nat) = Raise x
         /\ exit_code (ManualWebsocket.main w 0%nat) = 1)
      /\ (forall m x,
            frontend_mailbox (http w 0%nat FrontendWebsocket.generate_request)
              = Some m ->
            input w 1%nat frontend_prompt = Raise x ->
            res (FrontendWebsocket.main w 0%nat) = Raise x
            /\ exit_code (FrontendWebsocket.main w 0%nat) = 1)
      /\ (frontend_mailbox (http w 0%nat FrontendWebsocket.generate_request)
            = None ->
          exit_code (FrontendWebsocket.main w 0%nat) = 0)
      /\ (forall m x,
            format_mailbox (http w 0%nat WsValidation.generate_request)
              = Some m ->
            write_file w 1%nat "scripts/ws/test_websocket_validation.html"
              (page_of m) = Raise x ->
            res (WsValidation.main w 0%nat) = Raise x
            /\ exit_code (WsValidation.main w 0%nat) = 1)
      /\ (format_mailbox (http w 0%nat WsValidation.generate_request) = None ->
          exit_code (WsValidation.main w 0%nat) = 0)).
Proof.
  split; [|split; [|split]].
  - split; [apply returns_exit, returns_send_test_mail|].
    split; [apply returns_exit, returns_external_email|].
    split.
    { intros a. unfold exit_code.
      destruct (main_run w a) as (-> & _). reflexivity. }
    split; [unfold exit_code; rewrite simple_debug_returns; reflexivity|].
    split; [apply returns_exit, returns_current_setup|].
    split.
    { intros H. unfold exit_code. rewrite (validation_returns w H). reflexivity. }
    intros H.
    split; apply returns_exit; [apply returns_manual | apply returns_frontend];
      exact H.
  - split; [apply heedful_send_test_mail|].
    split; [apply heedful_external_email|].
    split; [intro a; apply tidy_send_test_email|].
    split; [apply tidy_simple_debug|].
    split; [apply tidy_current_setup|].
    split; [apply tidy_validation|].
    split; [apply tidy_manual | apply tidy_frontend].
  - split; [apply mailhog_block_is_reported | apply external_block_is_reported].
  - unfold exit_code. rewrite frontend_main_result, validation_main_result.
    split.
    { intros x H. rewrite (manual_prompt_refused w x H). auto. }
    split; [intros m x -> ->; auto|].
    split; [intros ->; reflexivity|].
    split; [intros m x -> ->; auto | intros ->; reflexivity].
Qed.

(** Against a service that issues a mailbox, with the terminal and the
    file system as they should be, the page is written, the prompt is
    reached, and the three scripts end with status 0.  Where the page
    cannot be written, or the terminal is at its end of input, the
    exception leaves [main]; where nothing listens, send_test_mail.py
    prints the exception of the connection. *)
Lemma exit_status_zero_witness :
  (exit_code (WsValidation.main (issuing "65f0c0ffee0123456789abcd") 0%nat) = 0
   /\ exit_code (ManualWebsocket.main (issuing "65f0c0ffee0123456789abcd") 0%nat) = 0
   /\ exit_code (FrontendWebsocket.main (issuing "65f0c0ffee0123456789abcd") 0%nat) = 0)
  /\ (exists text,
        In (EFile "scripts/ws/test_websocket_validation.html" text)
           (trace (WsValidation.main (issuing "65f0c0ffee0123456789abcd") 0%nat)))
  /\ In (EInput frontend_prompt)
        (trace (FrontendWebsocket.main (issuing "65f0c0ffee0123456789abcd") 0%nat))
  /\ res (WsValidation.main unwritable 0%nat) = Raise OSError
  /\ res (FrontendWebsocket.main closed_terminal 0%nat) = Raise EOFError
  /\ res (ManualWebsocket.main closed_terminal 0%nat) = Raise EOFError
  /\ In [Lit "Connection error: "; Err ConnectionError]
        (stdout (trace (SendTestMail.main no_listener 0%nat))).
Proof.
  split.
  { destruct (exit_status_zero (issuing "65f0c0ffee0123456789abcd"))
      as ((_ & _ & _ & _ & _ & Hpage & Hprompt) & _).
    split.
    - apply Hpage. intros n path text. reflexivity.
    - apply Hprompt. intros n prompt. exists "". reflexivity. }
  split; [eexists; vm_compute; auto 20|].
  split; [vm_compute; auto 30|].
  split.
  { destruct (exit_status_zero unwritable) as (_ & _ & _ & _ & _ & _ & Hw & _).
    apply (Hw {| WsValidation.mailbox_id := VStr "65f0c0ffee0123456789abcd";
                 WsValidation.token := VStr "secret";
                 WsValidation.address := VStr "box@nnu.edu.kg" |} OSError);
      reflexivity. }
  split.
  { destruct (exit_status_zero closed_terminal) as (_ & _ & _ & _ & Hf & _).
    apply (Hf (VStr "box@nnu.edu.kg", VStr "65f0c0ffee0123456789abcd",
               VStr "secret") EOFError);
      reflexivity. }
  split.
  { destruct (exit_status_zero closed_terminal) as (_ & _ & _ & Hm & _).
    apply (Hm EOFError). reflexivity. }
  destruct (exit_status_zero no_listener) as (_ & _ & (Hb & _) & _).
  apply (Hb ConnectionError). reflexivity.
Defined.

(** C8, as stated, fails: a script can end with a status other than 0,
    and the status can depend on a verification outcome.  The runs
    [unwritable] and [unwritable_refused] differ in the answer to the
    provisioning call only.  Where provisioning is refused,
    test_websocket_validation.py prints the failure and ends with status
    0; where the mailbox is issued and passes the format check, the page
    cannot be written, the [OSError] leaves [main], and the script ends
    with status 1. *)
Lemma exit_status_depends_on_provisioning :
  res (WsValidation.test_mailbox_id_format unwritable_refused 0%nat) = Ok None
  /\ exit_code (WsValidation.main unwritable_refused 0%nat) = 0
  /\ res (WsValidation.test_mailbox_id_format unwritable 0%nat) =
     Ok (Some {| WsValidation.mailbox_id := VStr "65f0c0ffee0123456789abcd";
                 WsValidation.token := VStr "secret";
                 WsValidation.address := VStr "box@nnu.edu.kg" |})
  /\ res (WsValidation.main unwritable 0%nat) = Raise OSError
  /\ exit_code (WsValidation.main unwritable 0%nat) = 1
  /\ exit_code (WsValidation.main unwritable 0%nat) <>
     exit_code (WsValidation.main unwritable_refused 0%nat).
Proof. repeat split. discriminate. Qed.
